(** * Task assignment and lifecycle reconciliation: a shallow embedding

    The development embeds the core of the automated development agents
    repository (src/core/task.py, src/core/agent.py, src/core/orchestrator.py)
    and states the properties of its specification over that embedding.

    Conventions.
    - Python objects that the code mutates are passed and returned
      explicitly: a method [m(self, x)] becomes a function of [self], [x]
      and of the collaborators it talks to, returning the new values.
    - A call that may raise returns an [outcome]; state reached before
      the exception is kept, as in Python.
    - A Python [dict] is an association list with unique keys kept in
      insertion order ([PyDict]); only the memory collaborator, whose
      iteration order is never observed by the core, uses [gmap].
    - A dictionary is a value. The core changes two dictionaries in
      place: the record handed to [report_progress] and the snapshot the
      handlers read from long-term memory. Where the core holds the same
      object in a second place, the change is written there as well:
      the agent's [current_task] when the agent is handed its own task,
      and the long-term slot the snapshot was read from. References to
      these objects kept elsewhere, by callers or under other keys of
      the collaborator, are outside the model.
    - A Python [str] is a list of characters with code points below 256. *)

From Stdlib Require Import ZArith String Ascii List Bool Sorted Lia.
From stdpp Require Import base option list gmap strings pretty.

Import ListNotations.
Local Open Scope string_scope.
Local Open Scope list_scope.
Local Open Scope Z_scope.

(** ** Python values *)

(** The values found behind the annotation [Any]: the JSON-like fragment
    that task dictionaries, progress records and world state hold. *)
#[warnings="-register-all"] Inductive pyval : Type :=
| PNone
| PBool (b : bool)
| PInt (n : Z)
| PStr (s : string)
| PList (l : list pyval)
| PDict (d : list (string * pyval)).

(** Exceptions of the embedded code. [Fault] is an exception raised inside
    the memory collaborator, carrying its message. *)
Inductive exn : Type :=
| KeyError (key : string)
| TypeError (msg : string)
| AttributeError (msg : string)
| Fault (msg : string).

Inductive outcome (A : Type) : Type :=
| Returns (a : A)
| Raises (e : exn).
Arguments Returns {A} a.
Arguments Raises {A} e.

(** ** Ordered dictionaries with string keys *)

Module PyDict.
Section Dict.
Context {V : Type}.

Definition t : Type := list (string * V).

(** [d.get(k)] *)
Fixpoint get (k : string) (d : list (string * V)) : option V :=
  match d with
  | [] => None
  | (k', v) :: d' => if String.eqb k k' then Some v else get k d'
  end.

(** [d.get(k, default)] *)
Definition get_default (k : string) (default : V) (d : list (string * V)) : V :=
  match get k d with Some v => v | None => default end.

(** [k in d] *)
Definition contains (k : string) (d : list (string * V)) : bool :=
  match get k d with Some _ => true | None => false end.

(** [d[k] = v]: an existing key keeps its position, a new key goes last. *)
Fixpoint set (k : string) (v : V) (d : list (string * V)) : list (string * V) :=
  match d with
  | [] => [(k, v)]
  | (k', v') :: d' =>
      if String.eqb k k' then (k', v) :: d' else (k', v') :: set k v d'
  end.

(** [d.keys()], [d.values()] in iteration order *)
Definition keys (d : list (string * V)) : list string := map fst d.
Definition values (d : list (string * V)) : list V := map snd d.

(** Keys are unique in a Python dictionary. *)
Definition wf (d : list (string * V)) : Prop := NoDup (keys d).

(** In-place mutation of the object stored under [k]. *)
Fixpoint alter (f : V -> V) (k : string) (d : list (string * V)) : list (string * V) :=
  match d with
  | [] => []
  | (k', v) :: d' =>
      if String.eqb k k' then (k', f v) :: d' else (k', v) :: alter f k d'
  end.
End Dict.
Arguments t V : clear implicits.
End PyDict.

Abbreviation dict := (PyDict.t pyval).

(** ** Builtins on Python values *)

(** [bool(v)], the test behind [if v], [not v] and [v or default]. *)
Definition truthy (v : pyval) : bool :=
  match v with
  | PNone => false
  | PBool b => b
  | PInt n => negb (n =? 0)
  | PStr s => negb (String.eqb s EmptyString)
  | PList l => match l with [] => false | _ => true end
  | PDict d => match d with [] => false | _ => true end
  end.

(** [v == s] for a string [s]: only an equal string is equal to it. *)
Definition py_eq_str (v : pyval) (s : string) : bool :=
  match v with PStr s' => String.eqb s' s | _ => false end.

(** [v in l] for a list of strings [l]. *)
Definition py_in_strs (v : pyval) (l : list string) : bool :=
  existsb (py_eq_str v) l.

Definition quote1 : ascii := ascii_of_nat 39.
Definition quote2 : ascii := ascii_of_nat 34.
Definition backslash : ascii := ascii_of_nat 92.

Definition hex_digit (n : N) : ascii :=
  ascii_of_N (if (n <? 10)%N then 48 + n else 87 + n)%N.

Definition printable (c : ascii) : bool :=
  let n := N_of_ascii c in
  negb ((n <? 32) || (n =? 127) || ((128 <=? n) && (n <=? 160)) || (n =? 173))%N.

Definition repr_char (quote c : ascii) : string :=
  let n := N_of_ascii c in
  if Ascii.eqb c quote || Ascii.eqb c backslash then String backslash (String c EmptyString)
  else if (n =? 9)%N then String backslash "t"
  else if (n =? 10)%N then String backslash "n"
  else if (n =? 13)%N then String backslash "r"
  else if printable c then String c EmptyString
  else String backslash (String "x" (String (hex_digit (n / 16)) (String (hex_digit (n mod 16)) EmptyString))).

Definition has_char (c : ascii) (s : string) : bool :=
  existsb (Ascii.eqb c) (list_ascii_of_string s).

(** [repr(s)] of a string: single quotes unless the text holds a single
    quote and no double quote. *)
Definition repr_str (s : string) : string :=
  let quote := if has_char quote1 s && negb (has_char quote2 s) then quote2 else quote1 in
  String quote (String.concat EmptyString (map (repr_char quote) (list_ascii_of_string s))
                +:+ String quote EmptyString).

(** [repr(v)] *)
Fixpoint py_repr (v : pyval) : string :=
  match v with
  | PNone => "None"
  | PBool true => "True"
  | PBool false => "False"
  | PInt n => pretty n
  | PStr s => repr_str s
  | PList l => "[" +:+ String.concat ", " (map py_repr l) +:+ "]"
  | PDict d =>
      "{" +:+ String.concat ", "
                (map (fun kv => match kv with
                                | (k, x) => repr_str k +:+ ": " +:+ py_repr x
                                end) d) +:+ "}"
  end.

(** [str(v)], the rendering used by f-strings. *)
Definition py_str (v : pyval) : string :=
  match v with PStr s => s | _ => py_repr v end.

(** [str(e)] of an exception, as logged by the handlers. *)
Definition exn_str (e : exn) : string :=
  match e with
  | KeyError k => repr_str k
  | TypeError msg | AttributeError msg | Fault msg => msg
  end.

(** [type(v).__name__], as it appears in the messages of type errors. *)
Definition type_name (v : pyval) : string :=
  match v with
  | PNone => "NoneType"
  | PBool _ => "bool"
  | PInt _ => "int"
  | PStr _ => "str"
  | PList _ => "list"
  | PDict _ => "dict"
  end.

Definition not_iterable (v : pyval) : exn :=
  TypeError ("'" +:+ type_name v +:+ "' object is not iterable").

Definition unhashable (v : pyval) : exn :=
  TypeError ("unhashable type: '" +:+ type_name v +:+ "'").

Definition no_attribute (v : pyval) (attribute : string) : exn :=
  AttributeError ("'" +:+ type_name v +:+ "' object has no attribute '" +:+ attribute +:+ "'").

Definition no_item_assignment (v : pyval) : exn :=
  match v with
  | PList _ => TypeError "list indices must be integers or slices, not str"
  | _ => TypeError ("'" +:+ type_name v +:+ "' object does not support item assignment")
  end.

(** Iteration [for x in v]. *)
Definition py_iter (v : pyval) : outcome (list pyval) :=
  match v with
  | PList l => Returns l
  | PStr s => Returns (map (fun c => PStr (String c EmptyString)) (list_ascii_of_string s))
  | PDict d => Returns (map (fun kv => PStr (fst kv)) d)
  | PNone | PBool _ | PInt _ => Raises (not_iterable v)
  end.

(** Logging: a logger is the list of records it was handed, oldest first. *)
Inductive level : Type := INFO | WARNING | ERROR.
Definition log_record : Type := level * string.
Definition emit (l : level) (msg : string) (logger : list log_record) : list log_record :=
  logger ++ [(l, msg)].

(** ** Task (src/core/task.py) *)

Module Task.

(** The attributes of a [Task] object, with the types its constructor
    annotates. [assigned_to] is an agent identifier or [None]; [result]
    is [Any], with [PNone] for [None]. *)
Record t : Type := mk {
  id : string;
  description : string;
  requirements : list string;
  required_capabilities : list string;
  priority : Z;
  dependencies : list string;
  context : dict;
  status : string;
  created_at : string;
  assigned_to : option string;
  result : pyval
}.

(** [x or default] on an optional argument of the constructor. *)
Definition or_list {A} (x : option (list A)) : list A :=
  match x with
  | Some (a :: l) => a :: l
  | Some [] | None => []
  end.

(** [Task.__init__]. [uuid4] is the value of [str(uuid.uuid4())] and
    [now] the value of [datetime.now().isoformat()] read by the call. *)
Definition init (uuid4 now : string)
    (description : string) (requirements : list string)
    (required_capabilities : option (list string)) (priority : Z)
    (dependencies : option (list string)) (context : option dict) : t :=
  {| id := uuid4;
     description := description;
     requirements := requirements;
     required_capabilities := or_list required_capabilities;
     priority := priority;
     dependencies := or_list dependencies;
     context := or_list context;
     status := "pending";
     created_at := now;
     assigned_to := None;
     result := PNone |}.

Definition strs (l : list string) : pyval := PList (map PStr l).

Definition opt_str (o : option string) : pyval :=
  match o with Some s => PStr s | None => PNone end.

(** [Task.to_dict] *)
Definition to_dict (self : t) : dict :=
  [ ("id", PStr (id self));
    ("description", PStr (description self));
    ("requirements", strs (requirements self));
    ("required_capabilities", strs (required_capabilities self));
    ("priority", PInt (priority self));
    ("dependencies", strs (dependencies self));
    ("context", PDict (context self));
    ("status", PStr (status self));
    ("created_at", PStr (created_at self));
    ("assigned_to", opt_str (assigned_to self));
    ("result", result self) ].

(** Result of building a task from a dictionary, or of updating one
    from a dictionary. [Untyped k]: Python builds an object, but the
    value it stores from key [k] is outside the annotated type of the
    attribute, so the object is not a [t]. *)
Inductive loaded (A : Type) : Type :=
| Loaded (a : A)
| LoadRaises (e : exn)
| Untyped (key : string).
Arguments Loaded {A} a.
Arguments LoadRaises {A} e.
Arguments Untyped {A} key.

#[export] Instance loaded_bind : MBind loaded := fun A B f x =>
  match x with
  | Loaded a => f a
  | LoadRaises e => LoadRaises e
  | Untyped k => Untyped k
  end.

(** [data[k]] *)
Definition item (k : string) (data : dict) : loaded pyval :=
  match PyDict.get k data with
  | Some v => Loaded v
  | None => LoadRaises (KeyError k)
  end.

Definition typed {A} (k : string) (x : option A) : loaded A :=
  match x with Some a => Loaded a | None => Untyped k end.

Definition as_str (v : pyval) : option string :=
  match v with PStr s => Some s | _ => None end.

Fixpoint as_strs (l : list pyval) : option (list string) :=
  match l with
  | [] => Some []
  | v :: l' =>
      match as_str v, as_strs l' with
      | Some s, Some ss => Some (s :: ss)
      | _, _ => None
      end
  end.

Definition as_str_list (v : pyval) : option (list string) :=
  match v with PList l => as_strs l | _ => None end.

Definition as_int (v : pyval) : option Z :=
  match v with PInt n => Some n | _ => None end.

Definition as_dict (v : pyval) : option dict :=
  match v with PDict d => Some d | _ => None end.

(** An optional constructor argument: a falsy value is replaced by the
    default whatever it is, a truthy one must have the annotated type. *)
Definition as_optional {A} (read : pyval -> option A) (v : pyval) : option (option A) :=
  if truthy v then option_map Some (read v) else Some None.

Definition as_opt_str (v : pyval) : option (option string) :=
  match v with
  | PNone => Some None
  | PStr s => Some (Some s)
  | _ => None
  end.

(** [Task.from_dict]. The lookups come first, in the order Python
    performs them; the typed reading of the values follows. *)
Definition from_dict (uuid4 now : string) (data : dict) : loaded t :=
  v_description ← item "description" data;
  v_requirements ← item "requirements" data;
  let v_required_capabilities := PyDict.get_default "required_capabilities" PNone data in
  let v_priority := PyDict.get_default "priority" (PInt 1) data in
  let v_dependencies := PyDict.get_default "dependencies" PNone data in
  let v_context := PyDict.get_default "context" PNone data in
  v_id ← item "id" data;
  v_status ← item "status" data;
  v_created_at ← item "created_at" data;
  let v_assigned_to := PyDict.get_default "assigned_to" PNone data in
  let v_result := PyDict.get_default "result" PNone data in
  a_description ← typed "description" (as_str v_description);
  a_requirements ← typed "requirements" (as_str_list v_requirements);
  a_required_capabilities ←
    typed "required_capabilities" (as_optional as_str_list v_required_capabilities);
  a_priority ← typed "priority" (as_int v_priority);
  a_dependencies ← typed "dependencies" (as_optional as_str_list v_dependencies);
  a_context ← typed "context" (as_optional as_dict v_context);
  a_id ← typed "id" (as_str v_id);
  a_status ← typed "status" (as_str v_status);
  a_created_at ← typed "created_at" (as_str v_created_at);
  a_assigned_to ← typed "assigned_to" (as_opt_str v_assigned_to);
  let task := init uuid4 now a_description a_requirements a_required_capabilities
                   a_priority a_dependencies a_context in
  (* Override auto-generated fields *)
  Loaded {| id := a_id;
            description := description task;
            requirements := requirements task;
            required_capabilities := required_capabilities task;
            priority := priority task;
            dependencies := dependencies task;
            context := context task;
            status := a_status;
            created_at := a_created_at;
            assigned_to := a_assigned_to;
            result := v_result |}.

(** One assignment [setattr(task, key, value)] to a data attribute,
    the value having the type of the attribute. *)
Inductive attr : Type :=
| Attr_id (v : string)
| Attr_description (v : string)
| Attr_requirements (v : list string)
| Attr_required_capabilities (v : list string)
| Attr_priority (v : Z)
| Attr_dependencies (v : list string)
| Attr_context (v : dict)
| Attr_status (v : string)
| Attr_created_at (v : string)
| Attr_assigned_to (v : option string)
| Attr_result (v : pyval).

Definition attr_name (a : attr) : string :=
  match a with
  | Attr_id _ => "id"
  | Attr_description _ => "description"
  | Attr_requirements _ => "requirements"
  | Attr_required_capabilities _ => "required_capabilities"
  | Attr_priority _ => "priority"
  | Attr_dependencies _ => "dependencies"
  | Attr_context _ => "context"
  | Attr_status _ => "status"
  | Attr_created_at _ => "created_at"
  | Attr_assigned_to _ => "assigned_to"
  | Attr_result _ => "result"
  end.

(** [setattr(task, key, value)] for a data attribute. *)
Definition setattr (self : t) (a : attr) : t :=
  let '(mk i d r rc p dp c s ca at_ res) := self in
  match a with
  | Attr_id v => mk v d r rc p dp c s ca at_ res
  | Attr_description v => mk i v r rc p dp c s ca at_ res
  | Attr_requirements v => mk i d v rc p dp c s ca at_ res
  | Attr_required_capabilities v => mk i d r v p dp c s ca at_ res
  | Attr_priority v => mk i d r rc v dp c s ca at_ res
  | Attr_dependencies v => mk i d r rc p v c s ca at_ res
  | Attr_context v => mk i d r rc p dp v s ca at_ res
  | Attr_status v => mk i d r rc p dp c v ca at_ res
  | Attr_created_at v => mk i d r rc p dp c s v at_ res
  | Attr_assigned_to v => mk i d r rc p dp c s ca v res
  | Attr_result v => mk i d r rc p dp c s ca at_ v
  end.

(** The methods the class defines besides the constructor. *)
Definition methods : list string := ["to_dict"; "from_dict"].

(** [not hasattr(task, key)] for a key that names no data attribute,
    where the name alone decides it: a Task object has the eleven data
    attributes, the methods of its class and the attributes of every
    object, whose names all start with an underscore. A name that is
    none of these is no attribute of the task. *)
Definition not_an_attribute (key : string) : bool :=
  match key with
  | EmptyString => true
  | String c _ => negb (Ascii.eqb c "_") && negb (existsb (String.eqb key) methods)
  end.

(** One step [if hasattr(task, key): setattr(task, key, value)] of
    the loop of [update_task], by the key.
    - A data attribute is assigned, whatever the value; the object is
      still a [t] when the value has the type of the attribute, and
      [Untyped key] otherwise.
    - A key that is no attribute of the task is skipped.
    - The remaining keys are the names of the methods and the names
      that start with an underscore, the attributes of every object
      among them ([__dict__], [__class__], [__doc__], ...). Where
      [hasattr] holds for such a key, the assignment replaces the
      attribute dictionary of the task, raises, or shadows a method.
      None of this is an assignment to an attribute of a [t]: the
      outcome is [Untyped key]. *)
Definition entry_assignment (key : string) (v : pyval) : loaded (option attr) :=
  if String.eqb key "id" then
    a ← typed key (as_str v); Loaded (Some (Attr_id a))
  else if String.eqb key "description" then
    a ← typed key (as_str v); Loaded (Some (Attr_description a))
  else if String.eqb key "requirements" then
    a ← typed key (as_str_list v); Loaded (Some (Attr_requirements a))
  else if String.eqb key "required_capabilities" then
    a ← typed key (as_str_list v); Loaded (Some (Attr_required_capabilities a))
  else if String.eqb key "priority" then
    a ← typed key (as_int v); Loaded (Some (Attr_priority a))
  else if String.eqb key "dependencies" then
    a ← typed key (as_str_list v); Loaded (Some (Attr_dependencies a))
  else if String.eqb key "context" then
    a ← typed key (as_dict v); Loaded (Some (Attr_context a))
  else if String.eqb key "status" then
    a ← typed key (as_str v); Loaded (Some (Attr_status a))
  else if String.eqb key "created_at" then
    a ← typed key (as_str v); Loaded (Some (Attr_created_at a))
  else if String.eqb key "assigned_to" then
    a ← typed key (as_opt_str v); Loaded (Some (Attr_assigned_to a))
  else if String.eqb key "result" then
    Loaded (Some (Attr_result v))
  else if not_an_attribute key then Loaded None
  else Untyped key.

(** The assignments that the loop [for key, value in updates.items()]
    makes, in order. *)
Fixpoint assignments (updates : dict) : loaded (list attr) :=
  match updates with
  | [] => Loaded []
  | (key, v) :: rest =>
      a ← entry_assignment key v;
      l ← assignments rest;
      Loaded (match a with Some a => a :: l | None => l end)
  end.

End Task.

(** ** TaskQueue (src/core/task.py) *)

(** [sorted(l, key=key, reverse=True)]: descending by key, and stable, so
    elements with equal keys keep the order they have in [l]. *)
Fixpoint insert_desc {A} (key : A -> Z) (x : A) (l : list A) : list A :=
  match l with
  | [] => [x]
  | y :: l' => if key x <? key y then y :: insert_desc key x l' else x :: y :: l'
  end.

Definition sorted_desc {A} (key : A -> Z) (l : list A) : list A :=
  fold_right (insert_desc key) [] l.

Module TaskQueue.

Record t : Type := mk { tasks : PyDict.t Task.t }.

(** [TaskQueue.__init__] *)
Definition init : t := {| tasks := [] |}.

(** [TaskQueue.add_task]. The body has no [raise]: the outcome is
    always [Returns]. *)
Definition add_task (self : t) (task : Task.t) : outcome string * t :=
  (Returns (Task.id task),
   {| tasks := PyDict.set (Task.id task) task (tasks self) |}).

(** [self.tasks.get(dep, Task("", [])).status]; the identifier and the
    timestamp of the throw-away default task are not observed. *)
Definition dependency_status (self : t) (dep : string) : string :=
  Task.status
    (PyDict.get_default dep
       (Task.init EmptyString EmptyString EmptyString [] None 1 None None)
       (tasks self)).

(** The three [continue] guards of the selection loop. *)
Definition eligible (self : t) (agent_capabilities : list string) (task : Task.t) : bool :=
  if negb (String.eqb (Task.status task) "pending") then false
  else if existsb (fun dep => negb (String.eqb (dependency_status self dep) "completed"))
                  (Task.dependencies task) then false
  else if negb (forallb (fun cap => existsb (String.eqb cap) agent_capabilities)
                        (Task.required_capabilities task)) then false
  else true.

(** The entries whose task the loop appends to [available_tasks]. The
    key is kept with the task: it identifies the object inside the
    queue, which callers go on to mutate. *)
Definition available_entries (self : t) (agent_capabilities : list string)
  : list (string * Task.t) :=
  List.filter (fun entry => eligible self agent_capabilities (snd entry)) (tasks self).

Definition available_tasks (self : t) (agent_capabilities : list string) : list Task.t :=
  map snd (available_entries self agent_capabilities).

Definition next_entry (self : t) (agent_capabilities : list string)
  : option (string * Task.t) :=
  match sorted_desc (fun entry => Task.priority (snd entry))
                    (available_entries self agent_capabilities) with
  | [] => None
  | entry :: _ => Some entry
  end.

(** [TaskQueue.get_next_task] *)
Definition get_next_task (self : t) (agent_capabilities : list string) : option Task.t :=
  option_map snd (next_entry self agent_capabilities).

(** [TaskQueue.update_task], the updates given as the assignments to
    data attributes that the loop makes. *)
Definition update_task (self : t) (task_id : string) (updates : list Task.attr)
  : bool * t :=
  match PyDict.get task_id (tasks self) with
  | None => (false, self)
  | Some task =>
      (true, {| tasks := PyDict.set task_id (fold_left Task.setattr updates task)
                                    (tasks self) |})
  end.

(** [TaskQueue.update_task], the updates given as the dictionary the
    caller writes. The keys are looked at only when the identifier is
    in the queue. *)
Definition update_task_dict (self : t) (task_id : string) (updates : dict)
  : Task.loaded (bool * t) :=
  if PyDict.contains task_id (tasks self) then
    match Task.assignments updates with
    | Task.Loaded assigned => Task.Loaded (update_task self task_id assigned)
    | Task.LoadRaises e => Task.LoadRaises e
    | Task.Untyped key => Task.Untyped key
    end
  else Task.Loaded (false, self).

(** Every key is the identifier of the task stored under it, as
    [add_task] stores them. *)
Definition keyed_by_id (self : t) : Prop :=
  Forall (fun entry => fst entry = Task.id (snd entry)) (tasks self).

End TaskQueue.

(** ** The memory collaborator *)

(** The client handed to agents and orchestrator is external; the
    repository ships a dictionary-backed stand-in (MockMTMAClient in
    src/main.py), which this module follows. Since callers guard the calls
    with [try], the environment may make a call raise: [faults] is the
    schedule of the coming calls, [Some msg] for a call that raises an
    exception with that message without touching the stores, [None] for a
    call that goes through. An exhausted schedule means no more faults. *)
Module MemoryClient.

Record t : Type := mk {
  short_term : gmap string pyval;
  long_term : gmap string pyval;
  world_state : gmap string pyval;
  faults : list (option string)
}.

Definition init (faults : list (option string)) : t :=
  {| short_term := ∅; long_term := ∅; world_state := ∅; faults := faults |}.

Definition with_faults (fs : list (option string)) (self : t) : t :=
  {| short_term := short_term self; long_term := long_term self;
     world_state := world_state self; faults := fs |}.

Definition call {A} (self : t) (run : t -> A * t) : outcome A * t :=
  match faults self with
  | Some msg :: rest => (Raises (Fault msg), with_faults rest self)
  | None :: rest => let (a, m) := run (with_faults rest self) in (Returns a, m)
  | [] => let (a, m) := run self in (Returns a, m)
  end.

(** [d.get(key)]: [None] when the key is absent. *)
Definition lookup_or_none (key : string) (d : gmap string pyval) : pyval :=
  default PNone (d !! key).

Definition store_short_term (key : string) (value : pyval) (self : t) : outcome unit * t :=
  call self (fun m => (tt, {| short_term := <[key := value]> (short_term m);
                              long_term := long_term m;
                              world_state := world_state m;
                              faults := faults m |})).

Definition get_short_term (key : string) (self : t) : outcome pyval * t :=
  call self (fun m => (lookup_or_none key (short_term m), m)).

Definition store_long_term (key : string) (value : pyval) (self : t) : outcome unit * t :=
  call self (fun m => (tt, {| short_term := short_term m;
                              long_term := <[key := value]> (long_term m);
                              world_state := world_state m;
                              faults := faults m |})).

Definition get_long_term (key : string) (self : t) : outcome pyval * t :=
  call self (fun m => (lookup_or_none key (long_term m), m)).

(** [get_long_term] hands out the object the store holds, not a copy:
    a change made to it in place shows under [key] at once. This is
    no call of the collaborator, and no fault is drawn. *)
Definition long_term_changed_in_place (key : string) (value : pyval) (self : t) : t :=
  {| short_term := short_term self;
     long_term := <[key := value]> (long_term self);
     world_state := world_state self;
     faults := faults self |}.

Definition update_world_state (key : string) (value : pyval) (self : t) : outcome unit * t :=
  call self (fun m => (tt, {| short_term := short_term m;
                              long_term := long_term m;
                              world_state := <[key := value]> (world_state m);
                              faults := faults m |})).

Definition get_world_state (key : string) (self : t) : outcome pyval * t :=
  call self (fun m => (lookup_or_none key (world_state m), m)).

End MemoryClient.

(** [f"{d[k]}"]: the rendering of [d[k]], or [KeyError]. *)
Definition fmt_item (k : string) (d : dict) : outcome string :=
  match PyDict.get k d with
  | Some v => Returns (py_str v)
  | None => Raises (KeyError k)
  end.

(** ** Agent (src/core/agent.py) *)

Module Agent.

(** [memory_client] is a reference to the shared collaborator: the
    methods take its state and return the new one. *)
Record t : Type := mk {
  name : string;
  id : string;
  capabilities : list string;
  current_task : option dict;
  status : string;
  logger : list log_record
}.

(** [Agent.__init__]; [generated_id] is the value of the f-string that
    joins the lowered name and the random suffix. *)
Definition init (name : string) (capabilities : list string) (generated_id : string) : t :=
  {| name := name; id := generated_id; capabilities := capabilities;
     current_task := None; status := "idle"; logger := [] |}.

Definition log (l : level) (msg : string) (self : t) : t :=
  {| name := name self; id := id self; capabilities := capabilities self;
     current_task := current_task self; status := status self;
     logger := emit l msg (logger self) |}.

Definition set_state (task : option dict) (st : string) (self : t) : t :=
  {| name := name self; id := id self; capabilities := capabilities self;
     current_task := task; status := st; logger := logger self |}.

(** [required_capabilities and not all(cap in self.capabilities for cap
    in required_capabilities)] *)
Definition lacks_capabilities (self : t) (required_capabilities : pyval) : outcome bool :=
  if truthy required_capabilities then
    match py_iter required_capabilities with
    | Returns caps =>
        Returns (negb (forallb (fun cap => py_in_strs cap (capabilities self)) caps))
    | Raises e => Raises e
    end
  else Returns false.

(** A refusal: the warning is formatted first, which reads [task['id']]. *)
Definition refuse (self : t) (task : dict) (why : string) (m : MemoryClient.t)
  : outcome bool * t * MemoryClient.t :=
  match fmt_item "id" task with
  | Returns tid =>
      (Returns false, log WARNING ("Cannot assign task " +:+ tid +:+ why) self, m)
  | Raises e => (Raises e, self, m)
  end.

(** The [except Exception as e] clause of [assign_task]. *)
Definition assign_failed (self : t) (task : dict) (e : exn) (m : MemoryClient.t)
  : outcome bool * t * MemoryClient.t :=
  match fmt_item "id" task with
  | Returns tid =>
      (Returns false,
       log ERROR ("Failed to assign task " +:+ tid +:+ ": " +:+ exn_str e) self, m)
  | Raises e' => (Raises e', self, m)
  end.

(** [Agent.assign_task]; [now] is the clock reading of the call. *)
Definition assign_task (self : t) (task : dict) (now : string) (m : MemoryClient.t)
  : outcome bool * t * MemoryClient.t :=
  (* Check if agent is already busy *)
  if negb (String.eqb (status self) "idle") then
    refuse self task (": Agent is " +:+ status self) m
  else
    (* Check if agent has required capabilities *)
    let required_capabilities :=
      PyDict.get_default "required_capabilities" (PList []) task in
    match lacks_capabilities self required_capabilities with
    | Raises e => (Raises e, self, m)
    | Returns true => refuse self task ": Missing required capabilities" m
    | Returns false =>
        (* Store task in agent's memory *)
        match fmt_item "id" task with
        | Raises e => assign_failed self task e m
        | Returns tid =>
            match MemoryClient.store_short_term ("task:" +:+ tid) (PDict task) m with
            | (Raises e, m1) => assign_failed self task e m1
            | (Returns _, m1) =>
                let self1 := set_state (Some task) "working" self in
                let self2 :=
                  log INFO ("Assigned task " +:+ tid +:+ " to agent " +:+ name self) self1 in
                (* Update world state with assignment *)
                match MemoryClient.update_world_state
                        ("task_assignment:" +:+ tid)
                        (PDict [("agent", PStr (id self));
                                ("assigned_at", PStr now);
                                ("status", PStr "assigned")]) m1 with
                | (Raises e, m2) => assign_failed self2 task e m2
                | (Returns _, m2) => (Returns true, self2, m2)
                end
            end
        end
    end.

(** [not self.current_task]: no task, or an empty dictionary. *)
Definition active_task (self : t) : option dict :=
  match current_task self with
  | Some (entry :: task) => Some (entry :: task)
  | Some [] | None => None
  end.

(** The record after the item assignments [progress["reported_at"] =
    ...] and [progress["agent"] = self.id]. *)
Definition stamp (self : t) (now : string) (progress : dict) : dict :=
  PyDict.set "agent" (PStr (id self)) (PyDict.set "reported_at" (PStr now) progress).

(** The [except Exception as e] clause of [report_progress]. *)
Definition report_failed (self : t) (e : exn) (m : MemoryClient.t)
  : outcome unit * t * MemoryClient.t :=
  (Returns tt, log ERROR ("Failed to report progress: " +:+ exn_str e) self, m).

(** The dictionary handed to [report_progress]. The method writes two
    keys into it, in place, so it matters whether the agent holds the
    same object: the dictionary is one of the caller's, or it is the
    agent's own [current_task], as in
    [agent.report_progress(agent.current_task)]. *)
Inductive handed : Type :=
| Callers (progress : dict)
| Own_task.

(** The body of the [try] of [report_progress] after the two item
    assignments; [task] is [self.current_task]. *)
Definition report_stamped (self : t) (task progress : dict) (m : MemoryClient.t)
  : outcome unit * t * MemoryClient.t :=
  (* Update task progress in world state *)
  match fmt_item "id" task with
  | Raises e => report_failed self e m
  | Returns tid =>
      match MemoryClient.update_world_state
              ("task_progress:" +:+ tid) (PDict progress) m with
      | (Raises e, m1) => report_failed self e m1
      | (Returns _, m1) =>
          match fmt_item "status" progress with
          | Raises e => report_failed self e m1
          | Returns st =>
              let self1 :=
                log INFO ("Reported progress for task " +:+ tid +:+ ": " +:+ st) self in
              (* If task is completed or failed, update agent status *)
              if py_in_strs (PyDict.get_default "status" PNone progress)
                            ["completed"; "failed"]
              then (Returns tt, set_state None "idle" self1, m1)
              else (Returns tt, self1, m1)
          end
      end
  end.

(** [Agent.report_progress], by the dictionary handed over. Handed its
    own task, the agent holds the stamped task from the two item
    assignments on, whatever happens afterwards. *)
Definition report_progress_of (self : t) (h : handed) (now : string) (m : MemoryClient.t)
  : outcome unit * t * MemoryClient.t :=
  match active_task self with
  | None =>
      (Returns tt, log WARNING "Cannot report progress: No task assigned" self, m)
  | Some task =>
      (* Add timestamp and agent info *)
      match h with
      | Callers progress => report_stamped self task (stamp self now progress) m
      | Own_task =>
          let task := stamp self now task in
          report_stamped (set_state (Some task) (status self) self) task task m
      end
  end.

(** [Agent.report_progress] on a dictionary of the caller's. *)
Definition report_progress (self : t) (progress : dict) (now : string) (m : MemoryClient.t)
  : outcome unit * t * MemoryClient.t :=
  report_progress_of self (Callers progress) now m.

(** What may happen to an agent: the two operations, [report_progress]
    on a dictionary of the caller's or on the agent's own task, and
    between them any change of the collaborator made by others. *)
Inductive op : Type :=
| Assign_task (task : dict) (now : string)
| Report_progress (progress : dict) (now : string)
| Report_own_task (now : string)
| Collaborator_changes (m : MemoryClient.t).

(** The agent and the collaborator after an operation; an exception
    that escapes the operation leaves them as they were when raised. *)
Definition step (s : t * MemoryClient.t) (o : op) : t * MemoryClient.t :=
  match o with
  | Assign_task task now =>
      let '(_, self', m') := assign_task (fst s) task now (snd s) in (self', m')
  | Report_progress progress now =>
      let '(_, self', m') := report_progress (fst s) progress now (snd s) in (self', m')
  | Report_own_task now =>
      let '(_, self', m') := report_progress_of (fst s) Own_task now (snd s) in (self', m')
  | Collaborator_changes m => (fst s, m)
  end.

(** The states after each operation of a sequence, in order. *)
Fixpoint trace (s : t * MemoryClient.t) (ops : list op) : list (t * MemoryClient.t) :=
  match ops with
  | [] => []
  | o :: ops' => step s o :: trace (step s o) ops'
  end.

End Agent.

(** ** TaskOrchestrator (src/core/orchestrator.py) *)

Module TaskOrchestrator.

(** The registered agents hold the same memory client as the
    orchestrator (as src/main.py and examples/example_usage.py set them
    up), so one collaborator state is threaded through. *)
Record t : Type := mk {
  memory_client : MemoryClient.t;
  agents : PyDict.t Agent.t;
  task_queue : TaskQueue.t;
  logger : list log_record
}.

(** [TaskOrchestrator.__init__] *)
Definition init (memory_client : MemoryClient.t) : t :=
  {| memory_client := memory_client; agents := [];
     task_queue := TaskQueue.init; logger := [] |}.

Definition log (l : level) (msg : string) (self : t) : t :=
  {| memory_client := memory_client self; agents := agents self;
     task_queue := task_queue self; logger := emit l msg (logger self) |}.

Definition with_memory (m : MemoryClient.t) (self : t) : t :=
  {| memory_client := m; agents := agents self;
     task_queue := task_queue self; logger := logger self |}.

Definition with_queue (q : TaskQueue.t) (self : t) : t :=
  {| memory_client := memory_client self; agents := agents self;
     task_queue := q; logger := logger self |}.

(** [TaskOrchestrator.register_agent] *)
Definition register_agent (self : t) (agent : Agent.t) : t :=
  log INFO ("Registered agent " +:+ Agent.name agent +:+ " with ID " +:+ Agent.id agent)
      {| memory_client := memory_client self;
         agents := PyDict.set (Agent.id agent) agent (agents self);
         task_queue := task_queue self; logger := logger self |}.

(** [TaskOrchestrator.create_task]; [uuid4] and [now] are the values the
    [Task] constructor draws. *)
Definition create_task (self : t) (uuid4 now : string)
    (description : string) (requirements : list string)
    (required_capabilities : option (list string)) (priority : Z)
    (dependencies : option (list string)) (context : option dict)
  : outcome string * t :=
  let task := Task.init uuid4 now description requirements required_capabilities
                        priority dependencies context in
  (* Add to queue *)
  match TaskQueue.add_task (task_queue self) task with
  | (Raises e, q) => (Raises e, with_queue q self)
  | (Returns task_id, q) =>
      let self1 := with_queue q self in
      (* Store in memory *)
      match MemoryClient.store_long_term ("task:" +:+ task_id) (PDict (Task.to_dict task))
                                         (memory_client self1) with
      | (Raises e, m) => (Raises e, with_memory m self1)
      | (Returns _, m) =>
          (Returns task_id,
           log INFO ("Created task " +:+ task_id +:+ ": " +:+ description)
               (with_memory m self1))
      end
  end.

(** The attributes written on a successful assignment. *)
Definition assignment (agent : Agent.t) : list Task.attr :=
  [Task.Attr_status "assigned"; Task.Attr_assigned_to (Some (Agent.id agent))].

(** One iteration of the loop of [assign_tasks]: the number of tasks
    it assigned, the agent, the queue and the collaborator after it.
    [get_next_task] hands out the object stored in the queue, found
    here under [key]; the two attribute assignments mutate that object,
    [update_task] then writes the same values through the identifier. *)
Definition assign_one (now : string) (agent : Agent.t) (q : TaskQueue.t)
    (m : MemoryClient.t) : outcome Z * Agent.t * TaskQueue.t * MemoryClient.t :=
  if negb (String.eqb (Agent.status agent) "idle") then (Returns 0, agent, q, m)
  else
    (* Find suitable task *)
    match TaskQueue.next_entry q (Agent.capabilities agent) with
    | None => (Returns 0, agent, q, m)
    | Some (key, task) =>
        (* Assign task to agent *)
        match Agent.assign_task agent (Task.to_dict task) now m with
        | (Raises e, agent', m') => (Raises e, agent', q, m')
        | (Returns false, agent', m') => (Returns 0, agent', q, m')
        | (Returns true, agent', m') =>
            let q1 :=
              TaskQueue.mk
                (PyDict.alter (fun task => fold_left Task.setattr (assignment agent') task)
                              key (TaskQueue.tasks q)) in
            let q2 := snd (TaskQueue.update_task q1 (Task.id task) (assignment agent')) in
            (Returns 1, agent', q2, m')
        end
    end.

Fixpoint assign_loop (clock : string -> string) (entries : list (string * Agent.t))
    (q : TaskQueue.t) (m : MemoryClient.t) (assigned_count : Z)
  : outcome Z * list (string * Agent.t) * TaskQueue.t * MemoryClient.t :=
  match entries with
  | [] => (Returns assigned_count, [], q, m)
  | (k, agent) :: rest =>
      match assign_one (clock k) agent q m with
      | (Raises e, agent', q', m') => (Raises e, (k, agent') :: rest, q', m')
      | (Returns n, agent', q', m') =>
          let '(r, rest', q'', m'') :=
            assign_loop clock rest q' m' (assigned_count + n) in
          (r, (k, agent') :: rest', q'', m'')
      end
  end.

(** [TaskOrchestrator.assign_tasks]; [clock k] is the clock reading
    while the agent registered under [k] is served. *)
Definition assign_tasks (self : t) (clock : string -> string) : outcome Z * t :=
  let '(r, agents', q, m) :=
    assign_loop clock (agents self) (task_queue self) (memory_client self) 0 in
  (r, {| memory_client := m; agents := agents'; task_queue := q; logger := logger self |}).

(** [self.task_queue.update_task(task_id, updates)] for a [task_id]
    read from a task dictionary: membership in [self.tasks] hashes it. *)
Definition update_task_dyn (q : TaskQueue.t) (task_id : pyval) (updates : list Task.attr)
  : outcome bool * TaskQueue.t :=
  match task_id with
  | PStr s => let (found, q') := TaskQueue.update_task q s updates in (Returns found, q')
  | PList _ | PDict _ => (Raises (unhashable task_id), q)
  | PNone | PBool _ | PInt _ => (Returns false, q)
  end.

(** [task_data[k] = v] for each of [items] in turn. *)
Definition set_items (task_data : pyval) (items : list (string * pyval)) : outcome pyval :=
  match task_data with
  | PDict d => Returns (PDict (fold_left (fun d item => PyDict.set (fst item) (snd item) d) items d))
  | _ => Raises (no_item_assignment task_data)
  end.

(** The part shared by the two handlers: update the task in the queue,
    then mirror the update into the durable snapshot when there is
    one. [stamp_key] is ["completed_at"] or ["failed_at"]. *)
Definition settle (self : t) (task_id : pyval) (st : string) (result : pyval)
    (stamp_key now : string) : outcome unit * t :=
  (* Update task in queue *)
  match update_task_dyn (task_queue self) task_id
                        [Task.Attr_status st; Task.Attr_result result] with
  | (Raises e, q) => (Raises e, with_queue q self)
  | (Returns _, q) =>
      let self1 := with_queue q self in
      (* Update in long-term memory *)
      let key := "task:" +:+ py_str task_id in
      match MemoryClient.get_long_term key (memory_client self1) with
      | (Raises e, m) => (Raises e, with_memory m self1)
      | (Returns task_data, m) =>
          let self2 := with_memory m self1 in
          if truthy task_data then
            match set_items task_data [("status", PStr st); ("result", result);
                                       (stamp_key, PStr now)] with
            | Raises e => (Raises e, self2)
            | Returns task_data' =>
                (* the snapshot is the stored object, changed in place *)
                let m0 := MemoryClient.long_term_changed_in_place key task_data' m in
                match MemoryClient.store_long_term key task_data' m0 with
                | (Raises e, m') => (Raises e, with_memory m' self2)
                | (Returns _, m') => (Returns tt, with_memory m' self2)
                end
            end
          else (Returns tt, self2)
      end
  end.

(** [TaskOrchestrator.handle_completed_task] *)
Definition handle_completed_task (self : t) (task_id : pyval) (result : pyval)
    (now : string) : outcome unit * t :=
  match settle self task_id "completed" result "completed_at" now with
  | (Raises e, self') => (Raises e, self')
  | (Returns _, self') =>
      (Returns tt, log INFO ("Task " +:+ py_str task_id +:+ " completed successfully") self')
  end.

(** [TaskOrchestrator.handle_failed_task] *)
Definition handle_failed_task (self : t) (task_id : pyval) (error_data : pyval)
    (now : string) : outcome unit * t :=
  match settle self task_id "failed" error_data "failed_at" now with
  | (Raises e, self') => (Raises e, self')
  | (Returns _, self') =>
      match error_data with
      | PDict d =>
          (Returns tt,
           log ERROR ("Task " +:+ py_str task_id +:+ " failed: "
                      +:+ py_str (PyDict.get_default "message" (PStr "Unknown error") d))
               self')
      | _ => (Raises (no_attribute error_data "get"), self')
      end
  end.

(** One iteration of the loop of [monitor_progress]. *)
Definition monitor_one (now : string) (agent : Agent.t) (self : t) : outcome unit * t :=
  if negb (String.eqb (Agent.status agent) "working") then (Returns tt, self)
  else
    match Agent.active_task agent with
    | None => (Returns tt, self)
    | Some task =>
        match PyDict.get "id" task with
        | None => (Raises (KeyError "id"), self)
        | Some task_id =>
            match MemoryClient.get_world_state ("task_progress:" +:+ py_str task_id)
                                               (memory_client self) with
            | (Raises e, m) => (Raises e, with_memory m self)
            | (Returns task_progress, m) =>
                let self1 := with_memory m self in
                if negb (truthy task_progress) then (Returns tt, self1)
                else
                  match task_progress with
                  | PDict record =>
                      let st := PyDict.get_default "status" PNone record in
                      if py_eq_str st "completed" then
                        (* Task completed successfully *)
                        handle_completed_task self1 task_id task_progress now
                      else if py_eq_str st "failed" then
                        (* Task failed *)
                        handle_failed_task self1 task_id task_progress now
                      else (Returns tt, self1)
                  | _ => (Raises (no_attribute task_progress "get"), self1)
                  end
            end
        end
    end.

Fixpoint monitor_loop (clock : string -> string) (entries : list (string * Agent.t))
    (self : t) : outcome unit * t :=
  match entries with
  | [] => (Returns tt, self)
  | (k, agent) :: rest =>
      match monitor_one (clock k) agent self with
      | (Raises e, self') => (Raises e, self')
      | (Returns _, self') => monitor_loop clock rest self'
      end
  end.

(** [TaskOrchestrator.monitor_progress] *)
Definition monitor_progress (self : t) (clock : string -> string) : outcome unit * t :=
  monitor_loop clock (agents self) self.

(** [sum(1 for s in statuses if s == st)] *)
Definition count_status (st : string) (statuses : list string) : Z :=
  Z.of_nat (length (List.filter (String.eqb st) statuses)).

Definition counts (names : list string) (statuses : list string) : pyval :=
  PDict (map (fun st => (st, PInt (count_status st statuses))) names).

(** [TaskOrchestrator.update_system_state] *)
Definition update_system_state (self : t) (now : string) : outcome unit * t :=
  (* Count tasks by status *)
  let task_counts :=
    counts ["pending"; "assigned"; "completed"; "failed"]
           (map Task.status (PyDict.values (TaskQueue.tasks (task_queue self)))) in
  (* Count agents by status *)
  let agent_counts :=
    counts ["idle"; "working"] (map Agent.status (PyDict.values (agents self))) in
  (* Update world state *)
  match MemoryClient.update_world_state "system:status"
          (PDict [("tasks", task_counts); ("agents", agent_counts);
                  ("updated_at", PStr now)]) (memory_client self) with
  | (r, m) => (r, with_memory m self)
  end.

Definition cycle_failed (e : exn) (self : t) : t :=
  log ERROR ("Error in orchestrator cycle: " +:+ exn_str e) self.

(** One turn of the loop of [TaskOrchestrator.run], sleeping apart. *)
Definition cycle (self : t) (assign_clock monitor_clock : string -> string)
    (now : string) : t :=
  (* Assign available tasks *)
  match assign_tasks self assign_clock with
  | (Raises e, self1) => cycle_failed e self1
  | (Returns assigned, self1) =>
      let self2 :=
        if 0 <? assigned then log INFO ("Assigned " +:+ pretty assigned +:+ " tasks") self1
        else self1 in
      (* Monitor task progress *)
      match monitor_progress self2 monitor_clock with
      | (Raises e, self3) => cycle_failed e self3
      | (Returns _, self3) =>
          (* Update world state *)
          match update_system_state self3 now with
          | (Raises e, self4) => cycle_failed e self4
          | (Returns _, self4) => self4
          end
      end
  end.

(** The operations by which the orchestrator acts on its queue, and
    the state they leave, whether they return or raise. *)
Inductive op : Type :=
| Assign_tasks (clock : string -> string)
| Monitor_progress (clock : string -> string)
| Handle_completed_task (task_id : pyval) (result : pyval) (now : string)
| Handle_failed_task (task_id : pyval) (error_data : pyval) (now : string)
| Cycle (assign_clock monitor_clock : string -> string) (now : string).

Definition step (self : t) (o : op) : t :=
  match o with
  | Assign_tasks clock => snd (assign_tasks self clock)
  | Monitor_progress clock => snd (monitor_progress self clock)
  | Handle_completed_task task_id result now =>
      snd (handle_completed_task self task_id result now)
  | Handle_failed_task task_id error_data now =>
      snd (handle_failed_task self task_id error_data now)
  | Cycle assign_clock monitor_clock now => cycle self assign_clock monitor_clock now
  end.

Definition run_ops (self : t) (ops : list op) : t := fold_left step ops self.

End TaskOrchestrator.

(** * Properties of the specification, and scenarios *)

(** ** Selection *)

(** Every dependency of [t] resolves in the queue to a completed task. *)
Definition dependencies_completed (q : TaskQueue.t) (t : Task.t) : Prop :=
  Forall (fun dep => exists d, PyDict.get dep (TaskQueue.tasks q) = Some d
                               /\ Task.status d = "completed")
         (Task.dependencies t).

(** The candidate set of the selection: pending, dependencies completed,
    required capabilities among [caps]. *)
Definition candidate (q : TaskQueue.t) (caps : list string) (t : Task.t) : Prop :=
  Task.status t = "pending"
  /\ dependencies_completed q t
  /\ incl (Task.required_capabilities t) caps.

(** [x] is the first element of [l] with the greatest key. *)
Definition first_max {A} (key : A -> Z) (l : list A) (x : A) : Prop :=
  exists l1 l2, l = l1 ++ x :: l2
                /\ Forall (fun y => key y < key x) l1
                /\ Forall (fun y => key y <= key x) l2.

(** Creation times are ISO 8601 texts of one clock: their order is the
    order of the texts. *)
Definition created_no_later (a b : Task.t) : Prop :=
  String.leb (Task.created_at a) (Task.created_at b) = true.

(** The selection as the specification words it: a candidate of maximum
    priority, and the earliest created among those. *)
Definition selects_earliest_highest (q : TaskQueue.t) (caps : list string) : Prop :=
  exists t, TaskQueue.get_next_task q caps = Some t
            /\ In t (TaskQueue.available_tasks q caps)
            /\ (forall c, In c (TaskQueue.available_tasks q caps) ->
                          Task.priority c <= Task.priority t)
            /\ (forall c, In c (TaskQueue.available_tasks q caps) ->
                          Task.priority c = Task.priority t -> created_no_later t c).

(** Two tasks of equal priority, the second constructed an hour after
    the first, added to an empty queue in the opposite order. *)
Definition task_early : Task.t :=
  Task.init "task-early" "2024-05-01T10:00:00" "write the parser" [] None 3 None None.
Definition task_late : Task.t :=
  Task.init "task-late" "2024-05-01T11:00:00" "write the printer" [] None 3 None None.
Definition queue_late_first : TaskQueue.t :=
  snd (TaskQueue.add_task (snd (TaskQueue.add_task TaskQueue.init task_late)) task_early).

(** ** Adding and updating *)

(** [add_task] refuses the task with an error. *)
Definition add_raises (q : TaskQueue.t) (task : Task.t) : Prop :=
  exists e, fst (TaskQueue.add_task q task) = Raises e.

(** A queue holding [task_early], and another task carrying its
    identifier. *)
Definition queue_one : TaskQueue.t := snd (TaskQueue.add_task TaskQueue.init task_early).
Definition task_same_id : Task.t :=
  Task.init "task-early" "2024-05-02T09:00:00" "rewrite the parser" [] None 1 None None.

(** The value of the attribute [name] of a task, as [to_dict] shows it. *)
Definition attribute (name : string) (t : Task.t) : option pyval :=
  PyDict.get name (Task.to_dict t).

(** The eight attributes that the specification calls immutable have the
    same values in [t] and [t']. *)
Definition immutable_kept (t t' : Task.t) : Prop :=
  Task.id t' = Task.id t
  /\ Task.description t' = Task.description t
  /\ Task.requirements t' = Task.requirements t
  /\ Task.required_capabilities t' = Task.required_capabilities t
  /\ Task.priority t' = Task.priority t
  /\ Task.dependencies t' = Task.dependencies t
  /\ Task.context t' = Task.context t
  /\ Task.created_at t' = Task.created_at t.





(** ** Agents *)

(** The exclusivity invariant: working exactly with a current task, idle
    exactly without one. *)
Definition exclusive (a : Agent.t) : Prop :=
  (Agent.status a = "working" <-> Agent.current_task a <> None)
  /\ (Agent.status a = "idle" <-> Agent.current_task a = None).

(** The progress record reports a terminal status. *)
Definition reports_terminal (progress : dict) : Prop :=
  py_in_strs (PyDict.get_default "status" PNone progress) ["completed"; "failed"] = true.

(** The world-state key of the progress record of the task [task]. *)
Definition progress_key (tid : string) : string := "task_progress:" +:+ tid.

(** [report_progress] on an agent with a current task and a terminal
    record, as the specification words it: the stamped record is in
    world state under the task's key, the task is cleared, the agent idle. *)
Definition report_frees (a : Agent.t) (progress : dict) (now : string)
    (m : MemoryClient.t) : Prop :=
  forall task, Agent.current_task a = Some task ->
    reports_terminal progress ->
    exists tid a' m',
      fmt_item "id" task = Returns tid
      /\ Agent.report_progress a progress now m = (Returns tt, a', m')
      /\ MemoryClient.world_state m' !! progress_key tid
         = Some (PDict (Agent.stamp a now progress))
      /\ Agent.current_task a' = None
      /\ Agent.status a' = "idle".

(** [report_progress] on an agent without a current task: a warning, no
    exception, no other change. *)
Definition report_without_task_warns (a : Agent.t) (progress : dict) (now : string)
    (m : MemoryClient.t) : Prop :=
  Agent.current_task a = None ->
  Agent.report_progress a progress now m
  = (Returns tt, Agent.log WARNING "Cannot report progress: No task assigned" a, m).

(** The keys of a dictionary after an item assignment under [k]: a key
    already there keeps its place, a new one goes last. *)
Definition with_key (k : string) (ks : list string) : list string :=
  if existsb (String.eqb k) ks then ks else ks ++ [k].

(** [record'] is [record] with the two stamps of [report_progress]:
    [reported_at] holds the clock reading and [agent] the identifier of
    the agent, every other key holds what it held, and the keys are
    those of [record], followed by the stamps that were not among them. *)
Definition stamped (a : Agent.t) (now : string) (record record' : dict) : Prop :=
  PyDict.get "reported_at" record' = Some (PStr now)
  /\ PyDict.get "agent" record' = Some (PStr (Agent.id a))
  /\ (forall k, k <> "reported_at" -> k <> "agent" ->
        PyDict.get k record' = PyDict.get k record)
  /\ PyDict.keys record' = with_key "agent" (with_key "reported_at" (PyDict.keys record)).

(** The dictionary [report_progress] is handed, for an agent holding
    [task]. *)
Definition record_handed (h : Agent.handed) (task : dict) : dict :=
  match h with
  | Agent.Callers progress => progress
  | Agent.Own_task => task
  end.

(** The task the agent holds once the dictionary handed over has become
    [record']: its task as it was, unless that is the dictionary. *)
Definition task_held (h : Agent.handed) (task record' : dict) : dict :=
  match h with
  | Agent.Callers _ => task
  | Agent.Own_task => record'
  end.

(** An agent working on [task_early], a record of its completion, and a
    collaborator whose next call raises. *)
Definition agent_busy : Agent.t :=
  Agent.set_state (Some (Task.to_dict task_early)) "working"
                  (Agent.init "Coder" ["code_generation"] "coder_1a2b3c4d").
Definition progress_done : dict :=
  [("status", PStr "completed"); ("output", PStr "def parse(): pass")].
Definition memory_down : MemoryClient.t := MemoryClient.init [Some "connection lost"].
Definition memory_up : MemoryClient.t := MemoryClient.init [].

(** An idle agent, and a collaborator that stores the task and then
    fails on the world-state write. *)
Definition agent_idle : Agent.t := Agent.init "Coder" ["code_generation"] "coder_1a2b3c4d".
Definition memory_flaky : MemoryClient.t := MemoryClient.init [None; Some "connection lost"].

(** What the fault schedule holds for the next call of the collaborator. *)
Definition next_fault (m : MemoryClient.t) : option string :=
  match MemoryClient.faults m with
  | f :: _ => f
  | [] => None
  end.

(** A status that ends the life of a task. *)
Definition terminal (st : string) : Prop := st = "completed" \/ st = "failed".

(** ** Orchestration *)

(** Unique keys, each the identifier of its task: the shape of every
    queue that [add_task] builds. *)
Definition well_keyed (q : TaskQueue.t) : Prop :=
  PyDict.wf (TaskQueue.tasks q) /\ TaskQueue.keyed_by_id q.

(** The agent registered under [k] works on a task whose identifier is
    [tid], and world state holds for it the record [record], whose
    status [st] is terminal. *)
Definition reported_done (self : TaskOrchestrator.t) (k : string) (a : Agent.t)
    (tid : string) (record : dict) (st : string) : Prop :=
  In (k, a) (TaskOrchestrator.agents self)
  /\ Agent.status a = "working"
  /\ (exists task, Agent.current_task a = Some task
                   /\ PyDict.get "id" task = Some (PStr tid))
  /\ MemoryClient.world_state (TaskOrchestrator.memory_client self) !! progress_key tid
     = Some (PDict record)
  /\ PyDict.get "status" record = Some (PStr st)
  /\ terminal st.

(** The monitor step as the specification words it: the task takes the
    reported status and the agent is freed. *)
Definition monitor_settles_and_frees (self : TaskOrchestrator.t)
    (clock : string -> string) : Prop :=
  forall k a tid record st,
    reported_done self k a tid record st ->
    PyDict.contains tid (TaskQueue.tasks (TaskOrchestrator.task_queue self)) = true ->
    let self' := snd (TaskOrchestrator.monitor_progress self clock) in
    (exists t', PyDict.get tid (TaskQueue.tasks (TaskOrchestrator.task_queue self')) = Some t'
                /\ Task.status t' = st)
    /\ (exists a', PyDict.get k (TaskOrchestrator.agents self') = Some a'
                   /\ Agent.status a' = "idle"
                   /\ Agent.current_task a' = None).

(** The operation [o] changes the status of no task that is completed or
    failed. *)
Definition keeps_terminal_status (self : TaskOrchestrator.t) (o : TaskOrchestrator.op) : Prop :=
  forall tid t,
    PyDict.get tid (TaskQueue.tasks (TaskOrchestrator.task_queue self)) = Some t ->
    terminal (Task.status t) ->
    exists t', PyDict.get tid (TaskQueue.tasks
                                 (TaskOrchestrator.task_queue (TaskOrchestrator.step self o)))
               = Some t'
               /\ Task.status t' = Task.status t.

(** A run of the system: one agent is registered, one task created and
    assigned to it; a record of completion then appears in world state
    and the monitor step runs; later the record is replaced by one of
    failure and the monitor step runs again. *)
Definition at_half_past (k : string) : string := "2024-05-01T10:30:00".
Definition at_noon (k : string) : string := "2024-05-01T12:00:00".
Definition at_one (k : string) : string := "2024-05-01T13:00:00".

Definition record_done : dict :=
  [("status", PStr "completed"); ("output", PStr "def parse(): pass")].
Definition record_failed : dict :=
  [("status", PStr "failed"); ("message", PStr "parser rejected")].

(** A record written to world state from outside the orchestrator. *)
Definition record_appears (tid : string) (record : dict) (self : TaskOrchestrator.t)
  : TaskOrchestrator.t :=
  TaskOrchestrator.with_memory
    (snd (MemoryClient.update_world_state (progress_key tid) (PDict record)
                                          (TaskOrchestrator.memory_client self)))
    self.

Definition run_registered : TaskOrchestrator.t :=
  TaskOrchestrator.register_agent (TaskOrchestrator.init memory_up) agent_idle.
Definition run_created : TaskOrchestrator.t :=
  snd (TaskOrchestrator.create_task run_registered "task-early" "2024-05-01T10:00:00"
         "write the parser" [] (Some ["code_generation"]) 3 None None).
Definition run_assigned : TaskOrchestrator.t :=
  snd (TaskOrchestrator.assign_tasks run_created at_half_past).
Definition run_reported : TaskOrchestrator.t :=
  record_appears "task-early" record_done run_assigned.
Definition run_monitored : TaskOrchestrator.t :=
  snd (TaskOrchestrator.monitor_progress run_reported at_noon).
Definition run_reported_again : TaskOrchestrator.t :=
  record_appears "task-early" record_failed run_monitored.

(** What a handler does to the queue, the agents and world state,
    whether it returns or raises on the way. *)
Definition settled (self self' : TaskOrchestrator.t) (idv : pyval) (st : string)
    (result : pyval) : Prop :=
  TaskOrchestrator.task_queue self'
  = snd (TaskOrchestrator.update_task_dyn (TaskOrchestrator.task_queue self) idv
           [Task.Attr_status st; Task.Attr_result result])
  /\ TaskOrchestrator.agents self' = TaskOrchestrator.agents self
  /\ MemoryClient.world_state (TaskOrchestrator.memory_client self')
     = MemoryClient.world_state (TaskOrchestrator.memory_client self).

(** The queue holds the task [tid] with status [st] and the record as
    its result. *)
Definition task_settled (q : TaskQueue.t) (tid st : string) (record : dict) : Prop :=
  exists t', PyDict.get tid (TaskQueue.tasks q) = Some t'
             /\ Task.status t' = st
             /\ Task.result t' = PDict record.

(** World state holds [record], of terminal status [st], for task [tid]. *)
Definition record_in_world (m : MemoryClient.t) (tid : string) (record : dict)
    (st : string) : Prop :=
  MemoryClient.world_state m !! progress_key tid = Some (PDict record)
  /\ PyDict.get "status" record = Some (PStr st)
  /\ terminal st.

(** The task of the run as [create_task] builds it, and the agent of the
    run once the task is assigned to it. *)
Definition task_parser : Task.t :=
  Task.init "task-early" "2024-05-01T10:00:00" "write the parser" []
            (Some ["code_generation"]) 3 None None.
Definition coder_working : Agent.t :=
  Agent.log INFO "Assigned task task-early to agent Coder"
            (Agent.set_state (Some (Task.to_dict task_parser)) "working" agent_idle).

(** From a well-keyed queue [q] to [q']: the queue stays well keyed and
    every completed or failed task is still there, completed or failed. *)
Definition terminal_stays_terminal (q q' : TaskQueue.t) : Prop :=
  well_keyed q ->
  well_keyed q'
  /\ forall tid t, PyDict.get tid (TaskQueue.tasks q) = Some t ->
                   terminal (Task.status t) ->
                   exists t', PyDict.get tid (TaskQueue.tasks q') = Some t'
                              /\ terminal (Task.status t').

(** From a well-keyed queue [q] to [q']: the queue stays well keyed and
    every completed or failed task is still there as it was. *)
Definition terminal_untouched (q q' : TaskQueue.t) : Prop :=
  well_keyed q ->
  well_keyed q'
  /\ forall tid t, PyDict.get tid (TaskQueue.tasks q) = Some t ->
                   terminal (Task.status t) ->
                   PyDict.get tid (TaskQueue.tasks q') = Some t.

(** ** Scenarios of the specification *)

(** A task of priority 5 beside one of priority 3. *)
Definition task_urgent : Task.t :=
  Task.init "task-urgent" "2024-05-01T12:00:00" "fix the build" [] None 5 None None.
Definition queue_two : TaskQueue.t :=
  snd (TaskQueue.add_task queue_one task_urgent).

(** Task A needs code generation; task B needs test writing and depends
    on A. *)
Definition task_a : Task.t :=
  Task.init "task-a" "2024-05-01T09:00:00" "implement" [] (Some ["code_generation"]) 2
            None None.
Definition task_b : Task.t :=
  Task.init "task-b" "2024-05-01T09:01:00" "write tests" [] (Some ["test_writing"]) 1
            (Some ["task-a"]) None.
Definition queue_ab : TaskQueue.t :=
  snd (TaskQueue.add_task (snd (TaskQueue.add_task TaskQueue.init task_a)) task_b).
Definition queue_ab_done : TaskQueue.t :=
  snd (TaskQueue.update_task queue_ab "task-a" [Task.Attr_status "completed"]).

(** * Further properties: statements and scenarios *)

(** ** Loading a task *)

(** The keys [from_dict] reads with [data[k]], in the order it reads them. *)
Definition required_keys : list string :=
  ["description"; "requirements"; "id"; "status"; "created_at"].

(** The first required key that [data] lacks. *)
Definition first_missing (data : dict) : option string :=
  List.find (fun k => negb (PyDict.contains k data)) required_keys.

(** The least a task dictionary must hold. *)
Definition data_minimal : dict :=
  [("id", PStr "task-min"); ("description", PStr "tidy up");
   ("requirements", PList [PStr "keep the tests green"]);
   ("status", PStr "pending"); ("created_at", PStr "2024-05-03T08:00:00")].

(** ** Queue scenarios *)


(** ** Agents *)

(** The next [n] calls of the collaborator go through. *)
Definition calls_go_through (n : nat) (m : MemoryClient.t) : Prop :=
  Forall (fun f => f = None) (firstn n (MemoryClient.faults m)).

(** The record [assign_task] publishes in world state. *)
Definition assignment_record (a : Agent.t) (now : string) : pyval :=
  PDict [("agent", PStr (Agent.id a)); ("assigned_at", PStr now);
         ("status", PStr "assigned")].

(** The agent keeps its task slot and status. *)
Definition same_slot (a a' : Agent.t) : Prop :=
  Agent.current_task a' = Agent.current_task a /\ Agent.status a' = Agent.status a.

(** A task dictionary without identifier, and one whose required
    capabilities are a number. *)
Definition task_nameless : dict := [("description", PStr "no identifier")].
Definition task_odd_caps : dict :=
  [("id", PStr "task-odd"); ("required_capabilities", PInt 7)].
Definition progress_half : dict := [("status", PStr "running"); ("percent", PInt 50)].
Definition progress_mute : dict := [("message", PStr "still here")].

(** ** Orchestration *)

(** The durable key of a task. *)
Definition task_key (tid : string) : string := "task:" +:+ tid.

(** An orchestrator whose collaborator is down. *)
Definition run_offline : TaskOrchestrator.t := TaskOrchestrator.init memory_down.

(** The number of idle agents in a registry. *)
Definition idle_count (entries : list (string * Agent.t)) : Z :=
  Z.of_nat (length (List.filter (fun e => String.eqb (Agent.status (snd e)) "idle") entries)).

(** An agent of the registry as it is found after [assign_tasks]: same
    key, same identity, and the very same agent unless it was idle. *)
Definition served (e e' : string * Agent.t) : Prop :=
  fst e' = fst e
  /\ Agent.id (snd e') = Agent.id (snd e)
  /\ Agent.name (snd e') = Agent.name (snd e)
  /\ Agent.capabilities (snd e') = Agent.capabilities (snd e)
  /\ (Agent.status (snd e) <> "idle" -> snd e' = snd e).

(** The task [t] once assigned to the agent [aid]. *)
Definition assigned_to_agent (aid : string) (t : Task.t) : Task.t :=
  fold_left Task.setattr [Task.Attr_status "assigned"; Task.Attr_assigned_to (Some aid)] t.

(** From queue [q] to [q'], the only change is that pending tasks have
    been assigned to idle agents among [entries]. *)
Definition only_assigns (entries : list (string * Agent.t)) (q q' : TaskQueue.t) : Prop :=
  well_keyed q ->
  well_keyed q'
  /\ PyDict.keys (TaskQueue.tasks q') = PyDict.keys (TaskQueue.tasks q)
  /\ forall tid t,
       PyDict.get tid (TaskQueue.tasks q) = Some t ->
       PyDict.get tid (TaskQueue.tasks q') = Some t
       \/ (Task.status t = "pending"
           /\ exists k a, In (k, a) entries
                          /\ Agent.status a = "idle"
                          /\ PyDict.get tid (TaskQueue.tasks q')
                             = Some (assigned_to_agent (Agent.id a) t)).

(** The agent registered under [k] calls its own [report_progress]: the
    agent object of the registry and the shared collaborator change. *)
Definition agent_reports (k : string) (progress : dict) (now : string)
    (self : TaskOrchestrator.t) : TaskOrchestrator.t :=
  match PyDict.get k (TaskOrchestrator.agents self) with
  | None => self
  | Some a =>
      let '(_, a', m') :=
        Agent.report_progress a progress now (TaskOrchestrator.memory_client self) in
      {| TaskOrchestrator.memory_client := m';
         TaskOrchestrator.agents := PyDict.set k a' (TaskOrchestrator.agents self);
         TaskOrchestrator.task_queue := TaskOrchestrator.task_queue self;
         TaskOrchestrator.logger := TaskOrchestrator.logger self |}
  end.

(** The durable snapshot [d] once a handler has mirrored an outcome into
    it. *)
Definition mirrored (d : dict) (st : string) (result : pyval) (stamp_key now : string)
  : dict :=
  PyDict.set stamp_key (PStr now) (PyDict.set "result" result (PyDict.set "status" (PStr st) d)).

(** The run with its task completed through the monitor step, seen from
    the handler: the state before, the record handed over. *)
Definition error_plain : pyval := PDict [("message", PStr "parser rejected")].

(** The four statuses the orchestrator writes and counts. *)
Definition known_statuses : list string := ["pending"; "assigned"; "completed"; "failed"].

(** Every task of the queue has one of the four statuses. *)
Definition statuses_known (q : TaskQueue.t) : Prop :=
  Forall (fun entry => In (Task.status (snd entry)) known_statuses) (TaskQueue.tasks q).

(** From [q] to [q'] no task is added, removed or moved, and every task
    keeps its eight immutable attributes. *)
Definition same_tasks (q q' : TaskQueue.t) : Prop :=
  PyDict.keys (TaskQueue.tasks q') = PyDict.keys (TaskQueue.tasks q)
  /\ forall tid t, PyDict.get tid (TaskQueue.tasks q) = Some t ->
                   exists t', PyDict.get tid (TaskQueue.tasks q') = Some t'
                              /\ immutable_kept t t'.

(** The queue after the two writes of a successful assignment. *)
Definition after_assignment (q : TaskQueue.t) (key : string) (task : Task.t)
    (a : Agent.t) : TaskQueue.t :=
  snd (TaskQueue.update_task
         (TaskQueue.mk (PyDict.alter (fun task => fold_left Task.setattr
                                                            (TaskOrchestrator.assignment a) task)
                                     key (TaskQueue.tasks q)))
         (Task.id task) (TaskOrchestrator.assignment a)).

(** The queue after a handler has set status and result. *)
Definition after_settling (q : TaskQueue.t) (idv : pyval) (st : string) (result : pyval)
  : TaskQueue.t :=
  snd (TaskOrchestrator.update_task_dyn q idv [Task.Attr_status st; Task.Attr_result result]).

(** The number of tasks counted in the status snapshot. *)
Definition counted_tasks (statuses : list string) : Z :=
  TaskOrchestrator.count_status "pending" statuses
  + TaskOrchestrator.count_status "assigned" statuses
  + TaskOrchestrator.count_status "completed" statuses
  + TaskOrchestrator.count_status "failed" statuses.

(** The statuses of the tasks, in the order of the queue. *)
Definition task_statuses (self : TaskOrchestrator.t) : list string :=
  map Task.status (PyDict.values (TaskQueue.tasks (TaskOrchestrator.task_queue self))).

Definition agent_statuses (self : TaskOrchestrator.t) : list string :=
  map Agent.status (PyDict.values (TaskOrchestrator.agents self)).

(** The aggregate record [update_system_state] publishes. *)
Definition system_status (self : TaskOrchestrator.t) (now : string) : pyval :=
  PDict [("tasks",
          PDict [("pending", PInt (TaskOrchestrator.count_status "pending" (task_statuses self)));
                 ("assigned", PInt (TaskOrchestrator.count_status "assigned" (task_statuses self)));
                 ("completed", PInt (TaskOrchestrator.count_status "completed" (task_statuses self)));
                 ("failed", PInt (TaskOrchestrator.count_status "failed" (task_statuses self)))]);
         ("agents",
          PDict [("idle", PInt (TaskOrchestrator.count_status "idle" (agent_statuses self)));
                 ("working", PInt (TaskOrchestrator.count_status "working" (agent_statuses self)))]);
         ("updated_at", PStr now)].

(** * Proofs *)

(** ** Builtins *)

(** The renderings agree with Python's on sample values. *)
Example py_str_examples :
  py_str (PStr "a b") = "a b" /\
  py_str (PInt (-12)) = "-12" /\
  py_str (PList [PStr "it's"; PInt 3; PNone]) = String.concat EmptyString ["["; String quote2 "it's"; String quote2 ", 3, None]"] /\
  py_str (PDict [("k", PBool true)]) = "{'k': True}" /\
  exn_str (KeyError "id") = "'id'".
Proof. repeat split; vm_compute; reflexivity. Qed.

(** ** Ordered dictionaries *)

Section DictFacts.
Context {V : Type}.
Implicit Types (k : string) (v : V) (d : list (string * V)).

Lemma get_set_eq k v d : PyDict.get k (PyDict.set k v d) = Some v.
Proof.
  induction d as [|[k' v'] d IH]; simpl.
  - now rewrite String.eqb_refl.
  - destruct (String.eqb k k') eqn:E; simpl; rewrite E; auto.
Qed.

Lemma get_set_ne k k' v d : k <> k' -> PyDict.get k' (PyDict.set k v d) = PyDict.get k' d.
Proof.
  intros Hne. induction d as [|[k0 v0] d IH]; simpl.
  - destruct (String.eqb k' k) eqn:E; auto.
    apply String.eqb_eq in E. congruence.
  - destruct (String.eqb k k0) eqn:E; simpl.
    + apply String.eqb_eq in E. subst k0.
      destruct (String.eqb k' k) eqn:E'; auto.
      apply String.eqb_eq in E'. congruence.
    + now rewrite IH.
Qed.

Lemma keys_set_present k v d :
  PyDict.contains k d = true -> PyDict.keys (PyDict.set k v d) = PyDict.keys d.
Proof.
  unfold PyDict.contains. induction d as [|[k0 v0] d IH]; simpl; [discriminate|].
  destruct (String.eqb k k0) eqn:E; simpl; auto.
  intros H. now rewrite IH.
Qed.

Lemma keys_set_absent k v d :
  PyDict.contains k d = false -> PyDict.keys (PyDict.set k v d) = PyDict.keys d ++ [k].
Proof.
  unfold PyDict.contains. induction d as [|[k0 v0] d IH]; simpl; auto.
  destruct (String.eqb k k0) eqn:E; simpl; [discriminate|].
  intros H. now rewrite IH.
Qed.

Lemma get_In k v d : PyDict.get k d = Some v -> In (k, v) d.
Proof.
  induction d as [|[k0 v0] d IH]; simpl; [discriminate|].
  destruct (String.eqb k k0) eqn:E.
  - apply String.eqb_eq in E. intros [= ->]. subst. now left.
  - intros H. right. auto.
Qed.

Lemma get_None_not_key k d : PyDict.get k d = None -> ~ In k (PyDict.keys d).
Proof.
  induction d as [|[k0 v0] d IH]; simpl; [tauto|].
  destruct (String.eqb k k0) eqn:E; [discriminate|].
  apply String.eqb_neq in E. intros H [Hk|Hk]; [congruence|]. now apply IH.
Qed.

Lemma In_wf_get k v d : PyDict.wf d -> In (k, v) d -> PyDict.get k d = Some v.
Proof.
  unfold PyDict.wf. induction d as [|[k0 v0] d IH]; simpl; [tauto|].
  intros Hnd [Heq|Hin].
  - injection Heq as -> ->. now rewrite String.eqb_refl.
  - inversion Hnd as [|? ? Hnotin Hnd']; subst.
    destruct (String.eqb k k0) eqn:E.
    + apply String.eqb_eq in E. subst k0. exfalso. apply Hnotin.
      apply list_elem_of_In. change k with (fst (k, v)). now apply in_map.
    + auto.
Qed.

Lemma wf_set k v d : PyDict.wf d -> PyDict.wf (PyDict.set k v d).
Proof.
  unfold PyDict.wf. intros Hnd. destruct (PyDict.contains k d) eqn:E.
  - now rewrite keys_set_present.
  - rewrite keys_set_absent by assumption.
    apply NoDup_app. repeat split; auto.
    + intros x Hx Hx'. apply list_elem_of_In in Hx, Hx'.
      destruct Hx' as [<-|[]]. unfold PyDict.contains in E.
      destruct (PyDict.get k d) eqn:G; [discriminate|].
      now apply get_None_not_key in G.
    + apply NoDup_singleton.
Qed.
End DictFacts.

(** ** Stable descending sort *)

Section SortFacts.
Context {A : Type} (key : A -> Z).

Lemma insert_desc_In x y l : In y (insert_desc key x l) <-> y = x \/ In y l.
Proof.
  induction l as [|z l IH]; simpl.
  - intuition congruence.
  - destruct (key x <? key z); simpl; rewrite ?IH; intuition congruence.
Qed.

Lemma sorted_desc_In y l : In y (sorted_desc key l) <-> In y l.
Proof.
  induction l as [|x l IH]; simpl; [tauto|].
  rewrite insert_desc_In, IH. intuition congruence.
Qed.

Lemma sorted_desc_nil l : sorted_desc key l = [] -> l = [].
Proof.
  destruct l as [|x l]; [reflexivity|]. intros H. exfalso.
  assert (Hin : In x (sorted_desc key (x :: l))) by (apply sorted_desc_In; now left).
  rewrite H in Hin. destruct Hin.
Qed.

(** The head of the sorted list is the first element of greatest key. *)
Lemma sorted_desc_head l h tl :
  sorted_desc key l = h :: tl -> first_max key l h.
Proof.
  revert h tl. induction l as [|x l IH]; intros h tl; simpl; [discriminate|].
  destruct (sorted_desc key l) as [|y s] eqn:Hs; simpl.
  - intros [= <- <-]. apply sorted_desc_nil in Hs. subst l.
    exists [], []. repeat split; constructor.
  - specialize (IH y s eq_refl). destruct IH as (l1 & l2 & -> & Hlt & Hle).
    destruct (key x <? key y) eqn:E.
    + intros [= <- <-]. apply Z.ltb_lt in E.
      exists (x :: l1), l2. repeat split; auto.
    + intros [= <- <-]. apply Z.ltb_ge in E.
      exists [], (l1 ++ y :: l2). repeat split; [constructor|].
      apply Forall_app. split.
      * eapply Forall_impl; [exact Hlt|]. simpl. intros; lia.
      * constructor; [lia|]. eapply Forall_impl; [exact Hle|]. simpl. intros; lia.
Qed.

Lemma first_max_In l x : first_max key l x -> In x l.
Proof. intros (l1 & l2 & -> & _). apply in_or_app. right. now left. Qed.

Lemma first_max_greatest l x y : first_max key l x -> In y l -> key y <= key x.
Proof.
  intros (l1 & l2 & -> & Hlt & Hle) Hin.
  apply in_app_or in Hin. destruct Hin as [Hin|[<-|Hin]].
  - rewrite Forall_forall in Hlt. specialize (Hlt _ (proj2 (list_elem_of_In _ _) Hin)). lia.
  - lia.
  - rewrite Forall_forall in Hle. exact (Hle _ (proj2 (list_elem_of_In _ _) Hin)).
Qed.
End SortFacts.

(** ** Task: dictionary round trip *)

Lemma as_strs_strs (l : list string) : Task.as_strs (map PStr l) = Some l.
Proof. induction l as [|s l IH]; simpl; [reflexivity|]. now rewrite IH. Qed.

Lemma as_str_list_strs (l : list string) : Task.as_str_list (Task.strs l) = Some l.
Proof. apply as_strs_strs. Qed.

Lemma read_optional_strs (l : list string) :
  exists o, Task.as_optional Task.as_str_list (Task.strs l) = Some o /\ Task.or_list o = l.
Proof.
  destruct l as [|s l].
  - exists None. split; reflexivity.
  - exists (Some (s :: l)). split; [|reflexivity].
    unfold Task.as_optional. rewrite as_str_list_strs. reflexivity.
Qed.

Lemma read_optional_dict (d : dict) :
  exists o, Task.as_optional Task.as_dict (PDict d) = Some o /\ Task.or_list o = d.
Proof.
  destruct d as [|e d].
  - exists None. split; reflexivity.
  - exists (Some (e :: d)). split; reflexivity.
Qed.

Lemma as_opt_str_opt_str (o : option string) : Task.as_opt_str (Task.opt_str o) = Some o.
Proof. destruct o; reflexivity. Qed.

(** C9. Converting a task to its dictionary with [to_dict] and building a
    task back with [from_dict] returns a task equal to the original: the
    eleven attributes id, description, requirements,
    required_capabilities, priority, dependencies, context, status,
    created_at, assigned_to and result all have the original's values,
    whatever identifier and timestamp the constructor drew on the way. *)
Theorem from_dict_to_dict (uuid4 now : string) (task : Task.t) :
  Task.from_dict uuid4 now (Task.to_dict task) = Task.Loaded task.
Proof.
  destruct task as [i d r rc p dp c s ca at_ res].
  destruct (read_optional_strs rc) as (orc & Hrc & Erc).
  destruct (read_optional_strs dp) as (odp & Hdp & Edp).
  destruct (read_optional_dict c) as (oc & Hc & Ec).
  unfold Task.from_dict, Task.to_dict, Task.item, PyDict.get_default.
  cbn [PyDict.get String.eqb Ascii.eqb Bool.eqb mbind Task.loaded_bind Task.typed
       Task.as_str Task.as_int Task.id Task.description Task.requirements
       Task.required_capabilities Task.priority Task.dependencies Task.context
       Task.status Task.created_at Task.assigned_to Task.result].
  rewrite as_str_list_strs, Hrc, Hdp, Hc, as_opt_str_opt_str.
  cbn [mbind Task.loaded_bind Task.typed Task.init Task.id Task.description
       Task.requirements Task.required_capabilities Task.priority Task.dependencies
       Task.context Task.status Task.created_at Task.assigned_to Task.result].
  now rewrite Erc, Edp, Ec.
Qed.

(** ** TaskQueue: selection *)

Lemma dependency_status_completed (q : TaskQueue.t) (dep : string) :
  String.eqb (TaskQueue.dependency_status q dep) "completed" = true <->
  exists d, PyDict.get dep (TaskQueue.tasks q) = Some d /\ Task.status d = "completed".
Proof.
  unfold TaskQueue.dependency_status, PyDict.get_default.
  destruct (PyDict.get dep (TaskQueue.tasks q)) as [d|]; rewrite String.eqb_eq.
  - split; [intros H; now exists d | intros (d' & [= <-] & H); exact H].
  - simpl. split; [discriminate | intros (d' & [=] & _)].
Qed.

Lemma dependencies_unmet_false (q : TaskQueue.t) (t : Task.t) :
  existsb (fun dep => negb (String.eqb (TaskQueue.dependency_status q dep) "completed"))
          (Task.dependencies t) = false <->
  dependencies_completed q t.
Proof.
  unfold dependencies_completed.
  induction (Task.dependencies t) as [|dep deps IH]; simpl.
  - split; [constructor | reflexivity].
  - rewrite orb_false_iff, negb_false_iff, IH, dependency_status_completed.
    split.
    + intros [H1 H2]. now constructor.
    + intros H. inversion H; subst. now split.
Qed.

Lemma capabilities_covered (caps required : list string) :
  forallb (fun cap => existsb (String.eqb cap) caps) required = true <->
  incl required caps.
Proof.
  unfold incl. rewrite forallb_forall. split; intros H cap Hin.
  - apply H in Hin. apply existsb_exists in Hin. destruct Hin as (c & Hc & Heq).
    apply String.eqb_eq in Heq. now subst.
  - apply existsb_exists. exists cap. split; [now apply H | apply String.eqb_refl].
Qed.

(** The loop keeps exactly the candidates. *)
Lemma eligible_candidate (q : TaskQueue.t) (caps : list string) (t : Task.t) :
  TaskQueue.eligible q caps t = true <-> candidate q caps t.
Proof.
  unfold TaskQueue.eligible, candidate.
  rewrite <- dependencies_unmet_false, <- capabilities_covered, <- String.eqb_eq.
  destruct (String.eqb (Task.status t) "pending"); simpl; [|intuition discriminate].
  destruct (existsb _ (Task.dependencies t)); simpl; [intuition discriminate|].
  destruct (forallb _ (Task.required_capabilities t)); simpl; intuition discriminate.
Qed.

Lemma available_tasks_In (q : TaskQueue.t) (caps : list string) (t : Task.t) :
  In t (TaskQueue.available_tasks q caps) <->
  In t (PyDict.values (TaskQueue.tasks q)) /\ candidate q caps t.
Proof.
  unfold TaskQueue.available_tasks, TaskQueue.available_entries, PyDict.values.
  rewrite !in_map_iff. split.
  - intros ([k t'] & <- & Hin). apply filter_In in Hin. destruct Hin as [Hin He].
    split; [exists (k, t'); now split | now apply eligible_candidate].
  - intros (([k t'] & <- & Hin) & Hc). exists (k, t'). split; [reflexivity|].
    apply filter_In. split; [assumption | now apply eligible_candidate].
Qed.

Lemma next_entry_first_max (q : TaskQueue.t) (caps : list string) (entry : string * Task.t) :
  TaskQueue.next_entry q caps = Some entry ->
  first_max (fun e => Task.priority (snd e)) (TaskQueue.available_entries q caps) entry.
Proof.
  unfold TaskQueue.next_entry.
  destruct (sorted_desc _ (TaskQueue.available_entries q caps)) as [|h tl] eqn:Hs;
    [discriminate|].
  intros [= <-]. eapply sorted_desc_head; eassumption.
Qed.

Lemma next_entry_none (q : TaskQueue.t) (caps : list string) :
  TaskQueue.next_entry q caps = None <-> TaskQueue.available_entries q caps = [].
Proof.
  unfold TaskQueue.next_entry. split.
  - destruct (sorted_desc _ (TaskQueue.available_entries q caps)) eqn:Hs; [|discriminate].
    intros _. eapply sorted_desc_nil; eassumption.
  - intros ->. reflexivity.
Qed.

Lemma first_max_map {A B} (f : A -> B) (key : B -> Z) (l : list A) (x : A) :
  first_max (fun a => key (f a)) l x -> first_max key (map f l) (f x).
Proof.
  intros (l1 & l2 & -> & Hlt & Hle). exists (map f l1), (map f l2).
  rewrite map_app. simpl. repeat split; apply Forall_map; assumption.
Qed.

Lemma get_next_task_first_max (q : TaskQueue.t) (caps : list string) (t : Task.t) :
  TaskQueue.get_next_task q caps = Some t ->
  first_max Task.priority (TaskQueue.available_tasks q caps) t.
Proof.
  unfold TaskQueue.get_next_task, TaskQueue.available_tasks.
  destruct (TaskQueue.next_entry q caps) as [entry|] eqn:Hn; [|discriminate].
  intros [= <-]. apply next_entry_first_max in Hn.
  now apply (first_max_map snd Task.priority).
Qed.

(** C2. [get_next_task] returns only a task of the queue that is pending,
    whose required capabilities are all among the given ones, and whose
    every dependency identifier resolves in the queue to a task with
    status completed (an identifier absent from the queue does not);
    and it returns none exactly when no task of the queue satisfies the
    three conditions. *)
Theorem get_next_task_only_candidates (q : TaskQueue.t) (caps : list string) :
  (forall t, TaskQueue.get_next_task q caps = Some t ->
             In t (PyDict.values (TaskQueue.tasks q))
             /\ Task.status t = "pending"
             /\ incl (Task.required_capabilities t) caps
             /\ (forall dep, In dep (Task.dependencies t) ->
                   exists d, PyDict.get dep (TaskQueue.tasks q) = Some d
                             /\ Task.status d = "completed"))
  /\ (TaskQueue.get_next_task q caps = None <->
      forall t, In t (PyDict.values (TaskQueue.tasks q)) -> ~ candidate q caps t).
Proof.
  split.
  - intros t Ht. apply get_next_task_first_max, first_max_In in Ht.
    apply available_tasks_In in Ht. destruct Ht as (Hin & Hst & Hdeps & Hcaps).
    repeat split; auto. intros dep Hdep.
    unfold dependencies_completed in Hdeps. rewrite List.Forall_forall in Hdeps. auto.
  - unfold TaskQueue.get_next_task.
    destruct (TaskQueue.next_entry q caps) as [entry|] eqn:Hn; simpl.
    + split; [discriminate|]. intros Hnone. exfalso.
      apply next_entry_first_max, first_max_In in Hn.
      apply (Hnone (snd entry)); apply (available_tasks_In q caps (snd entry));
        unfold TaskQueue.available_tasks; now apply in_map.
    + split; [|reflexivity]. intros _ t Hin Hc.
      apply next_entry_none in Hn.
      assert (Ha : In t (TaskQueue.available_tasks q caps)) by now apply available_tasks_In.
      unfold TaskQueue.available_tasks in Ha. rewrite Hn in Ha. destruct Ha.
Qed.

Lemma leb_refl (s : string) : String.leb s s = true.
Proof. destruct (String.leb_total s s); assumption. Qed.

Lemma StronglySorted_suffix {A} (R : A -> A -> Prop) (l1 l2 : list A) :
  StronglySorted R (l1 ++ l2) -> StronglySorted R l2.
Proof.
  induction l1 as [|x l1 IH]; simpl; [tauto|].
  intros H. apply StronglySorted_inv in H. tauto.
Qed.

(** C1, the claim as worded fails: with two candidates of equal priority
    added in the order opposite to their creation, the later created one
    is returned. *)
Lemma later_created_is_selected :
  TaskQueue.available_tasks queue_late_first [] <> []
  /\ TaskQueue.get_next_task queue_late_first [] = Some task_late
  /\ ~ selects_earliest_highest queue_late_first [].
Proof.
  split; [discriminate|]. split; [reflexivity|].
  intros (t & Ht & _ & _ & Hearliest).
  vm_compute in Ht. injection Ht as <-.
  specialize (Hearliest task_early). unfold created_no_later in Hearliest.
  assert (Hin : In task_early (TaskQueue.available_tasks queue_late_first []))
    by (vm_compute; tauto).
  specialize (Hearliest Hin eq_refl). vm_compute in Hearliest. discriminate.
Qed.

(** C1, amended. When the candidate set is not empty, [get_next_task]
    returns a candidate of maximum priority, and among the candidates of
    that priority the one that comes first in the iteration order of the
    queue, which is the order of insertion; it is the earliest created
    one whenever the candidates stand in the queue in the order of their
    creation. *)
Theorem get_next_task_first_highest (q : TaskQueue.t) (caps : list string) :
  TaskQueue.available_tasks q caps <> [] ->
  exists t, TaskQueue.get_next_task q caps = Some t
            /\ first_max Task.priority (TaskQueue.available_tasks q caps) t
            /\ (forall c, In c (TaskQueue.available_tasks q caps) ->
                          Task.priority c <= Task.priority t)
            /\ (StronglySorted created_no_later (TaskQueue.available_tasks q caps) ->
                forall c, In c (TaskQueue.available_tasks q caps) ->
                          Task.priority c = Task.priority t -> created_no_later t c).
Proof.
  intros Hne.
  destruct (TaskQueue.get_next_task q caps) as [t|] eqn:Hn.
  - exists t. pose proof (get_next_task_first_max _ _ _ Hn) as Hfm.
    split; [reflexivity|]. split; [assumption|]. split.
    + intros c Hc. eapply first_max_greatest; eassumption.
    + intros Hsorted c Hc Hprio.
      destruct Hfm as (l1 & l2 & Heq & Hlt & Hle). rewrite Heq in Hsorted, Hc.
      apply StronglySorted_suffix, StronglySorted_inv in Hsorted.
      destruct Hsorted as [_ Hafter].
      apply in_app_or in Hc. destruct Hc as [Hc|[<-|Hc]].
      * rewrite List.Forall_forall in Hlt. specialize (Hlt _ Hc). simpl in Hlt. lia.
      * apply leb_refl.
      * rewrite List.Forall_forall in Hafter. auto.
  - exfalso. apply Hne. unfold TaskQueue.get_next_task in Hn.
    destruct (TaskQueue.next_entry q caps) eqn:He; [discriminate|].
    apply next_entry_none in He. unfold TaskQueue.available_tasks. now rewrite He.
Qed.

(** The amended selection on the queue of the counterexample. *)
Lemma get_next_task_first_highest_witness :
  TaskQueue.available_tasks queue_late_first [] <> []
  /\ exists t, TaskQueue.get_next_task queue_late_first [] = Some t
               /\ first_max Task.priority (TaskQueue.available_tasks queue_late_first []) t
               /\ (forall c, In c (TaskQueue.available_tasks queue_late_first []) ->
                             Task.priority c <= Task.priority t)
               /\ (StronglySorted created_no_later
                                  (TaskQueue.available_tasks queue_late_first []) ->
                   forall c, In c (TaskQueue.available_tasks queue_late_first []) ->
                             Task.priority c = Task.priority t -> created_no_later t c).
Proof.
  split; [discriminate | apply get_next_task_first_highest; discriminate].
Defined.

(** The selection on the scenarios of the specification: the higher
    priority wins; a task waits for its dependency and for an agent
    with its capability. *)
Example higher_priority_first :
  TaskQueue.get_next_task queue_two [] = Some task_urgent.
Proof. reflexivity. Qed.

Example dependency_gates_selection :
  TaskQueue.get_next_task queue_ab ["code_generation"] = Some task_a
  /\ TaskQueue.get_next_task queue_ab ["test_writing"] = None
  /\ TaskQueue.get_next_task queue_ab_done ["code_generation"] = None
  /\ TaskQueue.get_next_task queue_ab_done ["test_writing"] = Some task_b.
Proof. repeat split. Qed.

(** ** TaskQueue: adding *)

(** C4, the claim as worded fails: adding a task whose identifier is
    already a key raises nothing and replaces the stored task. *)
Lemma add_task_duplicate_replaces :
  PyDict.contains (Task.id task_same_id) (TaskQueue.tasks queue_one) = true
  /\ PyDict.get (Task.id task_same_id) (TaskQueue.tasks queue_one) = Some task_early
  /\ ~ add_raises queue_one task_same_id
  /\ PyDict.get (Task.id task_same_id)
                (TaskQueue.tasks (snd (TaskQueue.add_task queue_one task_same_id)))
     = Some task_same_id.
Proof.
  repeat split; try reflexivity.
  intros (e & He). discriminate He.
Qed.

(** C4, amended. Adding a task whose identifier is already a key of the
    queue raises no error: it returns the identifier and stores the new
    task under it in place of the old one, the keys keeping their order
    and the other tasks their values. *)
Theorem add_task_existing_id (q : TaskQueue.t) (task : Task.t) :
  PyDict.contains (Task.id task) (TaskQueue.tasks q) = true ->
  exists q', TaskQueue.add_task q task = (Returns (Task.id task), q')
             /\ PyDict.get (Task.id task) (TaskQueue.tasks q') = Some task
             /\ PyDict.keys (TaskQueue.tasks q') = PyDict.keys (TaskQueue.tasks q)
             /\ (forall k, k <> Task.id task ->
                   PyDict.get k (TaskQueue.tasks q') = PyDict.get k (TaskQueue.tasks q)).
Proof.
  intros Hin. eexists. split; [reflexivity|]. simpl. repeat split.
  - apply get_set_eq.
  - now apply keys_set_present.
  - intros k Hk. apply get_set_ne. congruence.
Qed.

Lemma add_task_existing_id_witness :
  PyDict.contains (Task.id task_same_id) (TaskQueue.tasks queue_one) = true
  /\ exists q', TaskQueue.add_task queue_one task_same_id = (Returns (Task.id task_same_id), q')
                /\ PyDict.get (Task.id task_same_id) (TaskQueue.tasks q') = Some task_same_id
                /\ PyDict.keys (TaskQueue.tasks q') = PyDict.keys (TaskQueue.tasks queue_one)
                /\ (forall k, k <> Task.id task_same_id ->
                      PyDict.get k (TaskQueue.tasks q')
                      = PyDict.get k (TaskQueue.tasks queue_one)).
Proof.
  split; [reflexivity | apply add_task_existing_id; reflexivity].
Defined.

(** ** TaskQueue: updating *)

Lemma setattr_other_attribute (t : Task.t) (a : Task.attr) (name : string) :
  Task.attr_name a <> name -> attribute name (Task.setattr t a) = attribute name t.
Proof.
  intros Hne. destruct t as [i d r rc p dp c s ca at_ res].
  unfold attribute, Task.to_dict.
  destruct a; cbn [Task.setattr Task.attr_name Task.id Task.description Task.requirements
                   Task.required_capabilities Task.priority Task.dependencies Task.context
                   Task.status Task.created_at Task.assigned_to Task.result PyDict.get] in *;
    repeat (match goal with
            | |- context [String.eqb name ?k] =>
                destruct (String.eqb_spec name k); [subst name; try congruence; try reflexivity|]
            end); reflexivity.
Qed.

Lemma fold_setattr_other_attribute (updates : list Task.attr) (t : Task.t) (name : string) :
  ~ In name (map Task.attr_name updates) ->
  attribute name (fold_left Task.setattr updates t) = attribute name t.
Proof.
  revert t. induction updates as [|a updates IH]; intros t Hnot; simpl; [reflexivity|].
  rewrite IH by (intros H; apply Hnot; now right).
  apply setattr_other_attribute. intros H. apply Hnot. now left.
Qed.

Lemma setattr_mutable_kept (t : Task.t) (a : Task.attr) :
  In (Task.attr_name a) ["status"; "assigned_to"; "result"] ->
  immutable_kept t (Task.setattr t a).
Proof.
  intros Hin. destruct t as [i d r rc p dp c s ca at_ res].
  destruct a; simpl in Hin; unfold immutable_kept; simpl;
    try (repeat split; reflexivity);
    exfalso; intuition discriminate.
Qed.

Lemma immutable_kept_trans (t1 t2 t3 : Task.t) :
  immutable_kept t1 t2 -> immutable_kept t2 t3 -> immutable_kept t1 t3.
Proof. unfold immutable_kept. intuition congruence. Qed.

Lemma fold_setattr_mutable_kept (updates : list Task.attr) (t : Task.t) :
  incl (map Task.attr_name updates) ["status"; "assigned_to"; "result"] ->
  immutable_kept t (fold_left Task.setattr updates t).
Proof.
  revert t. induction updates as [|a updates IH]; intros t Hincl; simpl.
  - unfold immutable_kept. tauto.
  - eapply immutable_kept_trans.
    + apply setattr_mutable_kept. apply Hincl. now left.
    + apply IH. intros x Hx. apply Hincl. now right.
Qed.

(** *** The dictionary of updates *)












(** A key such as [__dict__] passes [hasattr] too; what [setattr] does
    with it is no assignment to a data attribute, and the embedding
    does not follow it. *)
Example update_task_dict_outside :
  TaskQueue.update_task_dict queue_one "task-early" [("__dict__", PDict [])]
  = Task.Untyped "__dict__"
  /\ TaskQueue.update_task_dict queue_one "no-such-task" [("__dict__", PDict [])]
     = Task.Loaded (false, queue_one).
Proof. split; reflexivity. Qed.




(** ** Agent *)

Ltac case_matches :=
  repeat match goal with
         | |- context [match ?x with _ => _ end] => destruct x eqn:?
         | |- context [if ?x then _ else _] => destruct x eqn:?
         end.

(** [assign_task] either leaves status and current task as they are, or
    takes an idle agent to working on the task. *)
Lemma assign_task_state (a : Agent.t) (task : dict) (now : string) (m : MemoryClient.t) :
  let a' := snd (fst (Agent.assign_task a task now m)) in
  (Agent.current_task a' = Agent.current_task a /\ Agent.status a' = Agent.status a)
  \/ (Agent.status a = "idle" /\ Agent.current_task a' = Some task
      /\ Agent.status a' = "working").
Proof.
  unfold Agent.assign_task, Agent.refuse, Agent.assign_failed.
  destruct (String.eqb_spec (Agent.status a) "idle") as [Hidle|Hbusy]; simpl negb; cbv iota.
  - case_matches; simpl; auto.
  - case_matches; simpl; auto.
Qed.

(** After its item assignments [report_progress] either leaves status
    and current task as they are, or clears the task and sets the agent
    idle. *)
Lemma report_stamped_state (a : Agent.t) (task progress : dict) (m : MemoryClient.t) :
  let a' := snd (fst (Agent.report_stamped a task progress m)) in
  (Agent.current_task a' = Agent.current_task a /\ Agent.status a' = Agent.status a)
  \/ (Agent.current_task a' = None /\ Agent.status a' = "idle").
Proof.
  unfold Agent.report_stamped, Agent.report_failed.
  case_matches; simpl; auto.
Qed.

Lemma report_progress_state (a : Agent.t) (progress : dict) (now : string)
    (m : MemoryClient.t) :
  let a' := snd (fst (Agent.report_progress a progress now m)) in
  (Agent.current_task a' = Agent.current_task a /\ Agent.status a' = Agent.status a)
  \/ (Agent.current_task a' = None /\ Agent.status a' = "idle").
Proof.
  unfold Agent.report_progress, Agent.report_progress_of.
  destruct (Agent.active_task a) as [task|]; [apply report_stamped_state|].
  simpl. auto.
Qed.

(** Handed its own task, the agent keeps its status and a task, or is
    freed. *)
Lemma report_own_task_state (a : Agent.t) (now : string) (m : MemoryClient.t) :
  let a' := snd (fst (Agent.report_progress_of a Agent.Own_task now m)) in
  (Agent.status a' = Agent.status a
   /\ (Agent.current_task a' = None <-> Agent.current_task a = None))
  \/ (Agent.current_task a' = None /\ Agent.status a' = "idle").
Proof.
  unfold Agent.report_progress_of, Agent.active_task.
  destruct (Agent.current_task a) as [[|entry task]|] eqn:Htask;
    try (simpl; left; rewrite Htask; split; [reflexivity|tauto]).
  cbv zeta.
  pose proof (report_stamped_state
                (Agent.set_state (Some (Agent.stamp a now (entry :: task))) (Agent.status a) a)
                (Agent.stamp a now (entry :: task)) (Agent.stamp a now (entry :: task)) m) as H.
  cbv zeta in H. destruct H as [[Hc Hs]|H]; [left|now right].
  rewrite Hc, Hs. simpl. split; [reflexivity|]. split; discriminate.
Qed.

Lemma exclusive_init (name : string) (caps : list string) (generated_id : string) :
  exclusive (Agent.init name caps generated_id).
Proof. unfold exclusive. simpl. intuition discriminate. Qed.

Lemma exclusive_step (s : Agent.t * MemoryClient.t) (o : Agent.op) :
  exclusive (fst s) -> exclusive (fst (Agent.step s o)).
Proof.
  destruct s as [a m]. unfold exclusive. simpl fst. intros [Hw Hi].
  destruct o as [task now|progress now|now|m']; simpl.
  - pose proof (assign_task_state a task now m) as H.
    destruct (Agent.assign_task a task now m) as [[r a'] m']. simpl in *.
    destruct H as [[-> ->]|(_ & -> & ->)]; [tauto|].
    split; split; try discriminate; congruence.
  - pose proof (report_progress_state a progress now m) as H.
    destruct (Agent.report_progress a progress now m) as [[r a'] m']. simpl in *.
    destruct H as [[-> ->]|[-> ->]]; [tauto|].
    split; split; try discriminate; congruence.
  - pose proof (report_own_task_state a now m) as H.
    destruct (Agent.report_progress_of a Agent.Own_task now m) as [[r a'] m']. simpl in *.
    destruct H as [[-> Hnone]|[-> ->]]; [tauto|].
    split; split; try discriminate; congruence.
  - tauto.
Qed.

(** Assigning to a working agent is refused and leaves its task alone. *)
Example assign_to_working_agent :
  exists a', Agent.assign_task agent_busy (Task.to_dict task_late) "2024-05-01T12:00:00"
                               memory_up
             = (Returns false, a', memory_up)
             /\ Agent.current_task a' = Agent.current_task agent_busy
             /\ Agent.status a' = "working".
Proof. eexists. repeat split. Qed.

(** C5. Starting from a newly constructed agent, after each operation of
    any sequence of [assign_task] and [report_progress] calls, with any
    arguments (the agent's own task handed to [report_progress]
    included) and any behaviour of the memory collaborator (calls that
    raise and changes made by others included), the agent's status is
    working if and only if its current task is not null, and idle if and
    only if it is null. *)
Theorem agent_exclusive_after_each_operation
    (name : string) (caps : list string) (generated_id : string)
    (m : MemoryClient.t) (ops : list Agent.op) :
  Forall (fun s => exclusive (fst s))
         (Agent.trace (Agent.init name caps generated_id, m) ops).
Proof.
  pose proof (exclusive_init name caps generated_id) as Hinit.
  change (exclusive (fst (Agent.init name caps generated_id, m))) in Hinit.
  revert Hinit. generalize (Agent.init name caps generated_id, m).
  induction ops as [|o ops IH]; intros s Hs; simpl; constructor.
  - now apply exclusive_step.
  - apply IH. now apply exclusive_step.
Qed.

(** *** The collaborator's calls *)

Lemma call_goes_through {A} (m : MemoryClient.t) (run : MemoryClient.t -> A * MemoryClient.t) :
  next_fault m = None ->
  exists m0, MemoryClient.call m run = (Returns (fst (run m0)), snd (run m0))
             /\ MemoryClient.short_term m0 = MemoryClient.short_term m
             /\ MemoryClient.long_term m0 = MemoryClient.long_term m
             /\ MemoryClient.world_state m0 = MemoryClient.world_state m
             /\ MemoryClient.faults m0 = tl (MemoryClient.faults m).
Proof.
  unfold next_fault, MemoryClient.call.
  destruct (MemoryClient.faults m) as [|[msg|] rest] eqn:Hf; [| discriminate |]; intros _.
  - exists m. destruct (run m). rewrite Hf. simpl. auto.
  - exists (MemoryClient.with_faults rest m).
    destruct (run (MemoryClient.with_faults rest m)). simpl. auto.
Qed.

Lemma call_raises {A} (m : MemoryClient.t) (run : MemoryClient.t -> A * MemoryClient.t)
    (msg : string) :
  next_fault m = Some msg ->
  MemoryClient.call m run
  = (Raises (Fault msg), MemoryClient.with_faults (tl (MemoryClient.faults m)) m).
Proof.
  unfold next_fault, MemoryClient.call.
  destruct (MemoryClient.faults m) as [|[msg'|] rest]; try discriminate.
  now intros [= ->].
Qed.

Lemma update_world_state_goes_through (key : string) (value : pyval) (m : MemoryClient.t) :
  next_fault m = None ->
  exists m', MemoryClient.update_world_state key value m = (Returns tt, m')
             /\ MemoryClient.world_state m' = <[key := value]> (MemoryClient.world_state m)
             /\ MemoryClient.short_term m' = MemoryClient.short_term m
             /\ MemoryClient.long_term m' = MemoryClient.long_term m
             /\ MemoryClient.faults m' = tl (MemoryClient.faults m).
Proof.
  intros Hok. unfold MemoryClient.update_world_state.
  destruct (call_goes_through m
              (fun m => (tt, {| MemoryClient.short_term := MemoryClient.short_term m;
                                MemoryClient.long_term := MemoryClient.long_term m;
                                MemoryClient.world_state :=
                                  <[key := value]> (MemoryClient.world_state m);
                                MemoryClient.faults := MemoryClient.faults m |})) Hok)
    as (m0 & -> & Hs & Hl & Hw & Hf).
  eexists. split; [reflexivity|]. simpl. now rewrite Hs, Hl, Hw, Hf.
Qed.

(** *** Progress reports *)

Lemma fmt_item_present (k : string) (d : dict) (v : pyval) :
  PyDict.get k d = Some v -> fmt_item k d = Returns (py_str v).
Proof. unfold fmt_item. now intros ->. Qed.

Lemma stamp_keeps_status (a : Agent.t) (now : string) (progress : dict) :
  PyDict.get "status" (Agent.stamp a now progress) = PyDict.get "status" progress.
Proof.
  unfold Agent.stamp. rewrite !get_set_ne by discriminate. reflexivity.
Qed.

Lemma reports_terminal_status (progress : dict) :
  reports_terminal progress ->
  exists st, PyDict.get "status" progress = Some (PStr st) /\ terminal st.
Proof.
  unfold reports_terminal, PyDict.get_default, py_in_strs, terminal.
  destruct (PyDict.get "status" progress) as [[| | |st| |]|]; simpl; try discriminate.
  rewrite !orb_false_r, orb_true_iff, !String.eqb_eq. intros H. now exists st.
Qed.

Lemma active_task_with_id (a : Agent.t) (task : dict) (idv : pyval) :
  Agent.current_task a = Some task -> PyDict.get "id" task = Some idv ->
  Agent.active_task a = Some task.
Proof.
  unfold Agent.active_task. intros -> Hid. destruct task; [discriminate|reflexivity].
Qed.

(** C8, the claim as worded fails: when the collaborator raises on the
    world-state write, the exception is caught, nothing is written, and
    the agent keeps its task and stays working. *)
Lemma report_progress_write_fails :
  Agent.current_task agent_busy = Some (Task.to_dict task_early)
  /\ reports_terminal progress_done
  /\ ~ report_frees agent_busy progress_done "2024-05-01T12:00:00" memory_down
  /\ (exists a' m',
        Agent.report_progress agent_busy progress_done "2024-05-01T12:00:00" memory_down
        = (Returns tt, a', m')
        /\ MemoryClient.world_state m' !! progress_key "task-early" = None
        /\ Agent.current_task a' = Some (Task.to_dict task_early)
        /\ Agent.status a' = "working").
Proof.
  split; [reflexivity|]. split; [reflexivity|]. split.
  - intros H. destruct (H _ eq_refl eq_refl) as (tid & a' & m' & _ & Hrun & _ & _ & Hst).
    vm_compute in Hrun. injection Hrun as <- <-. discriminate Hst.
  - do 2 eexists. split; [vm_compute; reflexivity|]. repeat split.
Qed.

(** The record [report_progress] stamps is the record handed over with
    the two stamps. *)
Lemma keys_set_with_key {V} (k : string) (v : V) (d : list (string * V)) :
  PyDict.keys (PyDict.set k v d) = with_key k (PyDict.keys d).
Proof.
  unfold with_key. induction d as [|[k0 v0] d IH]; simpl; [reflexivity|].
  destruct (String.eqb k k0); simpl; [reflexivity|].
  rewrite IH. now destruct (existsb (String.eqb k) (PyDict.keys d)).
Qed.

Lemma stamp_stamped (a : Agent.t) (now : string) (record : dict) :
  stamped a now record (Agent.stamp a now record).
Proof.
  unfold stamped, Agent.stamp. split; [|split; [|split]].
  - rewrite get_set_ne by discriminate. apply get_set_eq.
  - apply get_set_eq.
  - intros k Hr Ha. now rewrite !get_set_ne by congruence.
  - now rewrite !keys_set_with_key.
Qed.

Lemma stamp_keeps_id (a : Agent.t) (now : string) (task : dict) :
  PyDict.get "id" (Agent.stamp a now task) = PyDict.get "id" task.
Proof.
  unfold Agent.stamp. rewrite !get_set_ne by discriminate. reflexivity.
Qed.

Lemma stamp_reports_terminal (a : Agent.t) (now : string) (progress : dict) :
  reports_terminal progress -> reports_terminal (Agent.stamp a now progress).
Proof.
  unfold reports_terminal, PyDict.get_default. now rewrite stamp_keeps_status.
Qed.

(** A terminal record whose write goes through frees the agent. *)
Lemma report_stamped_terminal (a : Agent.t) (task progress : dict) (idv : pyval)
    (m : MemoryClient.t) :
  PyDict.get "id" task = Some idv ->
  reports_terminal progress ->
  next_fault m = None ->
  exists a' m',
    Agent.report_stamped a task progress m = (Returns tt, a', m')
    /\ Agent.status a' = "idle"
    /\ Agent.current_task a' = None
    /\ MemoryClient.world_state m'
       = <[progress_key (py_str idv) := PDict progress]> (MemoryClient.world_state m).
Proof.
  intros Hid Hterm Hok.
  destruct (reports_terminal_status _ Hterm) as (st & Hst & _).
  destruct (update_world_state_goes_through (progress_key (py_str idv))
              (PDict progress) m Hok) as (m' & Hrun & Hw & _).
  unfold Agent.report_stamped. rewrite (fmt_item_present _ _ _ Hid).
  unfold progress_key in Hrun. rewrite Hrun.
  rewrite (fmt_item_present "status" _ (PStr st)) by assumption.
  unfold reports_terminal in Hterm. rewrite Hterm.
  do 2 eexists. split; [reflexivity|]. simpl. auto.
Qed.

(** A write that raises is logged, and the agent is left as it is. *)
Lemma report_stamped_fault (a : Agent.t) (task progress : dict) (idv : pyval)
    (m : MemoryClient.t) (msg : string) :
  PyDict.get "id" task = Some idv ->
  next_fault m = Some msg ->
  exists m',
    Agent.report_stamped a task progress m
    = (Returns tt, Agent.log ERROR ("Failed to report progress: " +:+ msg) a, m').
Proof.
  intros Hid Hfault. unfold Agent.report_stamped. rewrite (fmt_item_present _ _ _ Hid).
  unfold MemoryClient.update_world_state. rewrite (call_raises _ _ _ Hfault).
  eexists. reflexivity.
Qed.

(** C8, amended. [report_progress] writes its two stamps into the
    dictionary it is handed, which is a dictionary of the caller's or
    the agent's own current task. For an agent whose current task
    carries an identifier and a dictionary whose status is completed or
    failed: when the world-state write goes through, the dictionary
    with the timestamp and the agent's identifier, every other key as
    it was, is in world state under the key of the task, the current
    task is cleared and the status is idle; when the write raises, the
    exception is caught and logged and the agent keeps its status and
    its current task, which carries the two stamps if it is the
    dictionary handed over. For an agent with no current task,
    [report_progress] raises nothing and only logs a warning, status and
    current task unchanged. *)
Theorem report_progress_terminal_or_idle (a : Agent.t) (h : Agent.handed) (now : string)
    (m : MemoryClient.t) :
  (forall task idv,
      Agent.current_task a = Some task -> PyDict.get "id" task = Some idv ->
      reports_terminal (record_handed h task) ->
      exists record',
        stamped a now (record_handed h task) record'
        /\ (next_fault m = None ->
            exists a' m', Agent.report_progress_of a h now m = (Returns tt, a', m')
                          /\ MemoryClient.world_state m' !! progress_key (py_str idv)
                             = Some (PDict record')
                          /\ Agent.current_task a' = None
                          /\ Agent.status a' = "idle")
        /\ (forall msg, next_fault m = Some msg ->
            exists a' m', Agent.report_progress_of a h now m = (Returns tt, a', m')
                          /\ Agent.status a' = Agent.status a
                          /\ Agent.current_task a' = Some (task_held h task record')
                          /\ Agent.logger a'
                             = Agent.logger a
                               ++ [(ERROR, "Failed to report progress: " +:+ msg)]))
  /\ (Agent.current_task a = None ->
      Agent.report_progress_of a h now m
      = (Returns tt, Agent.log WARNING "Cannot report progress: No task assigned" a, m)).
Proof.
  split.
  - intros task idv Htask Hid Hterm.
    pose proof (active_task_with_id _ _ _ Htask Hid) as Hactive.
    exists (Agent.stamp a now (record_handed h task)).
    split; [apply stamp_stamped|].
    unfold Agent.report_progress_of. rewrite Hactive.
    destruct h as [progress|]; simpl record_handed in *; simpl task_held; cbv zeta; split.
    + intros Hok.
      destruct (report_stamped_terminal a task (Agent.stamp a now progress) idv m Hid
                  (stamp_reports_terminal a now progress Hterm) Hok)
        as (a' & m' & Hrun & Hidle & Hnone & Hw).
      exists a', m'. split; [exact Hrun|].
      split; [rewrite Hw; apply lookup_insert_eq|]. now split.
    + intros msg Hfault.
      destruct (report_stamped_fault a task (Agent.stamp a now progress) idv m msg Hid Hfault)
        as (m' & Hrun).
      do 2 eexists. split; [exact Hrun|]. simpl. auto.
    + intros Hok.
      destruct (report_stamped_terminal
                  (Agent.set_state (Some (Agent.stamp a now task)) (Agent.status a) a)
                  (Agent.stamp a now task) (Agent.stamp a now task) idv m
                  (eq_trans (stamp_keeps_id a now task) Hid)
                  (stamp_reports_terminal a now task Hterm) Hok)
        as (a' & m' & Hrun & Hidle & Hnone & Hw).
      exists a', m'. split; [exact Hrun|].
      split; [rewrite Hw; apply lookup_insert_eq|]. now split.
    + intros msg Hfault.
      destruct (report_stamped_fault
                  (Agent.set_state (Some (Agent.stamp a now task)) (Agent.status a) a)
                  (Agent.stamp a now task) (Agent.stamp a now task) idv m msg
                  (eq_trans (stamp_keeps_id a now task) Hid) Hfault)
        as (m' & Hrun).
      do 2 eexists. split; [exact Hrun|]. simpl. auto.
  - intros Hnone. unfold Agent.report_progress_of, Agent.active_task. now rewrite Hnone.
Qed.

Lemma report_progress_terminal_or_idle_witness :
  exists record' a' m',
    stamped agent_busy "2024-05-01T12:00:00" progress_done record'
    /\ Agent.report_progress_of agent_busy (Agent.Callers progress_done)
                                "2024-05-01T12:00:00" memory_up
       = (Returns tt, a', m')
    /\ MemoryClient.world_state m' !! progress_key "task-early" = Some (PDict record')
    /\ Agent.current_task a' = None
    /\ Agent.status a' = "idle".
Proof.
  destruct (report_progress_terminal_or_idle agent_busy (Agent.Callers progress_done)
              "2024-05-01T12:00:00" memory_up) as [H _].
  destruct (H (Task.to_dict task_early) (PStr "task-early") eq_refl eq_refl eq_refl)
    as (record' & Hstamped & Hok & _).
  destruct (Hok eq_refl) as (a' & m' & Hrun & Hw & Hnone & Hidle).
  exists record', a', m'. auto.
Defined.

(** *** Assignment *)

Lemma next_entry_candidate (q : TaskQueue.t) (caps : list string) (key : string)
    (t : Task.t) :
  TaskQueue.next_entry q caps = Some (key, t) ->
  In (key, t) (TaskQueue.tasks q) /\ candidate q caps t.
Proof.
  intros Hn. apply next_entry_first_max, first_max_In in Hn.
  unfold TaskQueue.available_entries in Hn. apply filter_In in Hn.
  destruct Hn as [Hin He]. split; [assumption | now apply eligible_candidate].
Qed.

(** C10. For an idle agent and a task carrying an identifier whose
    required capabilities the agent has: if the collaborator's
    [store_short_term] goes through and its [update_world_state] then
    raises, [assign_task] returns false and yet leaves the agent with
    status working and the task as its current task, the task stored in
    short-term memory and no assignment record in world state. When the
    call is the one [assign_tasks] makes for the task it selected, the
    loop body counts no assignment and leaves the queue as it was, so
    the task, still pending there, is held by a working agent. *)
Theorem assign_task_not_rolled_back (a : Agent.t) (task : dict) (idv : pyval)
    (now : string) (m : MemoryClient.t) (msg : string) (rest : list (option string)) :
  Agent.status a = "idle" ->
  PyDict.get "id" task = Some idv ->
  Agent.lacks_capabilities a (PyDict.get_default "required_capabilities" (PList []) task)
  = Returns false ->
  MemoryClient.faults m = None :: Some msg :: rest ->
  exists a' m',
    Agent.assign_task a task now m = (Returns false, a', m')
    /\ Agent.status a' = "working"
    /\ Agent.current_task a' = Some task
    /\ MemoryClient.short_term m' !! ("task:" +:+ py_str idv) = Some (PDict task)
    /\ MemoryClient.world_state m' = MemoryClient.world_state m
    /\ (forall q key t,
          TaskQueue.next_entry q (Agent.capabilities a) = Some (key, t) ->
          task = Task.to_dict t ->
          TaskOrchestrator.assign_one now a q m = (Returns 0, a', q, m')
          /\ In (key, t) (TaskQueue.tasks q)
          /\ Task.status t = "pending").
Proof.
  intros Hidle Hid Hcaps Hfaults.
  assert (Hrun : exists a' m',
             Agent.assign_task a task now m = (Returns false, a', m')
             /\ Agent.status a' = "working"
             /\ Agent.current_task a' = Some task
             /\ MemoryClient.short_term m' !! ("task:" +:+ py_str idv) = Some (PDict task)
             /\ MemoryClient.world_state m' = MemoryClient.world_state m).
  { unfold Agent.assign_task, Agent.assign_failed.
    rewrite Hidle, Hcaps, (fmt_item_present _ _ _ Hid). simpl negb. cbv iota.
    unfold MemoryClient.store_short_term, MemoryClient.update_world_state,
      MemoryClient.call.
    rewrite Hfaults. simpl. do 2 eexists. split; [reflexivity|]. simpl.
    repeat split. apply lookup_insert_eq. }
  destruct Hrun as (a' & m' & Hrun & Hst & Htask & Hshort & Hworld).
  exists a', m'. do 5 (split; [assumption|]).
  intros q key t Hnext ->. pose proof (next_entry_candidate _ _ _ _ Hnext) as [Hin [Hp _]].
  split; [|split; assumption].
  unfold TaskOrchestrator.assign_one. rewrite Hidle. simpl negb. cbv iota.
  now rewrite Hnext, Hrun.
Qed.

Lemma assign_task_not_rolled_back_witness :
  exists a' m',
    Agent.assign_task agent_idle (Task.to_dict task_early) "2024-05-01T10:30:00" memory_flaky
    = (Returns false, a', m')
    /\ Agent.status a' = "working"
    /\ Agent.current_task a' = Some (Task.to_dict task_early)
    /\ MemoryClient.short_term m' !! ("task:" +:+ py_str (PStr "task-early"))
       = Some (PDict (Task.to_dict task_early))
    /\ MemoryClient.world_state m' = MemoryClient.world_state memory_flaky
    /\ (forall q key t,
          TaskQueue.next_entry q (Agent.capabilities agent_idle) = Some (key, t) ->
          Task.to_dict task_early = Task.to_dict t ->
          TaskOrchestrator.assign_one "2024-05-01T10:30:00" agent_idle q memory_flaky
          = (Returns 0, a', q, m')
          /\ In (key, t) (TaskQueue.tasks q)
          /\ Task.status t = "pending").
Proof.
  apply (assign_task_not_rolled_back agent_idle (Task.to_dict task_early)
           (PStr "task-early") "2024-05-01T10:30:00" memory_flaky
           "connection lost" []); reflexivity.
Defined.

(** ** Orchestrator *)

Section DictAlterFacts.
Context {V : Type}.
Implicit Types (k : string) (v : V) (d : list (string * V)).

Lemma get_alter (f : V -> V) k k' d :
  PyDict.get k' (PyDict.alter f k d)
  = if String.eqb k k' then option_map f (PyDict.get k' d) else PyDict.get k' d.
Proof.
  induction d as [|[k0 v0] d IH]; simpl.
  - now destruct (String.eqb k k').
  - destruct (String.eqb_spec k k0) as [->|Hk0]; simpl.
    + destruct (String.eqb_spec k' k0) as [->|Hk'].
      * now rewrite String.eqb_refl.
      * destruct (String.eqb_spec k0 k'); [congruence | reflexivity].
    + destruct (String.eqb_spec k' k0) as [->|Hk']; [|exact IH].
      destruct (String.eqb_spec k k0); [congruence | reflexivity].
Qed.

Lemma keys_alter (f : V -> V) k d : PyDict.keys (PyDict.alter f k d) = PyDict.keys d.
Proof.
  induction d as [|[k0 v0] d IH]; simpl; [reflexivity|].
  destruct (String.eqb k k0); simpl; [reflexivity | now rewrite IH].
Qed.

Lemma In_alter (f : V -> V) k k' v' d :
  In (k', v') (PyDict.alter f k d) ->
  exists v, In (k', v) d /\ (v' = v \/ (k' = k /\ v' = f v)).
Proof.
  induction d as [|[k0 v0] d IH]; simpl; [tauto|].
  destruct (String.eqb_spec k k0) as [->|Hk0]; simpl.
  - intros [[= <- <-]|Hin]; [exists v0 | exists v']; auto.
  - intros [[= <- <-]|Hin]; [exists v0; auto|].
    destruct (IH Hin) as (v & Hv & Hor). exists v. auto.
Qed.

Lemma In_set k v k' v' d :
  In (k', v') (PyDict.set k v d) -> In (k', v') d \/ (k' = k /\ v' = v).
Proof.
  induction d as [|[k0 v0] d IH]; simpl.
  - intros [[= <- <-]|[]]. auto.
  - destruct (String.eqb_spec k k0) as [->|Hk0]; simpl.
    + intros [[= <- <-]|Hin]; auto.
    + intros [Heq|Hin]; [auto|]. destruct (IH Hin); auto.
Qed.

Lemma get_contains k v d : PyDict.get k d = Some v -> PyDict.contains k d = true.
Proof. unfold PyDict.contains. now intros ->. Qed.
End DictAlterFacts.

(** *** The queue under [update_task] *)

Lemma update_task_get (q : TaskQueue.t) (s : string) (updates : list Task.attr)
    (tid : string) :
  PyDict.get tid (TaskQueue.tasks (snd (TaskQueue.update_task q s updates)))
  = if String.eqb s tid
    then option_map (fold_left Task.setattr updates) (PyDict.get tid (TaskQueue.tasks q))
    else PyDict.get tid (TaskQueue.tasks q).
Proof.
  unfold TaskQueue.update_task.
  destruct (String.eqb_spec s tid) as [->|Hne].
  - destruct (PyDict.get tid (TaskQueue.tasks q)) eqn:Hg; simpl.
    + apply get_set_eq.
    + exact Hg.
  - destruct (PyDict.get s (TaskQueue.tasks q)); simpl; [|reflexivity].
    now apply get_set_ne.
Qed.

Lemma update_task_keys (q : TaskQueue.t) (s : string) (updates : list Task.attr) :
  PyDict.keys (TaskQueue.tasks (snd (TaskQueue.update_task q s updates)))
  = PyDict.keys (TaskQueue.tasks q).
Proof.
  unfold TaskQueue.update_task.
  destruct (PyDict.get s (TaskQueue.tasks q)) eqn:Hg; simpl; [|reflexivity].
  apply keys_set_present. eapply get_contains; eassumption.
Qed.

Lemma update_task_dyn_get (q : TaskQueue.t) (idv : pyval) (updates : list Task.attr)
    (tid : string) :
  PyDict.get tid (TaskQueue.tasks (snd (TaskOrchestrator.update_task_dyn q idv updates)))
  = if py_eq_str idv tid
    then option_map (fold_left Task.setattr updates) (PyDict.get tid (TaskQueue.tasks q))
    else PyDict.get tid (TaskQueue.tasks q).
Proof.
  destruct idv; simpl; try reflexivity.
  pose proof (update_task_get q s updates tid) as H.
  destruct (TaskQueue.update_task q s updates). exact H.
Qed.

Lemma update_task_dyn_keys (q : TaskQueue.t) (idv : pyval) (updates : list Task.attr) :
  PyDict.keys (TaskQueue.tasks (snd (TaskOrchestrator.update_task_dyn q idv updates)))
  = PyDict.keys (TaskQueue.tasks q).
Proof.
  destruct idv; simpl; try reflexivity.
  pose proof (update_task_keys q s updates) as H.
  destruct (TaskQueue.update_task q s updates). exact H.
Qed.

(** *** The collaborator under the handlers *)

Lemma call_world_state {A} (m : MemoryClient.t) (run : MemoryClient.t -> A * MemoryClient.t) :
  (forall m0, MemoryClient.world_state (snd (run m0)) = MemoryClient.world_state m0) ->
  MemoryClient.world_state (snd (MemoryClient.call m run)) = MemoryClient.world_state m.
Proof.
  intros Hrun. unfold MemoryClient.call.
  destruct (MemoryClient.faults m) as [|[msg|] rest]; simpl.
  - specialize (Hrun m). now destruct (run m).
  - reflexivity.
  - specialize (Hrun (MemoryClient.with_faults rest m)).
    now destruct (run (MemoryClient.with_faults rest m)).
Qed.

Lemma get_long_term_world_state (key : string) (m : MemoryClient.t) :
  MemoryClient.world_state (snd (MemoryClient.get_long_term key m))
  = MemoryClient.world_state m.
Proof. apply call_world_state. reflexivity. Qed.

Lemma store_long_term_world_state (key : string) (value : pyval) (m : MemoryClient.t) :
  MemoryClient.world_state (snd (MemoryClient.store_long_term key value m))
  = MemoryClient.world_state m.
Proof. apply call_world_state. reflexivity. Qed.

Lemma get_world_state_world_state (key : string) (m : MemoryClient.t) :
  MemoryClient.world_state (snd (MemoryClient.get_world_state key m))
  = MemoryClient.world_state m.
Proof. apply call_world_state. reflexivity. Qed.

Lemma get_world_state_returns (key : string) (m m' : MemoryClient.t) (v : pyval) :
  MemoryClient.get_world_state key m = (Returns v, m') ->
  v = MemoryClient.lookup_or_none key (MemoryClient.world_state m).
Proof.
  unfold MemoryClient.get_world_state, MemoryClient.call.
  destruct (MemoryClient.faults m) as [|[msg|] rest]; simpl; congruence.
Qed.

(** *** The handlers *)

Lemma settle_settled (self : TaskOrchestrator.t) (idv : pyval) (st : string)
    (result : pyval) (stamp_key now : string) :
  settled self (snd (TaskOrchestrator.settle self idv st result stamp_key now))
          idv st result.
Proof.
  unfold settled, TaskOrchestrator.settle.
  destruct (TaskOrchestrator.update_task_dyn _ idv _) as [[found|e] q]; simpl; [|auto].
  pose proof (get_long_term_world_state ("task:" +:+ py_str idv)
                (TaskOrchestrator.memory_client self)) as Hg.
  destruct (MemoryClient.get_long_term _ (TaskOrchestrator.memory_client self))
    as [[task_data|e] m]; simpl in *; [|auto].
  destruct (truthy task_data); simpl; [|auto].
  destruct (TaskOrchestrator.set_items task_data _) as [task_data'|e]; simpl; [|auto].
  cbv zeta.
  pose proof (store_long_term_world_state ("task:" +:+ py_str idv) task_data'
                (MemoryClient.long_term_changed_in_place ("task:" +:+ py_str idv)
                                                         task_data' m)) as Hs.
  destruct (MemoryClient.store_long_term _ task_data' _) as [[u|e] m']; simpl in *;
    repeat split; congruence.
Qed.

Lemma handle_completed_task_settled (self : TaskOrchestrator.t) (idv result : pyval)
    (now : string) :
  settled self (snd (TaskOrchestrator.handle_completed_task self idv result now))
          idv "completed" result.
Proof.
  unfold TaskOrchestrator.handle_completed_task.
  pose proof (settle_settled self idv "completed" result "completed_at" now) as H.
  destruct (TaskOrchestrator.settle self idv "completed" result "completed_at" now)
    as [[u|e] self']; exact H.
Qed.

Lemma handle_failed_task_settled (self : TaskOrchestrator.t) (idv error_data : pyval)
    (now : string) :
  settled self (snd (TaskOrchestrator.handle_failed_task self idv error_data now))
          idv "failed" error_data.
Proof.
  unfold TaskOrchestrator.handle_failed_task.
  pose proof (settle_settled self idv "failed" error_data "failed_at" now) as H.
  destruct (TaskOrchestrator.settle self idv "failed" error_data "failed_at" now)
    as [[u|e] self']; [|exact H].
  destruct error_data; exact H.
Qed.

(** *** The monitor step *)

(** One iteration of the monitor loop leaves the queue alone, or settles
    the task of a working agent with the record world state holds for
    it; it never touches the agents or world state. *)
Lemma monitor_one_effect (now : string) (a : Agent.t) (self : TaskOrchestrator.t) :
  let self' := snd (TaskOrchestrator.monitor_one now a self) in
  TaskOrchestrator.agents self' = TaskOrchestrator.agents self
  /\ MemoryClient.world_state (TaskOrchestrator.memory_client self')
     = MemoryClient.world_state (TaskOrchestrator.memory_client self)
  /\ (TaskOrchestrator.task_queue self' = TaskOrchestrator.task_queue self
      \/ exists task idv record st,
           Agent.status a = "working"
           /\ Agent.active_task a = Some task
           /\ PyDict.get "id" task = Some idv
           /\ MemoryClient.lookup_or_none ("task_progress:" +:+ py_str idv)
                (MemoryClient.world_state (TaskOrchestrator.memory_client self))
              = PDict record
           /\ py_eq_str (PyDict.get_default "status" PNone record) st = true
           /\ terminal st
           /\ TaskOrchestrator.task_queue self'
              = snd (TaskOrchestrator.update_task_dyn (TaskOrchestrator.task_queue self) idv
                       [Task.Attr_status st; Task.Attr_result (PDict record)])).
Proof.
  unfold TaskOrchestrator.monitor_one.
  destruct (String.eqb_spec (Agent.status a) "working") as [Hw|Hw]; simpl; [|auto].
  destruct (Agent.active_task a) as [task|] eqn:Hactive; simpl; [|auto].
  destruct (PyDict.get "id" task) as [idv|] eqn:Hid; simpl; [|auto].
  pose proof (get_world_state_world_state ("task_progress:" +:+ py_str idv)
                (TaskOrchestrator.memory_client self)) as Hws.
  destruct (MemoryClient.get_world_state _ (TaskOrchestrator.memory_client self))
    as [[task_progress|e] m] eqn:Hget; simpl in *; [|auto].
  apply get_world_state_returns in Hget.
  destruct (truthy task_progress); simpl; [|auto].
  destruct task_progress as [| | | | |record]; simpl; auto.
  set (self1 := TaskOrchestrator.with_memory m self).
  destruct (py_eq_str (PyDict.get_default "status" PNone record) "completed") eqn:Hc;
    [|destruct (py_eq_str (PyDict.get_default "status" PNone record) "failed") eqn:Hf;
      [|simpl; auto]].
  - destruct (handle_completed_task_settled self1 idv (PDict record) now) as (Hq & Ha & Hm).
    split; [exact Ha|]. split; [now rewrite Hm|]. right.
    exists task, idv, record, "completed". unfold terminal. repeat split; auto.
  - destruct (handle_failed_task_settled self1 idv (PDict record) now) as (Hq & Ha & Hm).
    split; [exact Ha|]. split; [now rewrite Hm|]. right.
    exists task, idv, record, "failed". unfold terminal. repeat split; auto.
Qed.

Lemma py_eq_str_true (v : pyval) (s : string) : py_eq_str v s = true <-> v = PStr s.
Proof.
  destruct v; simpl; try (split; [discriminate | intros [=]]).
  rewrite String.eqb_eq. split; [now intros -> | now intros [= ->]].
Qed.

Lemma fold_settle_attrs (t : Task.t) (st : string) (result : pyval) :
  Task.status (fold_left Task.setattr [Task.Attr_status st; Task.Attr_result result] t) = st
  /\ Task.result (fold_left Task.setattr [Task.Attr_status st; Task.Attr_result result] t)
     = result
  /\ Task.id (fold_left Task.setattr [Task.Attr_status st; Task.Attr_result result] t)
     = Task.id t.
Proof. destruct t. simpl. auto. Qed.

(** An iteration that returns, for an agent whose task is reported
    done, settles that task. *)
Lemma monitor_one_settles (now : string) (a : Agent.t) (self self' : TaskOrchestrator.t)
    (tid : string) (record : dict) (st : string) :
  Agent.status a = "working" ->
  (exists task, Agent.current_task a = Some task /\ PyDict.get "id" task = Some (PStr tid)) ->
  record_in_world (TaskOrchestrator.memory_client self) tid record st ->
  PyDict.contains tid (TaskQueue.tasks (TaskOrchestrator.task_queue self)) = true ->
  TaskOrchestrator.monitor_one now a self = (Returns tt, self') ->
  task_settled (TaskOrchestrator.task_queue self') tid st record.
Proof.
  intros Hw (task & Htask & Hid) (Hrec & Hst & Hterm) Hin Hrun.
  pose proof (active_task_with_id _ _ _ Htask Hid) as Hactive.
  unfold TaskOrchestrator.monitor_one in Hrun.
  rewrite Hw, Hactive, Hid in Hrun. simpl in Hrun.
  destruct (MemoryClient.get_world_state _ (TaskOrchestrator.memory_client self))
    as [[task_progress|e] m] eqn:Hget; [|discriminate].
  apply get_world_state_returns in Hget.
  unfold MemoryClient.lookup_or_none in Hget. unfold progress_key in Hrec.
  rewrite Hrec in Hget. simpl in Hget. subst task_progress.
  assert (Htruthy : truthy (PDict record) = true)
    by (destruct record; [discriminate | reflexivity]).
  rewrite Htruthy in Hrun. simpl in Hrun.
  unfold PyDict.get_default in Hrun. rewrite Hst in Hrun. simpl in Hrun.
  set (self1 := TaskOrchestrator.with_memory m self) in *.
  assert (Hsettled : settled self1 self' (PStr tid) st (PDict record)).
  { destruct Hterm as [-> | ->]; simpl in Hrun.
    - pose proof (handle_completed_task_settled self1 (PStr tid) (PDict record) now) as H.
      now rewrite Hrun in H.
    - pose proof (handle_failed_task_settled self1 (PStr tid) (PDict record) now) as H.
      now rewrite Hrun in H. }
  destruct Hsettled as (Hq & _ & _). unfold task_settled. rewrite Hq, update_task_dyn_get.
  simpl. rewrite String.eqb_refl. unfold PyDict.contains in Hin. subst self1. simpl.
  destruct (PyDict.get tid (TaskQueue.tasks (TaskOrchestrator.task_queue self))) as [t|];
    [|discriminate].
  eexists. split; [reflexivity|]. destruct (fold_settle_attrs t st (PDict record)) as (? & ? & _).
  now split.
Qed.

(** A settled task stays settled through an iteration, as long as world
    state holds the same record for it. *)
Lemma monitor_one_keeps_settled (now : string) (a : Agent.t) (self : TaskOrchestrator.t)
    (tid : string) (record : dict) (st : string) :
  record_in_world (TaskOrchestrator.memory_client self) tid record st ->
  task_settled (TaskOrchestrator.task_queue self) tid st record ->
  task_settled (TaskOrchestrator.task_queue (snd (TaskOrchestrator.monitor_one now a self)))
               tid st record.
Proof.
  intros (Hrec & Hst & Hterm) (t & Hget & Hstatus & Hresult).
  destruct (monitor_one_effect now a self) as (_ & _ & [-> | Hsettle]).
  - now exists t.
  - destruct Hsettle as (task & idv & record' & st' & _ & _ & _ & Hlook & Heq & _ & ->).
    unfold task_settled. rewrite update_task_dyn_get, Hget.
    destruct (py_eq_str idv tid) eqn:Hidv; [|now exists t].
    apply py_eq_str_true in Hidv. subst idv. simpl in Hlook.
    unfold MemoryClient.lookup_or_none in Hlook. unfold progress_key in Hrec.
    rewrite Hrec in Hlook. simpl in Hlook. injection Hlook as <-.
    unfold PyDict.get_default in Heq. rewrite Hst in Heq.
    apply py_eq_str_true in Heq. injection Heq as <-.
    simpl. eexists. split; [reflexivity|].
    destruct (fold_settle_attrs t st (PDict record)) as (? & ? & _). now split.
Qed.

Lemma monitor_one_keeps_key (now : string) (a : Agent.t) (self : TaskOrchestrator.t)
    (tid : string) :
  PyDict.contains tid (TaskQueue.tasks (TaskOrchestrator.task_queue self)) = true ->
  PyDict.contains tid
    (TaskQueue.tasks (TaskOrchestrator.task_queue (snd (TaskOrchestrator.monitor_one now a self))))
  = true.
Proof.
  destruct (monitor_one_effect now a self) as (_ & _ & [-> | Hsettle]); [tauto|].
  destruct Hsettle as (_ & idv & record & st & _ & _ & _ & _ & _ & _ & ->).
  unfold PyDict.contains. rewrite update_task_dyn_get.
  destruct (PyDict.get tid (TaskQueue.tasks (TaskOrchestrator.task_queue self)));
    [|discriminate].
  now destruct (py_eq_str idv tid).
Qed.

Lemma record_in_world_same (m m' : MemoryClient.t) (tid : string) (record : dict)
    (st : string) :
  MemoryClient.world_state m' = MemoryClient.world_state m ->
  record_in_world m tid record st -> record_in_world m' tid record st.
Proof. unfold record_in_world. now intros ->. Qed.

Lemma monitor_loop_effect (clock : string -> string) (entries : list (string * Agent.t))
    (self : TaskOrchestrator.t) :
  let self' := snd (TaskOrchestrator.monitor_loop clock entries self) in
  TaskOrchestrator.agents self' = TaskOrchestrator.agents self
  /\ MemoryClient.world_state (TaskOrchestrator.memory_client self')
     = MemoryClient.world_state (TaskOrchestrator.memory_client self).
Proof.
  revert self. induction entries as [|[k a] rest IH]; intros self; simpl; [auto|].
  destruct (monitor_one_effect (clock k) a self) as (Ha & Hm & _).
  destruct (TaskOrchestrator.monitor_one (clock k) a self) as [[u|e] self1]; simpl in *;
    [|auto].
  destruct (IH self1) as [Ha' Hm']. split; congruence.
Qed.

Lemma monitor_loop_keeps_settled (clock : string -> string)
    (entries : list (string * Agent.t)) (self : TaskOrchestrator.t)
    (tid : string) (record : dict) (st : string) :
  record_in_world (TaskOrchestrator.memory_client self) tid record st ->
  task_settled (TaskOrchestrator.task_queue self) tid st record ->
  task_settled (TaskOrchestrator.task_queue
                  (snd (TaskOrchestrator.monitor_loop clock entries self))) tid st record.
Proof.
  revert self. induction entries as [|[k a] rest IH]; intros self Hrec Hset; simpl;
    [assumption|].
  pose proof (monitor_one_keeps_settled (clock k) a self tid record st Hrec Hset) as H1.
  destruct (monitor_one_effect (clock k) a self) as (_ & Hm & _).
  destruct (TaskOrchestrator.monitor_one (clock k) a self) as [[u|e] self1]; simpl in *;
    [|assumption].
  apply IH; [|assumption]. eapply record_in_world_same; eassumption.
Qed.

Lemma monitor_loop_settles (clock : string -> string) (entries : list (string * Agent.t))
    (self self' : TaskOrchestrator.t) (k : string) (a : Agent.t)
    (tid : string) (record : dict) (st : string) :
  In (k, a) entries ->
  Agent.status a = "working" ->
  (exists task, Agent.current_task a = Some task /\ PyDict.get "id" task = Some (PStr tid)) ->
  record_in_world (TaskOrchestrator.memory_client self) tid record st ->
  PyDict.contains tid (TaskQueue.tasks (TaskOrchestrator.task_queue self)) = true ->
  TaskOrchestrator.monitor_loop clock entries self = (Returns tt, self') ->
  task_settled (TaskOrchestrator.task_queue self') tid st record.
Proof.
  revert self. induction entries as [|[k0 a0] rest IH];
    intros self Hin Hw Htask Hrec Hkey Hrun; [destruct Hin|].
  simpl in Hrun.
  pose proof (monitor_one_keeps_key (clock k0) a0 self tid Hkey) as Hkey1.
  destruct (monitor_one_effect (clock k0) a0 self) as (_ & Hm & _).
  destruct (TaskOrchestrator.monitor_one (clock k0) a0 self) as [[[]|e] self1] eqn:Hone;
    simpl in *; [|discriminate].
  assert (Hrec1 : record_in_world (TaskOrchestrator.memory_client self1) tid record st)
    by (eapply record_in_world_same; eassumption).
  destruct Hin as [[= -> ->]|Hin].
  - pose proof (monitor_one_settles _ _ _ _ _ _ _ Hw Htask Hrec Hkey Hone) as Hset.
    pose proof (monitor_loop_keeps_settled clock rest self1 tid record st Hrec1 Hset) as H.
    now rewrite Hrun in H.
  - eapply IH; eassumption.
Qed.

(** C3, the claim as worded fails: the monitor step settles the task but
    leaves the agent working on it. *)
Lemma monitor_progress_leaves_agent_working :
  reported_done run_reported "coder_1a2b3c4d" coder_working "task-early"
                record_done "completed"
  /\ PyDict.contains "task-early"
       (TaskQueue.tasks (TaskOrchestrator.task_queue run_reported)) = true
  /\ ~ monitor_settles_and_frees run_reported at_noon
  /\ fst (TaskOrchestrator.monitor_progress run_reported at_noon) = Returns tt
  /\ (exists t', PyDict.get "task-early"
                   (TaskQueue.tasks (TaskOrchestrator.task_queue run_monitored)) = Some t'
                 /\ Task.status t' = "completed")
  /\ PyDict.get "coder_1a2b3c4d" (TaskOrchestrator.agents run_monitored)
     = Some coder_working
  /\ Agent.status coder_working = "working"
  /\ Agent.current_task coder_working = Some (Task.to_dict task_parser).
Proof.
  assert (Hdone : reported_done run_reported "coder_1a2b3c4d" coder_working "task-early"
                                record_done "completed").
  { unfold reported_done. split; [vm_compute; auto|]. split; [reflexivity|].
    split; [exists (Task.to_dict task_parser); split; reflexivity|].
    split; [vm_compute; reflexivity|]. split; [reflexivity|]. now left. }
  split; [exact Hdone|]. split; [reflexivity|]. split.
  - intros H. destruct (H _ _ _ _ _ Hdone eq_refl) as (_ & a' & Hget & Hidle & _).
    vm_compute in Hget. injection Hget as <-. discriminate Hidle.
  - split; [vm_compute; reflexivity|]. split.
    + eexists. split; vm_compute; reflexivity.
    + split; [vm_compute; reflexivity|]. split; reflexivity.
Qed.

(** C3, amended. For every working agent whose current task, identified
    by a key of the queue, has in shared state a progress record with
    terminal status, a monitor step that runs to its end gives that task
    the reported status, completed or failed, with the record as its
    result. The step frees no agent: the agents, their statuses and
    their current tasks are as before it (an agent is freed by its own
    [report_progress]). *)
Theorem monitor_progress_settles_task (self self' : TaskOrchestrator.t)
    (clock : string -> string) (k : string) (a : Agent.t)
    (tid : string) (record : dict) (st : string) :
  reported_done self k a tid record st ->
  PyDict.contains tid (TaskQueue.tasks (TaskOrchestrator.task_queue self)) = true ->
  TaskOrchestrator.monitor_progress self clock = (Returns tt, self') ->
  (exists t', PyDict.get tid (TaskQueue.tasks (TaskOrchestrator.task_queue self')) = Some t'
              /\ Task.status t' = st
              /\ Task.result t' = PDict record)
  /\ TaskOrchestrator.agents self' = TaskOrchestrator.agents self.
Proof.
  intros (Hin & Hw & Htask & Hrec & Hst & Hterm) Hkey Hrun.
  unfold TaskOrchestrator.monitor_progress in Hrun. split.
  - eapply monitor_loop_settles; try eassumption. now split.
  - pose proof (monitor_loop_effect clock (TaskOrchestrator.agents self) self) as [Ha _].
    now rewrite Hrun in Ha.
Qed.

Lemma monitor_progress_settles_task_witness :
  (exists t', PyDict.get "task-early"
                (TaskQueue.tasks (TaskOrchestrator.task_queue run_monitored)) = Some t'
              /\ Task.status t' = "completed"
              /\ Task.result t' = PDict record_done)
  /\ TaskOrchestrator.agents run_monitored = TaskOrchestrator.agents run_reported.
Proof.
  apply (monitor_progress_settles_task run_reported run_monitored at_noon
           "coder_1a2b3c4d" coder_working "task-early" record_done "completed").
  - unfold reported_done. split; [vm_compute; auto|]. split; [reflexivity|].
    split; [exists (Task.to_dict task_parser); split; reflexivity|].
    split; [vm_compute; reflexivity|]. split; [reflexivity|]. now left.
  - reflexivity.
  - vm_compute. reflexivity.
Defined.

(** *** Terminal tasks under the orchestrator's operations *)

Lemma terminal_stays_terminal_refl (q : TaskQueue.t) : terminal_stays_terminal q q.
Proof.
  intros Hwk. split; [assumption|]. intros tid t Hget Hterm. now exists t.
Qed.

Lemma terminal_stays_terminal_trans (q1 q2 q3 : TaskQueue.t) :
  terminal_stays_terminal q1 q2 -> terminal_stays_terminal q2 q3 ->
  terminal_stays_terminal q1 q3.
Proof.
  intros H12 H23 Hwk. destruct (H12 Hwk) as [Hwk2 H2]. destruct (H23 Hwk2) as [Hwk3 H3].
  split; [assumption|]. intros tid t Hget Hterm.
  destruct (H2 tid t Hget Hterm) as (t2 & Hget2 & Hterm2). eauto.
Qed.

Lemma terminal_untouched_stays (q q' : TaskQueue.t) :
  terminal_untouched q q' -> terminal_stays_terminal q q'.
Proof.
  intros H Hwk. destruct (H Hwk) as [Hwk' Hsame]. split; [assumption|].
  intros tid t Hget Hterm. exists t. auto.
Qed.

Lemma terminal_untouched_refl (q : TaskQueue.t) : terminal_untouched q q.
Proof. intros Hwk. split; auto. Qed.

Lemma terminal_untouched_trans (q1 q2 q3 : TaskQueue.t) :
  terminal_untouched q1 q2 -> terminal_untouched q2 q3 -> terminal_untouched q1 q3.
Proof.
  intros H12 H23 Hwk. destruct (H12 Hwk) as [Hwk2 H2]. destruct (H23 Hwk2) as [Hwk3 H3].
  split; auto.
Qed.

Lemma keyed_entry (q : TaskQueue.t) (k : string) (t : Task.t) :
  TaskQueue.keyed_by_id q -> In (k, t) (TaskQueue.tasks q) -> k = Task.id t.
Proof.
  unfold TaskQueue.keyed_by_id. rewrite List.Forall_forall. intros H Hin. exact (H _ Hin).
Qed.

(** An update that keeps identifiers keeps the queue well keyed. *)
Lemma well_keyed_update_task (q : TaskQueue.t) (s : string) (updates : list Task.attr) :
  (forall t, Task.id (fold_left Task.setattr updates t) = Task.id t) ->
  well_keyed q -> well_keyed (snd (TaskQueue.update_task q s updates)).
Proof.
  intros Hid [Hwf Hkeyed]. split.
  - unfold PyDict.wf. rewrite update_task_keys. exact Hwf.
  - unfold TaskQueue.update_task.
    destruct (PyDict.get s (TaskQueue.tasks q)) as [t|] eqn:Hget; simpl; [|assumption].
    unfold TaskQueue.keyed_by_id. simpl. apply List.Forall_forall. intros [k' t'] Hin.
    apply In_set in Hin. destruct Hin as [Hin|[-> ->]]; simpl.
    + eapply keyed_entry; eassumption.
    + rewrite Hid. eapply keyed_entry; [eassumption|]. now apply get_In.
Qed.

Lemma well_keyed_alter (q : TaskQueue.t) (key : string) (updates : list Task.attr) :
  (forall t, Task.id (fold_left Task.setattr updates t) = Task.id t) ->
  well_keyed q ->
  well_keyed (TaskQueue.mk (PyDict.alter (fun t => fold_left Task.setattr updates t) key
                                         (TaskQueue.tasks q))).
Proof.
  intros Hid [Hwf Hkeyed]. split.
  - unfold PyDict.wf. simpl. rewrite keys_alter. exact Hwf.
  - unfold TaskQueue.keyed_by_id. simpl. apply List.Forall_forall. intros [k' t'] Hin.
    apply In_alter in Hin. destruct Hin as (t & Hin & [-> | [-> ->]]); simpl.
    + eapply keyed_entry; eassumption.
    + rewrite Hid. eapply keyed_entry; eassumption.
Qed.

(** Settling a task, whichever it is, keeps terminal tasks terminal. *)
Lemma settling_keeps_terminal (q : TaskQueue.t) (idv : pyval) (st : string)
    (result : pyval) :
  terminal st ->
  terminal_stays_terminal q
    (snd (TaskOrchestrator.update_task_dyn q idv
            [Task.Attr_status st; Task.Attr_result result])).
Proof.
  intros Hst Hwk. split.
  - destruct idv; simpl; try assumption.
    pose proof (well_keyed_update_task q s [Task.Attr_status st; Task.Attr_result result]) as H.
    destruct (TaskQueue.update_task q s _) as [found q']. apply H; [|assumption].
    intros t0. apply fold_settle_attrs.
  - intros tid t Hget Hterm. rewrite update_task_dyn_get, Hget.
    destruct (py_eq_str idv tid); [|now exists t].
    simpl. eexists. split; [reflexivity|].
    destruct (fold_settle_attrs t st result) as (Hs & _). simpl in Hs. now rewrite Hs.
Qed.

Lemma settled_keeps_terminal (self self' : TaskOrchestrator.t) (idv : pyval) (st : string)
    (result : pyval) :
  terminal st -> settled self self' idv st result ->
  terminal_stays_terminal (TaskOrchestrator.task_queue self)
                          (TaskOrchestrator.task_queue self').
Proof. intros Hst (-> & _). now apply settling_keeps_terminal. Qed.

Lemma monitor_one_keeps_terminal (now : string) (a : Agent.t) (self : TaskOrchestrator.t) :
  terminal_stays_terminal
    (TaskOrchestrator.task_queue self)
    (TaskOrchestrator.task_queue (snd (TaskOrchestrator.monitor_one now a self))).
Proof.
  destruct (monitor_one_effect now a self) as (_ & _ & [-> | Hsettle]).
  - apply terminal_stays_terminal_refl.
  - destruct Hsettle as (_ & idv & record & st & _ & _ & _ & _ & _ & Hterm & ->).
    now apply settling_keeps_terminal.
Qed.

Lemma monitor_loop_keeps_terminal (clock : string -> string)
    (entries : list (string * Agent.t)) (self : TaskOrchestrator.t) :
  terminal_stays_terminal
    (TaskOrchestrator.task_queue self)
    (TaskOrchestrator.task_queue (snd (TaskOrchestrator.monitor_loop clock entries self))).
Proof.
  revert self. induction entries as [|[k a] rest IH]; intros self; simpl.
  - apply terminal_stays_terminal_refl.
  - pose proof (monitor_one_keeps_terminal (clock k) a self) as H1.
    destruct (TaskOrchestrator.monitor_one (clock k) a self) as [[u|e] self1]; simpl in *;
      [|assumption].
    eapply terminal_stays_terminal_trans; [exact H1 | apply IH].
Qed.

Lemma assignment_keeps_id (a : Agent.t) (t : Task.t) :
  Task.id (fold_left Task.setattr (TaskOrchestrator.assignment a) t) = Task.id t.
Proof. destruct t. reflexivity. Qed.

Lemma terminal_not_pending (st : string) : terminal st -> st <> "pending".
Proof. intros [-> | ->]; discriminate. Qed.

(** One iteration of the assignment loop touches no terminal task: the
    only task it writes to is the pending one it selected. *)
Lemma assign_one_untouched (now : string) (a : Agent.t) (q : TaskQueue.t)
    (m : MemoryClient.t) :
  terminal_untouched q (snd (fst (TaskOrchestrator.assign_one now a q m))).
Proof.
  unfold TaskOrchestrator.assign_one.
  destruct (negb (String.eqb (Agent.status a) "idle")); [apply terminal_untouched_refl|].
  destruct (TaskQueue.next_entry q (Agent.capabilities a)) as [[key task]|] eqn:Hnext;
    [|apply terminal_untouched_refl].
  destruct (Agent.assign_task a (Task.to_dict task) now m) as [[[[|]|e] a'] m'];
    simpl; try apply terminal_untouched_refl.
  intros Hwk. destruct (next_entry_candidate _ _ _ _ Hnext) as [Hin [Hpending _]].
  pose proof (keyed_entry _ _ _ (proj2 Hwk) Hin) as Hkey.
  pose proof (well_keyed_alter q key (TaskOrchestrator.assignment a')
                (assignment_keeps_id a') Hwk) as Hwk1.
  set (q1 := TaskQueue.mk (PyDict.alter _ key (TaskQueue.tasks q))) in *.
  split.
  - apply well_keyed_update_task; [apply assignment_keeps_id | exact Hwk1].
  - intros tid t Hget Hterm. rewrite update_task_get.
    assert (Hne : key <> tid).
    { intros ->. rewrite (In_wf_get _ _ _ (proj1 Hwk) Hin) in Hget. injection Hget as <-.
      now apply terminal_not_pending in Hterm. }
    rewrite <- Hkey. destruct (String.eqb_spec key tid) as [Heq|_]; [contradiction|].
    subst q1. simpl. rewrite get_alter.
    destruct (String.eqb_spec key tid) as [Heq|_]; [contradiction | exact Hget].
Qed.

Lemma assign_loop_untouched (clock : string -> string) (entries : list (string * Agent.t))
    (q : TaskQueue.t) (m : MemoryClient.t) (assigned_count : Z) :
  terminal_untouched q
    (snd (fst (TaskOrchestrator.assign_loop clock entries q m assigned_count))).
Proof.
  revert q m assigned_count.
  induction entries as [|[k a] rest IH]; intros q m assigned_count; simpl.
  - apply terminal_untouched_refl.
  - pose proof (assign_one_untouched (clock k) a q m) as H1.
    destruct (TaskOrchestrator.assign_one (clock k) a q m) as [[[[n|e] a'] q'] m'];
      simpl in *; [|assumption].
    specialize (IH q' m' (assigned_count + n)).
    destruct (TaskOrchestrator.assign_loop clock rest q' m' (assigned_count + n))
      as [[[r rest'] q''] m'']; simpl in *.
    eapply terminal_untouched_trans; eassumption.
Qed.

Lemma assign_tasks_untouched (self : TaskOrchestrator.t) (clock : string -> string) :
  terminal_untouched
    (TaskOrchestrator.task_queue self)
    (TaskOrchestrator.task_queue (snd (TaskOrchestrator.assign_tasks self clock))).
Proof.
  unfold TaskOrchestrator.assign_tasks.
  pose proof (assign_loop_untouched clock (TaskOrchestrator.agents self)
                (TaskOrchestrator.task_queue self) (TaskOrchestrator.memory_client self) 0)
    as H.
  destruct (TaskOrchestrator.assign_loop clock _ _ _ 0) as [[[r agents'] q] m]. exact H.
Qed.

Lemma cycle_keeps_terminal (self : TaskOrchestrator.t)
    (assign_clock monitor_clock : string -> string) (now : string) :
  terminal_stays_terminal
    (TaskOrchestrator.task_queue self)
    (TaskOrchestrator.task_queue
       (TaskOrchestrator.cycle self assign_clock monitor_clock now)).
Proof.
  unfold TaskOrchestrator.cycle.
  pose proof (terminal_untouched_stays _ _ (assign_tasks_untouched self assign_clock)) as H1.
  destruct (TaskOrchestrator.assign_tasks self assign_clock) as [[assigned|e] self1];
    simpl in H1; [|exact H1].
  set (self2 := if 0 <? assigned then _ else self1).
  assert (H2 : TaskOrchestrator.task_queue self2 = TaskOrchestrator.task_queue self1)
    by (subst self2; now destruct (0 <? assigned)).
  pose proof (monitor_loop_keeps_terminal monitor_clock (TaskOrchestrator.agents self2) self2)
    as H3.
  fold (TaskOrchestrator.monitor_progress self2 monitor_clock) in H3. rewrite H2 in H3.
  destruct (TaskOrchestrator.monitor_progress self2 monitor_clock) as [[u|e] self3];
    simpl in H3; [|eapply terminal_stays_terminal_trans; eassumption].
  unfold TaskOrchestrator.update_system_state.
  destruct (MemoryClient.update_world_state _ _ (TaskOrchestrator.memory_client self3))
    as [[u'|e] m]; simpl; eapply terminal_stays_terminal_trans; eassumption.
Qed.

Lemma step_keeps_terminal (self : TaskOrchestrator.t) (o : TaskOrchestrator.op) :
  terminal_stays_terminal (TaskOrchestrator.task_queue self)
                          (TaskOrchestrator.task_queue (TaskOrchestrator.step self o)).
Proof.
  destruct o as [clock|clock|idv result now|idv error_data now|c1 c2 now]; simpl.
  - apply terminal_untouched_stays, assign_tasks_untouched.
  - apply monitor_loop_keeps_terminal.
  - eapply settled_keeps_terminal; [|apply handle_completed_task_settled]. now left.
  - eapply settled_keeps_terminal; [|apply handle_failed_task_settled]. now right.
  - apply cycle_keeps_terminal.
Qed.

Lemma run_ops_keeps_terminal (ops : list TaskOrchestrator.op) (self : TaskOrchestrator.t) :
  terminal_stays_terminal (TaskOrchestrator.task_queue self)
                          (TaskOrchestrator.task_queue (TaskOrchestrator.run_ops self ops)).
Proof.
  revert self. induction ops as [|o ops IH]; intros self; simpl.
  - apply terminal_stays_terminal_refl.
  - eapply terminal_stays_terminal_trans; [apply step_keeps_terminal | apply IH].
Qed.

(** Queues built by [add_task] from the empty queue are well keyed. *)
Lemma well_keyed_init : well_keyed TaskQueue.init.
Proof. split; constructor. Qed.

Lemma well_keyed_add_task (q : TaskQueue.t) (task : Task.t) :
  well_keyed q -> well_keyed (snd (TaskQueue.add_task q task)).
Proof.
  intros [Hwf Hkeyed]. split; simpl.
  - now apply wf_set.
  - unfold TaskQueue.keyed_by_id. simpl. apply List.Forall_forall. intros [k t] Hin.
    apply In_set in Hin. destruct Hin as [Hin|[-> ->]]; simpl; [|reflexivity].
    eapply keyed_entry; eassumption.
Qed.

(** C6, the claim as worded fails: a task that the monitor step has set
    to completed is set to failed by the next monitor step when the
    progress record in world state has changed meanwhile, its agent
    still being registered as working on it; called directly,
    [handle_failed_task] does the same to any completed task. *)
Lemma completed_task_becomes_failed :
  (exists t, PyDict.get "task-early"
               (TaskQueue.tasks (TaskOrchestrator.task_queue run_reported_again)) = Some t
             /\ Task.status t = "completed")
  /\ ~ keeps_terminal_status run_reported_again (TaskOrchestrator.Monitor_progress at_one)
  /\ ~ keeps_terminal_status run_monitored
         (TaskOrchestrator.Handle_failed_task (PStr "task-early") (PDict record_failed)
                                              "2024-05-01T13:00:00")
  /\ (exists t', PyDict.get "task-early"
                   (TaskQueue.tasks
                      (TaskOrchestrator.task_queue
                         (TaskOrchestrator.step run_reported_again
                            (TaskOrchestrator.Monitor_progress at_one)))) = Some t'
                 /\ Task.status t' = "failed").
Proof.
  split; [eexists; split; vm_compute; reflexivity|]. split; [|split].
  - intros H.
    destruct (PyDict.get "task-early"
                (TaskQueue.tasks (TaskOrchestrator.task_queue run_reported_again)))
      as [t|] eqn:Hget; [|vm_compute in Hget; discriminate].
    destruct (H "task-early" t Hget) as (t' & Hget' & Hsame).
    + vm_compute in Hget. injection Hget as <-. now left.
    + vm_compute in Hget. injection Hget as <-.
      vm_compute in Hget'. injection Hget' as <-. discriminate Hsame.
  - intros H.
    destruct (PyDict.get "task-early"
                (TaskQueue.tasks (TaskOrchestrator.task_queue run_monitored)))
      as [t|] eqn:Hget; [|vm_compute in Hget; discriminate].
    destruct (H "task-early" t Hget) as (t' & Hget' & Hsame).
    + vm_compute in Hget. injection Hget as <-. now left.
    + vm_compute in Hget. injection Hget as <-.
      vm_compute in Hget'. injection Hget' as <-. discriminate Hsame.
  - eexists. split; vm_compute; reflexivity.
Qed.

(** C6, amended. In a queue whose keys are the identifiers of its tasks,
    a task that has reached status completed or failed is still in the
    queue, with status completed or failed, after any sequence of
    [assign_tasks], [monitor_progress], [handle_completed_task],
    [handle_failed_task] and whole cycles, whether they return or raise:
    a task never leaves the terminal statuses. [assign_tasks] leaves
    such a task exactly as it is; the two handlers, called directly or
    by the monitor step, overwrite status and result without looking at
    the current status, so that the task may pass from one terminal
    status to the other. *)
Theorem terminal_tasks_stay_terminal (self : TaskOrchestrator.t)
    (ops : list TaskOrchestrator.op) (tid : string) (t : Task.t) :
  well_keyed (TaskOrchestrator.task_queue self) ->
  PyDict.get tid (TaskQueue.tasks (TaskOrchestrator.task_queue self)) = Some t ->
  terminal (Task.status t) ->
  (exists t', PyDict.get tid
                (TaskQueue.tasks (TaskOrchestrator.task_queue
                                    (TaskOrchestrator.run_ops self ops))) = Some t'
              /\ terminal (Task.status t'))
  /\ (forall clock,
        PyDict.get tid
          (TaskQueue.tasks (TaskOrchestrator.task_queue
                              (TaskOrchestrator.step self (TaskOrchestrator.Assign_tasks clock))))
        = Some t).
Proof.
  intros Hwk Hget Hterm. split.
  - destruct (run_ops_keeps_terminal ops self Hwk) as [_ H]. eauto.
  - intros clock. destruct (assign_tasks_untouched self clock Hwk) as [_ H]. simpl. eauto.
Qed.

Lemma well_keyed_run_monitored : well_keyed (TaskOrchestrator.task_queue run_monitored).
Proof.
  split.
  - unfold PyDict.wf. vm_compute. apply NoDup_singleton.
  - unfold TaskQueue.keyed_by_id. vm_compute. repeat constructor.
Defined.

Lemma terminal_tasks_stay_terminal_witness :
  (exists t', PyDict.get "task-early"
                (TaskQueue.tasks
                   (TaskOrchestrator.task_queue
                      (TaskOrchestrator.run_ops run_monitored
                         [TaskOrchestrator.Cycle at_one at_one "2024-05-01T13:00:00";
                          TaskOrchestrator.Handle_failed_task
                            (PStr "task-early") (PDict record_failed)
                            "2024-05-01T14:00:00"]))) = Some t'
              /\ terminal (Task.status t'))
  /\ (forall clock,
        PyDict.get "task-early"
          (TaskQueue.tasks (TaskOrchestrator.task_queue
                              (TaskOrchestrator.step run_monitored
                                 (TaskOrchestrator.Assign_tasks clock))))
        = Some (fold_left Task.setattr
                  [Task.Attr_status "completed"; Task.Attr_result (PDict record_done)]
                  (fold_left Task.setattr (TaskOrchestrator.assignment agent_idle)
                             task_parser))).
Proof.
  apply (terminal_tasks_stay_terminal run_monitored).
  - exact well_keyed_run_monitored.
  - vm_compute. reflexivity.
  - left. reflexivity.
Defined.

(** * Further properties: proofs *)

(** ** Loading a task *)

Lemma item_found (k : string) (data : dict) :
  PyDict.contains k data = true -> exists v, Task.item k data = Task.Loaded v.
Proof.
  unfold PyDict.contains, Task.item. destruct (PyDict.get k data) as [v|]; [|discriminate].
  intros _. now exists v.
Qed.

Lemma item_missing (k : string) (data : dict) :
  PyDict.contains k data = false -> Task.item k data = Task.LoadRaises (KeyError k).
Proof.
  unfold PyDict.contains, Task.item. now destruct (PyDict.get k data).
Qed.

Lemma typed_never_raises {A} (k : string) (x : option A) (e : exn) :
  Task.typed k x <> Task.LoadRaises e.
Proof. destruct x; discriminate. Qed.

(** X1. [from_dict] raises exactly when the dictionary lacks one of the
    keys description, requirements, id, status, created_at, and the
    exception is the [KeyError] of the first missing one in that order;
    values of unexpected types and missing optional keys raise nothing. *)
Theorem from_dict_raises_first_missing (uuid4 now : string) (data : dict) :
  match first_missing data with
  | Some k => Task.from_dict uuid4 now data = Task.LoadRaises (KeyError k)
  | None => forall e, Task.from_dict uuid4 now data <> Task.LoadRaises e
  end.
Proof.
  unfold first_missing, required_keys, Task.from_dict. simpl List.find.
  destruct (PyDict.contains "description" data) eqn:H1; simpl negb; cbv iota;
    [|now rewrite (item_missing _ _ H1)].
  destruct (item_found _ _ H1) as (v1 & ->).
  destruct (PyDict.contains "requirements" data) eqn:H2; simpl negb; cbv iota;
    [|cbn [mbind Task.loaded_bind]; now rewrite (item_missing _ _ H2)].
  destruct (item_found _ _ H2) as (v2 & ->).
  destruct (PyDict.contains "id" data) eqn:H3; simpl negb; cbv iota;
    [|cbn [mbind Task.loaded_bind]; now rewrite (item_missing _ _ H3)].
  destruct (item_found _ _ H3) as (v3 & ->).
  destruct (PyDict.contains "status" data) eqn:H4; simpl negb; cbv iota;
    [|cbn [mbind Task.loaded_bind]; now rewrite (item_missing _ _ H4)].
  destruct (item_found _ _ H4) as (v4 & ->).
  destruct (PyDict.contains "created_at" data) eqn:H5; simpl negb; cbv iota;
    [|cbn [mbind Task.loaded_bind]; now rewrite (item_missing _ _ H5)].
  destruct (item_found _ _ H5) as (v5 & ->).
  intros e. cbn [mbind Task.loaded_bind].
  repeat match goal with
         | |- context [Task.typed ?k ?x] =>
             let E := fresh "E" in
             destruct (Task.typed k x) eqn:E;
             [ | exfalso; eapply typed_never_raises; exact E | discriminate ]
         end.
  discriminate.
Qed.

(** X2. A dictionary that holds the five required keys with values of
    their types and none of the optional keys loads to a task with those
    values and the defaults of the constructor: no required
    capabilities, priority 1, no dependencies, an empty context, no
    assignee and no result. *)
Theorem from_dict_defaults (uuid4 now : string) (data : dict)
    (i d s ca : string) (r : list string) :
  PyDict.get "id" data = Some (PStr i) ->
  PyDict.get "description" data = Some (PStr d) ->
  PyDict.get "requirements" data = Some (Task.strs r) ->
  PyDict.get "status" data = Some (PStr s) ->
  PyDict.get "created_at" data = Some (PStr ca) ->
  (forall k, In k ["required_capabilities"; "priority"; "dependencies"; "context";
                   "assigned_to"; "result"] -> PyDict.get k data = None) ->
  Task.from_dict uuid4 now data
  = Task.Loaded {| Task.id := i; Task.description := d; Task.requirements := r;
                   Task.required_capabilities := []; Task.priority := 1;
                   Task.dependencies := []; Task.context := []; Task.status := s;
                   Task.created_at := ca; Task.assigned_to := None;
                   Task.result := PNone |}.
Proof.
  intros Hi Hd Hr Hs Hca Hopt.
  unfold Task.from_dict, Task.item, PyDict.get_default.
  rewrite Hi, Hd, Hr, Hs, Hca.
  rewrite !Hopt by (simpl; tauto).
  cbn [mbind Task.loaded_bind Task.typed Task.as_str Task.as_int Task.as_optional
       Task.as_opt_str truthy option_map].
  rewrite as_str_list_strs. reflexivity.
Qed.

Lemma from_dict_defaults_witness :
  Task.from_dict "scratch-id" "2024-05-03T09:00:00" data_minimal
  = Task.Loaded {| Task.id := "task-min"; Task.description := "tidy up";
                   Task.requirements := ["keep the tests green"];
                   Task.required_capabilities := []; Task.priority := 1;
                   Task.dependencies := []; Task.context := [];
                   Task.status := "pending";
                   Task.created_at := "2024-05-03T08:00:00";
                   Task.assigned_to := None; Task.result := PNone |}.
Proof.
  apply (from_dict_defaults "scratch-id" "2024-05-03T09:00:00" data_minimal
           "task-min" "tidy up" "pending" "2024-05-03T08:00:00" ["keep the tests green"]);
    try reflexivity.
  intros k Hk. simpl in Hk.
  repeat (destruct Hk as [<-|Hk]; [reflexivity|]). destruct Hk.
Defined.

(** ** The queue *)

(** X3. Adding a task whose identifier is not yet a key returns the
    identifier, puts the task last in the iteration order, makes it the
    value looked up under its identifier, leaves every other entry as
    it was, and keeps a well-keyed queue well keyed. *)
Theorem add_task_fresh_id (q : TaskQueue.t) (task : Task.t) :
  PyDict.contains (Task.id task) (TaskQueue.tasks q) = false ->
  exists q', TaskQueue.add_task q task = (Returns (Task.id task), q')
             /\ TaskQueue.tasks q' = TaskQueue.tasks q ++ [(Task.id task, task)]
             /\ PyDict.get (Task.id task) (TaskQueue.tasks q') = Some task
             /\ (forall k, k <> Task.id task ->
                   PyDict.get k (TaskQueue.tasks q') = PyDict.get k (TaskQueue.tasks q))
             /\ (well_keyed q -> well_keyed q').
Proof.
  intros Hfresh. eexists. split; [reflexivity|]. simpl. repeat split.
  - unfold PyDict.contains in Hfresh. induction (TaskQueue.tasks q) as [|[k v] d IH];
      simpl in *; [reflexivity|].
    destruct (String.eqb (Task.id task) k); [discriminate|]. now rewrite IH.
  - apply get_set_eq.
  - intros k Hk. apply get_set_ne. congruence.
  - apply wf_set. apply H.
  - pose proof (well_keyed_add_task q task H) as [_ Hk]. exact Hk.
Qed.

Lemma add_task_fresh_id_witness :
  exists q', TaskQueue.add_task queue_one task_urgent = (Returns (Task.id task_urgent), q')
             /\ TaskQueue.tasks q'
                = TaskQueue.tasks queue_one ++ [(Task.id task_urgent, task_urgent)]
             /\ PyDict.get (Task.id task_urgent) (TaskQueue.tasks q') = Some task_urgent
             /\ (forall k, k <> Task.id task_urgent ->
                   PyDict.get k (TaskQueue.tasks q')
                   = PyDict.get k (TaskQueue.tasks queue_one))
             /\ (well_keyed queue_one -> well_keyed q').
Proof. apply (add_task_fresh_id queue_one task_urgent). reflexivity. Defined.




(** ** The collaborator *)

Lemma calls_go_through_next (n : nat) (m : MemoryClient.t) :
  calls_go_through (S n) m ->
  next_fault m = None
  /\ forall m', MemoryClient.faults m' = tl (MemoryClient.faults m) -> calls_go_through n m'.
Proof.
  unfold calls_go_through, next_fault.
  destruct (MemoryClient.faults m) as [|f fs]; simpl.
  - intros _. split; [reflexivity|]. intros m' ->. destruct n; constructor.
  - intros H. inversion H; subst. split; [reflexivity|]. now intros m' ->.
Qed.

Lemma store_short_term_goes_through (key : string) (value : pyval) (m : MemoryClient.t) :
  next_fault m = None ->
  exists m', MemoryClient.store_short_term key value m = (Returns tt, m')
             /\ MemoryClient.short_term m' = <[key := value]> (MemoryClient.short_term m)
             /\ MemoryClient.long_term m' = MemoryClient.long_term m
             /\ MemoryClient.world_state m' = MemoryClient.world_state m
             /\ MemoryClient.faults m' = tl (MemoryClient.faults m).
Proof.
  intros Hok. unfold MemoryClient.store_short_term.
  destruct (call_goes_through m
              (fun m => (tt, {| MemoryClient.short_term :=
                                  <[key := value]> (MemoryClient.short_term m);
                                MemoryClient.long_term := MemoryClient.long_term m;
                                MemoryClient.world_state := MemoryClient.world_state m;
                                MemoryClient.faults := MemoryClient.faults m |})) Hok)
    as (m0 & -> & Hs & Hl & Hw & Hf).
  eexists. split; [reflexivity|]. simpl. now rewrite Hs, Hl, Hw, Hf.
Qed.

Lemma store_long_term_goes_through (key : string) (value : pyval) (m : MemoryClient.t) :
  next_fault m = None ->
  exists m', MemoryClient.store_long_term key value m = (Returns tt, m')
             /\ MemoryClient.long_term m' = <[key := value]> (MemoryClient.long_term m)
             /\ MemoryClient.short_term m' = MemoryClient.short_term m
             /\ MemoryClient.world_state m' = MemoryClient.world_state m
             /\ MemoryClient.faults m' = tl (MemoryClient.faults m).
Proof.
  intros Hok. unfold MemoryClient.store_long_term.
  destruct (call_goes_through m
              (fun m => (tt, {| MemoryClient.short_term := MemoryClient.short_term m;
                                MemoryClient.long_term :=
                                  <[key := value]> (MemoryClient.long_term m);
                                MemoryClient.world_state := MemoryClient.world_state m;
                                MemoryClient.faults := MemoryClient.faults m |})) Hok)
    as (m0 & -> & Hs & Hl & Hw & Hf).
  eexists. split; [reflexivity|]. simpl. now rewrite Hs, Hl, Hw, Hf.
Qed.

Lemma get_long_term_goes_through (key : string) (m : MemoryClient.t) :
  next_fault m = None ->
  exists m', MemoryClient.get_long_term key m
             = (Returns (MemoryClient.lookup_or_none key (MemoryClient.long_term m)), m')
             /\ MemoryClient.long_term m' = MemoryClient.long_term m
             /\ MemoryClient.short_term m' = MemoryClient.short_term m
             /\ MemoryClient.world_state m' = MemoryClient.world_state m
             /\ MemoryClient.faults m' = tl (MemoryClient.faults m).
Proof.
  intros Hok. unfold MemoryClient.get_long_term.
  destruct (call_goes_through m
              (fun m => (MemoryClient.lookup_or_none key (MemoryClient.long_term m), m)) Hok)
    as (m0 & -> & Hs & Hl & Hw & Hf).
  simpl. rewrite Hl. eexists. split; [reflexivity|]. auto.
Qed.

(** ** Agents *)

(** X5. An idle agent given a task that carries an identifier and whose
    required capabilities it has, with a collaborator whose next two
    calls go through, accepts: [assign_task] returns true, the agent is
    working on the task, the task is stored in short-term memory under
    [task:<id>] and an assignment record with the agent's identifier,
    the time and status assigned is published in world state under
    [task_assignment:<id>]; durable storage is not touched. *)
Theorem assign_task_accepts (a : Agent.t) (task : dict) (idv : pyval) (now : string)
    (m : MemoryClient.t) :
  Agent.status a = "idle" ->
  PyDict.get "id" task = Some idv ->
  Agent.lacks_capabilities a (PyDict.get_default "required_capabilities" (PList []) task)
  = Returns false ->
  calls_go_through 2 m ->
  exists a' m',
    Agent.assign_task a task now m = (Returns true, a', m')
    /\ Agent.status a' = "working"
    /\ Agent.current_task a' = Some task
    /\ MemoryClient.short_term m'
       = <["task:" +:+ py_str idv := PDict task]> (MemoryClient.short_term m)
    /\ MemoryClient.world_state m'
       = <["task_assignment:" +:+ py_str idv := assignment_record a now]>
           (MemoryClient.world_state m)
    /\ MemoryClient.long_term m' = MemoryClient.long_term m.
Proof.
  intros Hidle Hid Hcaps Hcalls.
  destruct (calls_go_through_next _ _ Hcalls) as [Hok1 Hrest].
  destruct (store_short_term_goes_through ("task:" +:+ py_str idv) (PDict task) m Hok1)
    as (m1 & Hrun1 & Hs1 & Hl1 & Hw1 & Hf1).
  destruct (calls_go_through_next _ _ (Hrest m1 Hf1)) as [Hok2 _].
  destruct (update_world_state_goes_through ("task_assignment:" +:+ py_str idv)
              (assignment_record a now) m1 Hok2) as (m2 & Hrun2 & Hw2 & Hs2 & Hl2 & _).
  unfold Agent.assign_task.
  rewrite Hidle, Hcaps, (fmt_item_present _ _ _ Hid). simpl negb. cbv iota.
  rewrite Hrun1. unfold assignment_record in Hrun2. simpl Agent.id. rewrite Hrun2.
  do 2 eexists. split; [reflexivity|]. simpl. repeat split; congruence.
Qed.

Lemma assign_task_accepts_witness :
  exists a' m',
    Agent.assign_task agent_idle (Task.to_dict task_parser) "2024-05-01T10:30:00" memory_up
    = (Returns true, a', m')
    /\ Agent.status a' = "working"
    /\ Agent.current_task a' = Some (Task.to_dict task_parser)
    /\ MemoryClient.short_term m'
       = <["task:" +:+ py_str (PStr "task-early") := PDict (Task.to_dict task_parser)]>
           (MemoryClient.short_term memory_up)
    /\ MemoryClient.world_state m'
       = <["task_assignment:" +:+ py_str (PStr "task-early") :=
             assignment_record agent_idle "2024-05-01T10:30:00"]>
           (MemoryClient.world_state memory_up)
    /\ MemoryClient.long_term m' = MemoryClient.long_term memory_up.
Proof.
  apply (assign_task_accepts agent_idle (Task.to_dict task_parser) (PStr "task-early"));
    try reflexivity.
  constructor.
Defined.

(** X6. [assign_task] refuses a task that carries an identifier when
    the agent is not idle or lacks a required capability: it returns
    false, makes no call to the collaborator and changes nothing in the
    agent but its log, which receives one warning. *)
Theorem assign_task_refuses (a : Agent.t) (task : dict) (idv : pyval) (now : string)
    (m : MemoryClient.t) :
  Agent.status a <> "idle"
  \/ Agent.lacks_capabilities a (PyDict.get_default "required_capabilities" (PList []) task)
     = Returns true ->
  PyDict.get "id" task = Some idv ->
  exists msg, Agent.assign_task a task now m = (Returns false, Agent.log WARNING msg a, m).
Proof.
  intros Hrefuse Hid. unfold Agent.assign_task, Agent.refuse.
  rewrite (fmt_item_present _ _ _ Hid).
  destruct (String.eqb_spec (Agent.status a) "idle") as [Hidle|Hbusy]; simpl negb; cbv iota.
  - destruct Hrefuse as [Hbusy | ->]; [contradiction|]. eexists. reflexivity.
  - eexists. reflexivity.
Qed.

Lemma assign_task_refuses_witness :
  exists msg, Agent.assign_task agent_busy (Task.to_dict task_late) "2024-05-01T12:00:00"
                                memory_flaky
              = (Returns false, Agent.log WARNING msg agent_busy, memory_flaky).
Proof.
  apply (assign_task_refuses agent_busy (Task.to_dict task_late) (PStr "task-late")).
  - left. discriminate.
  - reflexivity.
Defined.

(** X7. When the first call to the collaborator, [store_short_term],
    raises, [assign_task] returns false and the agent is left idle
    without a task: the exception is logged as an error and no store of
    the collaborator is written. *)
Theorem assign_task_store_fails (a : Agent.t) (task : dict) (idv : pyval) (now : string)
    (m : MemoryClient.t) (msg : string) :
  Agent.status a = "idle" ->
  PyDict.get "id" task = Some idv ->
  Agent.lacks_capabilities a (PyDict.get_default "required_capabilities" (PList []) task)
  = Returns false ->
  next_fault m = Some msg ->
  exists m',
    Agent.assign_task a task now m
    = (Returns false,
       Agent.log ERROR ("Failed to assign task " +:+ py_str idv +:+ ": " +:+ msg) a, m')
    /\ MemoryClient.short_term m' = MemoryClient.short_term m
    /\ MemoryClient.long_term m' = MemoryClient.long_term m
    /\ MemoryClient.world_state m' = MemoryClient.world_state m.
Proof.
  intros Hidle Hid Hcaps Hfault. unfold Agent.assign_task, Agent.assign_failed.
  rewrite Hidle, Hcaps, (fmt_item_present _ _ _ Hid). simpl negb. cbv iota.
  unfold MemoryClient.store_short_term. rewrite (call_raises _ _ _ Hfault).
  eexists. split; [reflexivity|]. simpl. auto.
Qed.

Lemma assign_task_store_fails_witness :
  exists m',
    Agent.assign_task agent_idle (Task.to_dict task_parser) "2024-05-01T10:30:00" memory_down
    = (Returns false,
       Agent.log ERROR ("Failed to assign task " +:+ py_str (PStr "task-early") +:+ ": "
                        +:+ "connection lost") agent_idle, m')
    /\ MemoryClient.short_term m' = MemoryClient.short_term memory_down
    /\ MemoryClient.long_term m' = MemoryClient.long_term memory_down
    /\ MemoryClient.world_state m' = MemoryClient.world_state memory_down.
Proof.
  apply (assign_task_store_fails agent_idle (Task.to_dict task_parser) (PStr "task-early"));
    reflexivity.
Defined.

(** X8. [assign_task] lets an exception escape in two cases only: a
    [KeyError] when the task dictionary has no identifier, and the
    [TypeError] of the iteration when an idle agent is given required
    capabilities that are truthy but not iterable. In both cases the
    agent and the collaborator are exactly as before the call. *)
Theorem assign_task_raises_untouched (a a' : Agent.t) (task : dict) (now : string)
    (m m' : MemoryClient.t) (e : exn) :
  Agent.assign_task a task now m = (Raises e, a', m') ->
  a' = a /\ m' = m
  /\ ((e = KeyError "id" /\ PyDict.get "id" task = None)
      \/ (Agent.status a = "idle"
          /\ truthy (PyDict.get_default "required_capabilities" (PList []) task) = true
          /\ py_iter (PyDict.get_default "required_capabilities" (PList []) task)
             = Raises e)).
Proof.
  unfold Agent.assign_task, Agent.refuse, Agent.assign_failed, Agent.lacks_capabilities,
    fmt_item.
  destruct (String.eqb_spec (Agent.status a) "idle") as [Hidle|Hbusy]; simpl negb; cbv iota.
  - destruct (truthy (PyDict.get_default "required_capabilities" (PList []) task)) eqn:Ht.
    + destruct (py_iter (PyDict.get_default "required_capabilities" (PList []) task))
        as [caps|e0] eqn:Hiter.
      * destruct (PyDict.get "id" task) eqn:Hid;
          repeat match goal with
                 | |- context [match ?x with _ => _ end] => destruct x eqn:?
                 end;
          intros [= <- <- <-] || intros [=]; intuition congruence.
      * intros [= <- <- <-]. intuition congruence.
    + destruct (PyDict.get "id" task) eqn:Hid;
        repeat match goal with
               | |- context [match ?x with _ => _ end] => destruct x eqn:?
               end;
        intros [= <- <- <-] || intros [=]; intuition congruence.
  - destruct (PyDict.get "id" task) eqn:Hid; intros [= <- <- <-] || intros [=]; intuition congruence.
Qed.

Lemma assign_task_raises_untouched_witness :
  agent_idle = agent_idle /\ memory_up = memory_up
  /\ ((KeyError "id" = KeyError "id" /\ PyDict.get "id" task_nameless = None)
      \/ (Agent.status agent_idle = "idle"
          /\ truthy (PyDict.get_default "required_capabilities" (PList []) task_nameless)
             = true
          /\ py_iter (PyDict.get_default "required_capabilities" (PList []) task_nameless)
             = Raises (KeyError "id"))).
Proof.
  apply (assign_task_raises_untouched agent_idle agent_idle task_nameless
           "2024-05-01T10:30:00" memory_up memory_up (KeyError "id")).
  reflexivity.
Defined.

Lemma report_stamped_never_raises (a : Agent.t) (task progress : dict)
    (m : MemoryClient.t) :
  exists a' m',
    Agent.report_stamped a task progress m = (Returns tt, a', m')
    /\ Agent.name a' = Agent.name a
    /\ Agent.id a' = Agent.id a
    /\ Agent.capabilities a' = Agent.capabilities a
    /\ (MemoryClient.faults m' = MemoryClient.faults m
        \/ MemoryClient.faults m' = tl (MemoryClient.faults m)).
Proof.
  unfold Agent.report_stamped, Agent.report_failed.
  destruct (fmt_item "id" task) as [tid|e]; [|do 2 eexists; split; [reflexivity|]; auto].
  assert (Hcall : MemoryClient.faults
                    (snd (MemoryClient.update_world_state
                            ("task_progress:" +:+ tid) (PDict progress) m))
                  = tl (MemoryClient.faults m)).
  { unfold MemoryClient.update_world_state, MemoryClient.call.
    destruct (MemoryClient.faults m) as [|[msg|] rest]; reflexivity. }
  destruct (MemoryClient.update_world_state _ _ m) as [[u|e] m1]; simpl in Hcall;
    [|do 2 eexists; split; [reflexivity|]; auto].
  destruct (fmt_item "status" progress) as [st|e];
    [|do 2 eexists; split; [reflexivity|]; auto].
  destruct (py_in_strs _ _); do 2 eexists; (split; [reflexivity|]); auto.
Qed.

(** X9. [report_progress] never lets an exception escape, whatever the
    dictionary it is handed (one of the caller's or the agent's own
    task), the agent's task and the behaviour of the collaborator; it
    makes at most one call to the collaborator, and it never changes
    the agent's name, identifier or capabilities. *)
Theorem report_progress_never_raises (a : Agent.t) (h : Agent.handed) (now : string)
    (m : MemoryClient.t) :
  exists a' m',
    Agent.report_progress_of a h now m = (Returns tt, a', m')
    /\ Agent.name a' = Agent.name a
    /\ Agent.id a' = Agent.id a
    /\ Agent.capabilities a' = Agent.capabilities a
    /\ (MemoryClient.faults m' = MemoryClient.faults m
        \/ MemoryClient.faults m' = tl (MemoryClient.faults m)).
Proof.
  unfold Agent.report_progress_of.
  destruct (Agent.active_task a) as [task|]; [|do 2 eexists; split; [reflexivity|]; auto].
  destruct h as [progress|]; [apply report_stamped_never_raises|]. cbv zeta.
  exact (report_stamped_never_raises
           (Agent.set_state (Some (Agent.stamp a now task)) (Agent.status a) a)
           (Agent.stamp a now task) (Agent.stamp a now task) m).
Qed.

Lemma not_terminal_branch (progress : dict) :
  ~ reports_terminal progress ->
  py_in_strs (PyDict.get_default "status" PNone progress) ["completed"; "failed"] = false.
Proof.
  unfold reports_terminal. now destruct (py_in_strs _ _).
Qed.

(** A record that is not terminal and whose write goes through leaves
    the agent at work. *)
Lemma report_stamped_going_on (a : Agent.t) (task progress : dict) (idv : pyval)
    (m : MemoryClient.t) :
  PyDict.get "id" task = Some idv ->
  ~ reports_terminal progress ->
  next_fault m = None ->
  exists a' m',
    Agent.report_stamped a task progress m = (Returns tt, a', m')
    /\ same_slot a a'
    /\ MemoryClient.world_state m'
       = <[progress_key (py_str idv) := PDict progress]> (MemoryClient.world_state m).
Proof.
  intros Hid Hterm Hok.
  destruct (update_world_state_goes_through (progress_key (py_str idv))
              (PDict progress) m Hok) as (m' & Hrun & Hw & _).
  unfold Agent.report_stamped, Agent.report_failed.
  rewrite (fmt_item_present _ _ _ Hid). unfold progress_key in Hrun. rewrite Hrun.
  rewrite (not_terminal_branch _ Hterm).
  destruct (fmt_item "status" progress);
    do 2 eexists; (split; [reflexivity|]); split; try exact Hw; split; reflexivity.
Qed.

Lemma stamp_not_terminal (a : Agent.t) (now : string) (progress : dict) :
  ~ reports_terminal progress -> ~ reports_terminal (Agent.stamp a now progress).
Proof.
  unfold reports_terminal, PyDict.get_default. now rewrite stamp_keeps_status.
Qed.

(** X10. For an agent whose current task carries an identifier, handed
    a dictionary whose status is neither completed nor failed (or that
    has no status at all): when the write goes through, the dictionary
    with the timestamp and the agent's identifier, every other key as
    it was, is in world state under the task's key, and the agent keeps
    its status and its task. The task is as it was when the dictionary
    is one of the caller's; when the agent is handed its own task, the
    task it holds afterwards carries the two stamps. *)
Theorem report_progress_keeps_working (a : Agent.t) (h : Agent.handed) (task : dict)
    (idv : pyval) (now : string) (m : MemoryClient.t) :
  Agent.current_task a = Some task ->
  PyDict.get "id" task = Some idv ->
  ~ reports_terminal (record_handed h task) ->
  next_fault m = None ->
  exists record' a' m',
    stamped a now (record_handed h task) record'
    /\ Agent.report_progress_of a h now m = (Returns tt, a', m')
    /\ Agent.status a' = Agent.status a
    /\ Agent.current_task a' = Some (task_held h task record')
    /\ MemoryClient.world_state m' !! progress_key (py_str idv) = Some (PDict record').
Proof.
  intros Htask Hid Hterm Hok.
  pose proof (active_task_with_id _ _ _ Htask Hid) as Hactive.
  exists (Agent.stamp a now (record_handed h task)).
  unfold Agent.report_progress_of. rewrite Hactive.
  destruct h as [progress|]; simpl record_handed in *; simpl task_held; cbv zeta.
  - destruct (report_stamped_going_on a task (Agent.stamp a now progress) idv m Hid
                (stamp_not_terminal a now progress Hterm) Hok)
      as (a' & m' & Hrun & [Hc Hs] & Hw).
    exists a', m'. split; [apply stamp_stamped|]. split; [exact Hrun|].
    split; [exact Hs|]. split; [now rewrite Hc|].
    rewrite Hw. apply lookup_insert_eq.
  - destruct (report_stamped_going_on
                (Agent.set_state (Some (Agent.stamp a now task)) (Agent.status a) a)
                (Agent.stamp a now task) (Agent.stamp a now task) idv m
                (eq_trans (stamp_keeps_id a now task) Hid)
                (stamp_not_terminal a now task Hterm) Hok)
      as (a' & m' & Hrun & [Hc Hs] & Hw).
    exists a', m'. split; [apply stamp_stamped|]. split; [exact Hrun|].
    split; [exact Hs|]. split; [exact Hc|].
    rewrite Hw. apply lookup_insert_eq.
Qed.

Lemma report_progress_keeps_working_witness :
  exists record' a' m',
    stamped agent_busy "2024-05-01T11:00:00" (Task.to_dict task_early) record'
    /\ Agent.report_progress_of agent_busy Agent.Own_task "2024-05-01T11:00:00" memory_up
       = (Returns tt, a', m')
    /\ Agent.status a' = Agent.status agent_busy
    /\ Agent.current_task a' = Some record'
    /\ MemoryClient.world_state m' !! progress_key (py_str (PStr "task-early"))
       = Some (PDict record').
Proof.
  apply (report_progress_keeps_working agent_busy Agent.Own_task (Task.to_dict task_early)
           (PStr "task-early")); try reflexivity.
  discriminate.
Defined.

(** ** Creating tasks *)

Lemma to_dict_reloads (uuid4 now : string) (task : Task.t) :
  Task.from_dict uuid4 now (Task.to_dict task) = Task.Loaded task.
Proof.
  destruct task as [i d r rc p dp c s ca at_ res].
  destruct (read_optional_strs rc) as (orc & Hrc & Erc).
  destruct (read_optional_strs dp) as (odp & Hdp & Edp).
  destruct (read_optional_dict c) as (oc & Hc & Ec).
  unfold Task.from_dict, Task.to_dict, Task.item, PyDict.get_default.
  cbn [PyDict.get String.eqb Ascii.eqb Bool.eqb mbind Task.loaded_bind Task.typed
       Task.as_str Task.as_int Task.id Task.description Task.requirements
       Task.required_capabilities Task.priority Task.dependencies Task.context
       Task.status Task.created_at Task.assigned_to Task.result].
  rewrite as_str_list_strs, Hrc, Hdp, Hc, as_opt_str_opt_str.
  cbn [mbind Task.loaded_bind Task.typed Task.init Task.id Task.description
       Task.requirements Task.required_capabilities Task.priority Task.dependencies
       Task.context Task.status Task.created_at Task.assigned_to Task.result].
  now rewrite Erc, Edp, Ec.
Qed.

(** X11. When the write to durable storage goes through, [create_task]
    returns the generated identifier and the queue holds under it the
    task built from the arguments: identifier and creation time as
    drawn, description, requirements and priority as given, required
    capabilities, dependencies and context as given or empty when
    omitted, status pending, no assignee and no result. The other tasks
    of the queue are as they were. Durable storage holds under
    [task:<id>] the dictionary [to_dict] gives for the task, from which
    [from_dict] rebuilds exactly that task, and is otherwise unchanged.
    The agents are not touched and a well-keyed queue stays well
    keyed. *)
Theorem create_task_stores (self : TaskOrchestrator.t) (uuid4 now : string)
    (description : string) (requirements : list string)
    (required_capabilities : option (list string)) (priority : Z)
    (dependencies : option (list string)) (context : option dict) :
  next_fault (TaskOrchestrator.memory_client self) = None ->
  exists self' task,
    TaskOrchestrator.create_task self uuid4 now description requirements
                                 required_capabilities priority dependencies context
    = (Returns uuid4, self')
    /\ PyDict.get uuid4 (TaskQueue.tasks (TaskOrchestrator.task_queue self')) = Some task
    /\ Task.id task = uuid4
    /\ Task.description task = description
    /\ Task.requirements task = requirements
    /\ Task.required_capabilities task = default [] required_capabilities
    /\ Task.priority task = priority
    /\ Task.dependencies task = default [] dependencies
    /\ Task.context task = default [] context
    /\ Task.status task = "pending"
    /\ Task.created_at task = now
    /\ Task.assigned_to task = None
    /\ Task.result task = PNone
    /\ (forall k, k <> uuid4 ->
          PyDict.get k (TaskQueue.tasks (TaskOrchestrator.task_queue self'))
          = PyDict.get k (TaskQueue.tasks (TaskOrchestrator.task_queue self)))
    /\ MemoryClient.long_term (TaskOrchestrator.memory_client self')
       = <[task_key uuid4 := PDict (Task.to_dict task)]>
           (MemoryClient.long_term (TaskOrchestrator.memory_client self))
    /\ (forall u n, Task.from_dict u n (Task.to_dict task) = Task.Loaded task)
    /\ TaskOrchestrator.agents self' = TaskOrchestrator.agents self
    /\ (well_keyed (TaskOrchestrator.task_queue self) ->
        well_keyed (TaskOrchestrator.task_queue self')).
Proof.
  intros Hok. unfold TaskOrchestrator.create_task.
  set (task := Task.init uuid4 now description requirements required_capabilities
                         priority dependencies context).
  unfold TaskQueue.add_task. cbv iota beta.
  destruct (store_long_term_goes_through ("task:" +:+ Task.id task)
              (PDict (Task.to_dict task)) (TaskOrchestrator.memory_client self) Hok)
    as (m' & Hrun & Hl & _).
  simpl TaskOrchestrator.memory_client. rewrite Hrun. eexists. exists task.
  split; [reflexivity|]. simpl.
  split; [apply get_set_eq|]. do 3 (split; [reflexivity|]).
  split; [now destruct required_capabilities as [[|]|]|]. split; [reflexivity|].
  split; [now destruct dependencies as [[|]|]|].
  split; [now destruct context as [[|]|]|]. do 4 (split; [reflexivity|]).
  split; [intros k Hk; apply get_set_ne; congruence|].
  split; [exact Hl|].
  split; [intros u n; apply to_dict_reloads|].
  split; [reflexivity|].
  exact (well_keyed_add_task (TaskOrchestrator.task_queue self) task).
Qed.

Lemma create_task_stores_witness :
  exists self' task,
    TaskOrchestrator.create_task run_registered "task-early" "2024-05-01T10:00:00"
                                 "write the parser" [] (Some ["code_generation"]) 3 None None
    = (Returns "task-early", self')
    /\ PyDict.get "task-early" (TaskQueue.tasks (TaskOrchestrator.task_queue self'))
       = Some task
    /\ Task.id task = "task-early"
    /\ Task.description task = "write the parser"
    /\ Task.requirements task = []
    /\ Task.required_capabilities task = default [] (Some ["code_generation"])
    /\ Task.priority task = 3
    /\ Task.dependencies task = default [] None
    /\ Task.context task = default [] None
    /\ Task.status task = "pending"
    /\ Task.created_at task = "2024-05-01T10:00:00"
    /\ Task.assigned_to task = None
    /\ Task.result task = PNone
    /\ (forall k, k <> "task-early" ->
          PyDict.get k (TaskQueue.tasks (TaskOrchestrator.task_queue self'))
          = PyDict.get k (TaskQueue.tasks (TaskOrchestrator.task_queue run_registered)))
    /\ MemoryClient.long_term (TaskOrchestrator.memory_client self')
       = <[task_key "task-early" := PDict (Task.to_dict task)]>
           (MemoryClient.long_term (TaskOrchestrator.memory_client run_registered))
    /\ (forall u n, Task.from_dict u n (Task.to_dict task) = Task.Loaded task)
    /\ TaskOrchestrator.agents self' = TaskOrchestrator.agents run_registered
    /\ (well_keyed (TaskOrchestrator.task_queue run_registered) ->
        well_keyed (TaskOrchestrator.task_queue self')).
Proof.
  apply (create_task_stores run_registered). reflexivity.
Defined.

(** X12. When the write to durable storage raises, the exception
    escapes [create_task], and yet the task has already been added to
    the queue: it is there, pending, with no durable snapshot, and the
    caller is not told its identifier. *)
Theorem create_task_fails_after_queueing (self : TaskOrchestrator.t) (uuid4 now : string)
    (description : string) (requirements : list string)
    (required_capabilities : option (list string)) (priority : Z)
    (dependencies : option (list string)) (context : option dict) (msg : string) :
  next_fault (TaskOrchestrator.memory_client self) = Some msg ->
  exists self' task,
    TaskOrchestrator.create_task self uuid4 now description requirements
                                 required_capabilities priority dependencies context
    = (Raises (Fault msg), self')
    /\ PyDict.get uuid4 (TaskQueue.tasks (TaskOrchestrator.task_queue self')) = Some task
    /\ Task.status task = "pending"
    /\ MemoryClient.long_term (TaskOrchestrator.memory_client self')
       = MemoryClient.long_term (TaskOrchestrator.memory_client self).
Proof.
  intros Hfault. unfold TaskOrchestrator.create_task.
  unfold TaskQueue.add_task. cbv iota beta.
  unfold MemoryClient.store_long_term. simpl TaskOrchestrator.memory_client.
  rewrite (call_raises _ _ _ Hfault).
  do 2 eexists. split; [reflexivity|]. simpl.
  split; [apply get_set_eq|]. split; reflexivity.
Qed.

Lemma create_task_fails_after_queueing_witness :
  exists self' task,
    TaskOrchestrator.create_task run_offline "task-early" "2024-05-01T10:00:00"
                                 "write the parser" [] None 3 None None
    = (Raises (Fault "connection lost"), self')
    /\ PyDict.get "task-early" (TaskQueue.tasks (TaskOrchestrator.task_queue self'))
       = Some task
    /\ Task.status task = "pending"
    /\ MemoryClient.long_term (TaskOrchestrator.memory_client self')
       = MemoryClient.long_term (TaskOrchestrator.memory_client run_offline).
Proof.
  apply (create_task_fails_after_queueing run_offline). reflexivity.
Defined.

(** ** Assigning tasks *)

Lemma assign_task_identity (a : Agent.t) (task : dict) (now : string)
    (m : MemoryClient.t) :
  let a' := snd (fst (Agent.assign_task a task now m)) in
  Agent.id a' = Agent.id a /\ Agent.name a' = Agent.name a
  /\ Agent.capabilities a' = Agent.capabilities a.
Proof.
  unfold Agent.assign_task, Agent.refuse, Agent.assign_failed.
  case_matches; simpl; auto.
Qed.

Lemma lacks_capabilities_strs (a : Agent.t) (l : list string) :
  exists b, Agent.lacks_capabilities a (Task.strs l) = Returns b.
Proof.
  unfold Agent.lacks_capabilities, Task.strs.
  destruct (truthy (PList (map PStr l))); eexists; reflexivity.
Qed.

(** The dictionary of a task is always fit for [assign_task]: the call
    returns. *)
Lemma assign_task_to_dict_returns (a : Agent.t) (t : Task.t) (now : string)
    (m : MemoryClient.t) :
  exists b a' m', Agent.assign_task a (Task.to_dict t) now m = (Returns b, a', m').
Proof.
  unfold Agent.assign_task, Agent.refuse, Agent.assign_failed.
  change (fmt_item "id" (Task.to_dict t)) with (@Returns string (Task.id t)).
  change (PyDict.get_default "required_capabilities" (PList []) (Task.to_dict t))
    with (Task.strs (Task.required_capabilities t)).
  destruct (lacks_capabilities_strs a (Task.required_capabilities t)) as (b & ->).
  case_matches; do 3 eexists; reflexivity.
Qed.

Lemma assigned_twice (aid : string) (t : Task.t) :
  assigned_to_agent aid (assigned_to_agent aid t) = assigned_to_agent aid t.
Proof. destruct t. reflexivity. Qed.

Lemma assigned_status (aid : string) (t : Task.t) :
  Task.status (assigned_to_agent aid t) = "assigned"
  /\ Task.assigned_to (assigned_to_agent aid t) = Some aid.
Proof. destruct t. split; reflexivity. Qed.

(** One iteration of the assignment loop. *)
Lemma assign_one_effect (now : string) (a : Agent.t) (q : TaskQueue.t)
    (m : MemoryClient.t) :
  exists n a' q' m',
    TaskOrchestrator.assign_one now a q m = (Returns n, a', q', m')
    /\ (n = 0 \/ (n = 1 /\ Agent.status a = "idle"))
    /\ served ("k", a) ("k", a')
    /\ (forall k, only_assigns [(k, a)] q q').
Proof.
  unfold TaskOrchestrator.assign_one.
  destruct (String.eqb_spec (Agent.status a) "idle") as [Hidle|Hbusy]; simpl negb; cbv iota.
  2: { exists 0, a, q, m. split; [reflexivity|]. split; [now left|].
       split; [unfold served; simpl; auto|]. intros k Hwk. auto. }
  destruct (TaskQueue.next_entry q (Agent.capabilities a)) as [[key task]|] eqn:Hnext.
  2: { exists 0, a, q, m. split; [reflexivity|]. split; [now left|].
       split; [unfold served; simpl; tauto|]. intros k Hwk. auto. }
  pose proof (assign_task_identity a (Task.to_dict task) now m) as Hident.
  destruct (assign_task_to_dict_returns a task now m) as (b & a' & m' & Hrun).
  rewrite Hrun in *. simpl in Hident. destruct Hident as (Hid & Hname & Hcaps).
  assert (Hserved : served ("k", a) ("k", a'))
    by (unfold served; simpl; repeat split; auto; intros; contradiction).
  destruct b.
  2: { exists 0, a', q, m'. split; [reflexivity|]. split; [now left|].
       split; [exact Hserved|]. intros k Hwk. auto. }
  eexists 1, a', _, m'. split; [reflexivity|]. split; [right; auto|].
  split; [exact Hserved|]. intros k Hwk.
  destruct (next_entry_candidate _ _ _ _ Hnext) as [Hin [Hpending _]].
  pose proof (keyed_entry _ _ _ (proj2 Hwk) Hin) as Hkey.
  pose proof (In_wf_get _ _ _ (proj1 Hwk) Hin) as Hget.
  pose proof (well_keyed_alter q key (TaskOrchestrator.assignment a')
                (assignment_keeps_id a') Hwk) as Hwk1.
  set (q1 := TaskQueue.mk (PyDict.alter _ key (TaskQueue.tasks q))) in *.
  split; [apply well_keyed_update_task; [apply assignment_keeps_id | exact Hwk1]|].
  split; [rewrite update_task_keys; subst q1; simpl; apply keys_alter|].
  intros tid t Ht. rewrite update_task_get, <- Hkey. subst q1. simpl. rewrite get_alter.
  destruct (String.eqb_spec key tid) as [->|Hne]; [|now left].
  right. rewrite Hget in Ht. injection Ht as <-. split; [exact Hpending|].
  exists k, a. split; [now left|]. split; [exact Hidle|].
  rewrite Hget. simpl. rewrite Hid. now destruct task.
Qed.

Lemma only_assigns_refl (entries : list (string * Agent.t)) (q : TaskQueue.t) :
  only_assigns entries q q.
Proof. intros Hwk. auto. Qed.

Lemma only_assigns_cons (k : string) (a : Agent.t) (rest : list (string * Agent.t))
    (q q1 q2 : TaskQueue.t) :
  only_assigns [(k, a)] q q1 -> only_assigns rest q1 q2 ->
  only_assigns ((k, a) :: rest) q q2.
Proof.
  intros H1 H2 Hwk. destruct (H1 Hwk) as (Hwk1 & Hkeys1 & Hq1).
  destruct (H2 Hwk1) as (Hwk2 & Hkeys2 & Hq2).
  split; [assumption|]. split; [congruence|].
  intros tid t Ht. destruct (Hq1 tid t Ht) as [Hsame | (Hp & k0 & a0 & Hin & Hidle & Hassigned)].
  - destruct (Hq2 tid t Hsame) as [Hsame2 | (Hp & k0 & a0 & Hin & Hidle & Hassigned)];
      [now left|].
    right. split; [assumption|]. exists k0, a0. split; [now right | now split].
  - destruct Hin as [[= <- <-]|[]].
    destruct (Hq2 tid _ Hassigned) as [Hsame2 | (Hp2 & _)].
    + right. split; [assumption|]. exists k, a. split; [now left | now split].
    + destruct (assigned_status (Agent.id a) t) as [Hst _]. rewrite Hst in Hp2.
      discriminate.
Qed.

Lemma idle_count_cons (k : string) (a : Agent.t) (rest : list (string * Agent.t)) :
  idle_count ((k, a) :: rest)
  = (if String.eqb (Agent.status a) "idle" then 1 else 0) + idle_count rest.
Proof.
  unfold idle_count. simpl. destruct (String.eqb (Agent.status a) "idle"); simpl; lia.
Qed.

Lemma idle_count_nonneg (entries : list (string * Agent.t)) : 0 <= idle_count entries.
Proof. unfold idle_count. lia. Qed.

Lemma assign_loop_effect (clock : string -> string) (entries : list (string * Agent.t))
    (q : TaskQueue.t) (m : MemoryClient.t) (assigned_count : Z) :
  exists n entries' q' m',
    TaskOrchestrator.assign_loop clock entries q m assigned_count
    = (Returns n, entries', q', m')
    /\ assigned_count <= n <= assigned_count + idle_count entries
    /\ Forall2 served entries entries'
    /\ only_assigns entries q q'.
Proof.
  revert q m assigned_count.
  induction entries as [|[k a] rest IH]; intros q m assigned_count; simpl.
  - exists assigned_count, [], q, m. split; [reflexivity|].
    split; [unfold idle_count; simpl; lia|]. split; [constructor | apply only_assigns_refl].
  - destruct (assign_one_effect (clock k) a q m)
      as (n1 & a' & q1 & m1 & Hrun1 & Hn1 & Hserved & Honly).
    rewrite Hrun1.
    destruct (IH q1 m1 (assigned_count + n1))
      as (n & rest' & q2 & m2 & Hrun & Hn & Hrest & Honly').
    rewrite Hrun. exists n, ((k, a') :: rest'), q2, m2. split; [reflexivity|].
    split.
    + rewrite idle_count_cons.
      destruct Hn1 as [-> | [-> Hidle]].
      * destruct (String.eqb (Agent.status a) "idle"); lia.
      * rewrite Hidle. simpl. lia.
    + split.
      * constructor; [|exact Hrest]. unfold served in *. simpl in *. tauto.
      * eapply only_assigns_cons; [apply Honly | exact Honly'].
Qed.

(** X13. [assign_tasks] never raises, whatever the collaborator does:
    it returns a count that is at least 0 and at most the number of
    agents that were idle when it was called. *)
Theorem assign_tasks_returns_count (self : TaskOrchestrator.t) (clock : string -> string) :
  exists n self',
    TaskOrchestrator.assign_tasks self clock = (Returns n, self')
    /\ 0 <= n <= idle_count (TaskOrchestrator.agents self).
Proof.
  unfold TaskOrchestrator.assign_tasks.
  destruct (assign_loop_effect clock (TaskOrchestrator.agents self)
              (TaskOrchestrator.task_queue self) (TaskOrchestrator.memory_client self) 0)
    as (n & entries' & q' & m' & -> & Hn & _).
  do 2 eexists. split; [reflexivity | lia].
Qed.

(** X14. [assign_tasks] keeps the registry of agents in place: the same
    keys in the same order, every agent with its identifier, name and
    capabilities, and every agent that was not idle exactly as it was. *)
Theorem assign_tasks_serves_idle_only (self : TaskOrchestrator.t)
    (clock : string -> string) :
  Forall2 served (TaskOrchestrator.agents self)
          (TaskOrchestrator.agents (snd (TaskOrchestrator.assign_tasks self clock))).
Proof.
  unfold TaskOrchestrator.assign_tasks.
  destruct (assign_loop_effect clock (TaskOrchestrator.agents self)
              (TaskOrchestrator.task_queue self) (TaskOrchestrator.memory_client self) 0)
    as (n & entries' & q' & m' & -> & _ & Hserved & _).
  exact Hserved.
Qed.

(** X15. On a well-keyed queue, [assign_tasks] adds and removes no
    task and changes a task in one way only: a pending task may become
    assigned, with [assigned_to] set to the identifier of an agent that
    was idle, its other attributes untouched. Tasks that are not pending
    are left exactly as they are, and the queue stays well keyed. *)
Theorem assign_tasks_only_assigns (self : TaskOrchestrator.t) (clock : string -> string) :
  well_keyed (TaskOrchestrator.task_queue self) ->
  well_keyed (TaskOrchestrator.task_queue (snd (TaskOrchestrator.assign_tasks self clock)))
  /\ PyDict.keys (TaskQueue.tasks
                    (TaskOrchestrator.task_queue
                       (snd (TaskOrchestrator.assign_tasks self clock))))
     = PyDict.keys (TaskQueue.tasks (TaskOrchestrator.task_queue self))
  /\ forall tid t,
       PyDict.get tid (TaskQueue.tasks (TaskOrchestrator.task_queue self)) = Some t ->
       PyDict.get tid (TaskQueue.tasks
                         (TaskOrchestrator.task_queue
                            (snd (TaskOrchestrator.assign_tasks self clock)))) = Some t
       \/ (Task.status t = "pending"
           /\ exists k a, In (k, a) (TaskOrchestrator.agents self)
                          /\ Agent.status a = "idle"
                          /\ PyDict.get tid
                               (TaskQueue.tasks
                                  (TaskOrchestrator.task_queue
                                     (snd (TaskOrchestrator.assign_tasks self clock))))
                             = Some (assigned_to_agent (Agent.id a) t)).
Proof.
  unfold TaskOrchestrator.assign_tasks.
  destruct (assign_loop_effect clock (TaskOrchestrator.agents self)
              (TaskOrchestrator.task_queue self) (TaskOrchestrator.memory_client self) 0)
    as (n & entries' & q' & m' & -> & _ & _ & Honly).
  exact Honly.
Qed.

Lemma well_keyed_run_created : well_keyed (TaskOrchestrator.task_queue run_created).
Proof.
  split.
  - unfold PyDict.wf. vm_compute. apply NoDup_singleton.
  - unfold TaskQueue.keyed_by_id. vm_compute. repeat constructor.
Defined.

Lemma assign_tasks_only_assigns_witness :
  well_keyed (TaskOrchestrator.task_queue
                (snd (TaskOrchestrator.assign_tasks run_created at_half_past)))
  /\ PyDict.keys (TaskQueue.tasks
                    (TaskOrchestrator.task_queue
                       (snd (TaskOrchestrator.assign_tasks run_created at_half_past))))
     = PyDict.keys (TaskQueue.tasks (TaskOrchestrator.task_queue run_created))
  /\ forall tid t,
       PyDict.get tid (TaskQueue.tasks (TaskOrchestrator.task_queue run_created)) = Some t ->
       PyDict.get tid (TaskQueue.tasks
                         (TaskOrchestrator.task_queue
                            (snd (TaskOrchestrator.assign_tasks run_created at_half_past))))
       = Some t
       \/ (Task.status t = "pending"
           /\ exists k a, In (k, a) (TaskOrchestrator.agents run_created)
                          /\ Agent.status a = "idle"
                          /\ PyDict.get tid
                               (TaskQueue.tasks
                                  (TaskOrchestrator.task_queue
                                     (snd (TaskOrchestrator.assign_tasks run_created
                                                                         at_half_past))))
                             = Some (assigned_to_agent (Agent.id a) t)).
Proof.
  apply (assign_tasks_only_assigns run_created at_half_past).
  exact well_keyed_run_created.
Defined.

Lemma assign_task_of_selected (a : Agent.t) (q : TaskQueue.t) (key : string) (t : Task.t)
    (now : string) (m : MemoryClient.t) :
  Agent.status a = "idle" ->
  TaskQueue.next_entry q (Agent.capabilities a) = Some (key, t) ->
  calls_go_through 2 m ->
  exists a' m',
    Agent.assign_task a (Task.to_dict t) now m = (Returns true, a', m')
    /\ Agent.status a' = "working"
    /\ Agent.current_task a' = Some (Task.to_dict t)
    /\ Agent.id a' = Agent.id a.
Proof.
  intros Hidle Hnext Hcalls.
  destruct (next_entry_candidate _ _ _ _ Hnext) as [_ (_ & _ & Hcaps)].
  destruct (calls_go_through_next _ _ Hcalls) as [Hok1 Hrest].
  destruct (store_short_term_goes_through ("task:" +:+ Task.id t) (PDict (Task.to_dict t))
              m Hok1) as (m1 & Hrun1 & _ & _ & _ & Hf1).
  destruct (calls_go_through_next _ _ (Hrest m1 Hf1)) as [Hok2 _].
  destruct (update_world_state_goes_through ("task_assignment:" +:+ Task.id t)
              (assignment_record a now) m1 Hok2) as (m2 & Hrun2 & _).
  assert (Hlacks : Agent.lacks_capabilities a (Task.strs (Task.required_capabilities t))
                   = Returns false).
  { unfold Agent.lacks_capabilities, Task.strs.
    destruct (truthy (PList (map PStr (Task.required_capabilities t)))); [|reflexivity].
    simpl py_iter. cbv iota. f_equal. apply negb_false_iff. apply forallb_forall.
    intros cap Hcap. apply in_map_iff in Hcap. destruct Hcap as (c & <- & Hc).
    unfold py_in_strs. apply existsb_exists. exists c. split; [now apply Hcaps|].
    simpl. apply String.eqb_refl. }
  unfold Agent.assign_task.
  change (fmt_item "id" (Task.to_dict t)) with (@Returns string (Task.id t)).
  change (PyDict.get_default "required_capabilities" (PList []) (Task.to_dict t))
    with (Task.strs (Task.required_capabilities t)).
  rewrite Hidle, Hlacks. simpl negb. cbv iota.
  rewrite Hrun1. unfold assignment_record in Hrun2. rewrite Hrun2.
  do 2 eexists. split; [reflexivity|]. simpl. auto.
Qed.

(** X16. When [assign_tasks] serves an idle agent for which the queue,
    well keyed, selects a task, and the two calls to the collaborator
    go through, the iteration counts one assignment; the task in the
    queue becomes assigned to the agent, while the agent works on the
    dictionary taken before that update, which still says pending and
    names no assignee. *)
Theorem assign_one_assigns (now : string) (a : Agent.t) (q : TaskQueue.t)
    (m : MemoryClient.t) (key : string) (t : Task.t) :
  well_keyed q ->
  Agent.status a = "idle" ->
  TaskQueue.next_entry q (Agent.capabilities a) = Some (key, t) ->
  calls_go_through 2 m ->
  exists a' q' m',
    TaskOrchestrator.assign_one now a q m = (Returns 1, a', q', m')
    /\ Agent.status a' = "working"
    /\ Agent.current_task a' = Some (Task.to_dict t)
    /\ PyDict.get "status" (Task.to_dict t) = Some (PStr "pending")
    /\ PyDict.get (Task.id t) (TaskQueue.tasks q')
       = Some (assigned_to_agent (Agent.id a) t)
    /\ Task.status (assigned_to_agent (Agent.id a) t) = "assigned"
    /\ Task.assigned_to (assigned_to_agent (Agent.id a) t) = Some (Agent.id a).
Proof.
  intros Hwk Hidle Hnext Hcalls.
  destruct (assign_task_of_selected a q key t now m Hidle Hnext Hcalls)
    as (a' & m' & Hrun & Hst & Htask & Hid).
  destruct (next_entry_candidate _ _ _ _ Hnext) as [Hin (Hpending & _)].
  pose proof (keyed_entry _ _ _ (proj2 Hwk) Hin) as Hkey.
  pose proof (In_wf_get _ _ _ (proj1 Hwk) Hin) as Hget.
  unfold TaskOrchestrator.assign_one. rewrite Hidle, Hnext. simpl negb. cbv iota.
  rewrite Hrun. do 3 eexists. split; [reflexivity|].
  split; [exact Hst|]. split; [exact Htask|].
  split; [simpl; now rewrite Hpending|].
  destruct (assigned_status (Agent.id a) t) as [Hs Ha].
  split; [|split; assumption].
  rewrite update_task_get, String.eqb_refl. simpl. rewrite get_alter, <- Hkey,
    String.eqb_refl, Hget. simpl. rewrite Hid. now destruct t.
Qed.

Lemma assign_one_assigns_witness :
  exists a' q' m',
    TaskOrchestrator.assign_one "2024-05-01T10:30:00" agent_idle
      (TaskOrchestrator.task_queue run_created) memory_up
    = (Returns 1, a', q', m')
    /\ Agent.status a' = "working"
    /\ Agent.current_task a' = Some (Task.to_dict task_parser)
    /\ PyDict.get "status" (Task.to_dict task_parser) = Some (PStr "pending")
    /\ PyDict.get (Task.id task_parser) (TaskQueue.tasks q')
       = Some (assigned_to_agent (Agent.id agent_idle) task_parser)
    /\ Task.status (assigned_to_agent (Agent.id agent_idle) task_parser) = "assigned"
    /\ Task.assigned_to (assigned_to_agent (Agent.id agent_idle) task_parser)
       = Some (Agent.id agent_idle).
Proof.
  apply (assign_one_assigns "2024-05-01T10:30:00" agent_idle
           (TaskOrchestrator.task_queue run_created) memory_up "task-early" task_parser).
  - exact well_keyed_run_created.
  - reflexivity.
  - vm_compute. reflexivity.
  - constructor.
Defined.

(** ** Monitoring *)

Lemma monitor_one_skips (now : string) (a : Agent.t) (self : TaskOrchestrator.t) :
  Agent.status a <> "working" \/ Agent.active_task a = None ->
  TaskOrchestrator.monitor_one now a self = (Returns tt, self).
Proof.
  unfold TaskOrchestrator.monitor_one.
  destruct (String.eqb_spec (Agent.status a) "working") as [Hw|Hw]; simpl; [|reflexivity].
  intros [Hnot | ->]; [contradiction | reflexivity].
Qed.

Lemma monitor_loop_skips (clock : string -> string) (entries : list (string * Agent.t))
    (self : TaskOrchestrator.t) :
  (forall k a, In (k, a) entries ->
               Agent.status a <> "working" \/ Agent.active_task a = None) ->
  TaskOrchestrator.monitor_loop clock entries self = (Returns tt, self).
Proof.
  induction entries as [|[k a] rest IH]; intros Hall; simpl; [reflexivity|].
  rewrite monitor_one_skips by (apply (Hall k); now left).
  apply IH. intros k' a' Hin. apply (Hall k'). now right.
Qed.

(** X17. [monitor_progress] passes over every agent that is not
    working and every agent that holds no task, none at all or an empty
    dictionary: when each registered agent is one or the other, it
    returns without calling the collaborator and leaves the queue, the
    agents, the collaborator and the log exactly as they were, whatever
    progress records world state holds. *)
Theorem monitor_progress_skips_idle (self : TaskOrchestrator.t) (clock : string -> string) :
  (forall k a, In (k, a) (TaskOrchestrator.agents self) ->
               Agent.status a <> "working" \/ Agent.active_task a = None) ->
  TaskOrchestrator.monitor_progress self clock = (Returns tt, self).
Proof.
  intros Hall. unfold TaskOrchestrator.monitor_progress. now apply monitor_loop_skips.
Qed.

Lemma monitor_progress_skips_idle_witness :
  TaskOrchestrator.monitor_progress run_created at_noon = (Returns tt, run_created).
Proof.
  apply monitor_progress_skips_idle. intros k a Hin. left.
  vm_compute in Hin. destruct Hin as [[= <- <-]|[]]. discriminate.
Defined.

Section DictSetFacts.
Context {V : Type}.

Lemma In_set_wf (k k' : string) (v v' : V) (d : list (string * V)) :
  PyDict.wf d -> In (k', v') (PyDict.set k v d) ->
  (k' <> k /\ In (k', v') d) \/ (k' = k /\ v' = v).
Proof.
  intros Hwf Hin.
  pose proof (In_wf_get _ _ _ (wf_set k v d Hwf) Hin) as Hget.
  destruct (String.eqb_spec k k') as [<-|Hne].
  - rewrite get_set_eq in Hget. injection Hget as <-. now right.
  - rewrite get_set_ne in Hget by assumption. left. split; [congruence|].
    now apply get_In.
Qed.
End DictSetFacts.

Lemma report_progress_frees (a : Agent.t) (progress task : dict) (idv : pyval)
    (now : string) (m : MemoryClient.t) :
  Agent.current_task a = Some task ->
  PyDict.get "id" task = Some idv ->
  reports_terminal progress ->
  next_fault m = None ->
  exists a' m',
    Agent.report_progress a progress now m = (Returns tt, a', m')
    /\ Agent.status a' = "idle"
    /\ Agent.current_task a' = None
    /\ MemoryClient.world_state m'
       = <[progress_key (py_str idv) := PDict (Agent.stamp a now progress)]>
           (MemoryClient.world_state m).
Proof.
  intros Htask Hid Hterm Hok.
  pose proof (active_task_with_id _ _ _ Htask Hid) as Hactive.
  unfold Agent.report_progress, Agent.report_progress_of. rewrite Hactive.
  exact (report_stamped_terminal a task (Agent.stamp a now progress) idv m Hid
           (stamp_reports_terminal a now progress Hterm) Hok).
Qed.

(** X18. A completion that the agent reports itself is never picked up:
    when the agent registered under [k] calls [report_progress] with a
    terminal record and the write goes through, the record is in world
    state, but the agent is idle from then on, so that a monitor step,
    no other agent being at work, changes nothing: the task keeps in
    the queue the status it had, assigned for a task that
    [assign_tasks] gave out. *)
Theorem self_reported_task_not_settled (self : TaskOrchestrator.t) (k : string)
    (a : Agent.t) (task progress : dict) (idv : pyval) (now : string)
    (clock : string -> string) :
  PyDict.wf (TaskOrchestrator.agents self) ->
  PyDict.get k (TaskOrchestrator.agents self) = Some a ->
  Agent.current_task a = Some task ->
  PyDict.get "id" task = Some idv ->
  reports_terminal progress ->
  next_fault (TaskOrchestrator.memory_client self) = None ->
  (forall k' a', k' <> k -> In (k', a') (TaskOrchestrator.agents self) ->
                 Agent.status a' <> "working") ->
  let self' := agent_reports k progress now self in
  MemoryClient.world_state (TaskOrchestrator.memory_client self')
  !! progress_key (py_str idv) = Some (PDict (Agent.stamp a now progress))
  /\ TaskOrchestrator.monitor_progress self' clock = (Returns tt, self')
  /\ TaskOrchestrator.task_queue self' = TaskOrchestrator.task_queue self.
Proof.
  intros Hwf Hget Htask Hid Hterm Hok Hothers. unfold agent_reports. rewrite Hget.
  destruct (report_progress_frees a progress task idv now _ Htask Hid Hterm Hok)
    as (a' & m' & Hrun & Hidle & _ & Hw).
  rewrite Hrun. cbv zeta. simpl.
  split; [rewrite Hw; apply lookup_insert_eq|]. split; [|reflexivity].
  unfold TaskOrchestrator.monitor_progress. apply monitor_loop_skips.
  simpl. intros k' x Hin. left.
  destruct (In_set_wf _ _ _ _ _ Hwf Hin) as [[Hne Hold] | [-> ->]].
  - eapply Hothers; eassumption.
  - rewrite Hidle. discriminate.
Qed.

Lemma self_reported_task_not_settled_witness :
  let self' := agent_reports "coder_1a2b3c4d" progress_done "2024-05-01T11:30:00"
                             run_assigned in
  MemoryClient.world_state (TaskOrchestrator.memory_client self')
  !! progress_key (py_str (PStr "task-early"))
  = Some (PDict (Agent.stamp coder_working "2024-05-01T11:30:00" progress_done))
  /\ TaskOrchestrator.monitor_progress self' at_noon = (Returns tt, self')
  /\ TaskOrchestrator.task_queue self' = TaskOrchestrator.task_queue run_assigned.
Proof.
  apply (self_reported_task_not_settled run_assigned "coder_1a2b3c4d" coder_working
           (Task.to_dict task_parser) progress_done (PStr "task-early")).
  - unfold PyDict.wf. vm_compute. apply NoDup_singleton.
  - vm_compute. reflexivity.
  - reflexivity.
  - reflexivity.
  - reflexivity.
  - reflexivity.
  - intros k' a' Hne Hin. vm_compute in Hin. destruct Hin as [[= <- <-]|[]].
    now contradiction Hne.
Defined.

(** ** The handlers *)

Lemma settle_unknown (self : TaskOrchestrator.t) (s st : string) (result : pyval)
    (stamp_key now : string) :
  PyDict.get s (TaskQueue.tasks (TaskOrchestrator.task_queue self)) = None ->
  MemoryClient.long_term (TaskOrchestrator.memory_client self) !! task_key s = None ->
  next_fault (TaskOrchestrator.memory_client self) = None ->
  exists self',
    TaskOrchestrator.settle self (PStr s) st result stamp_key now = (Returns tt, self')
    /\ TaskOrchestrator.task_queue self' = TaskOrchestrator.task_queue self
    /\ TaskOrchestrator.agents self' = TaskOrchestrator.agents self
    /\ TaskOrchestrator.logger self' = TaskOrchestrator.logger self
    /\ MemoryClient.long_term (TaskOrchestrator.memory_client self')
       = MemoryClient.long_term (TaskOrchestrator.memory_client self)
    /\ MemoryClient.world_state (TaskOrchestrator.memory_client self')
       = MemoryClient.world_state (TaskOrchestrator.memory_client self).
Proof.
  intros Hq Hl Hok. unfold TaskOrchestrator.settle, TaskOrchestrator.update_task_dyn,
    TaskQueue.update_task.
  rewrite Hq. cbv iota beta. simpl py_str.
  destruct (get_long_term_goes_through ("task:" +:+ s)
              (TaskOrchestrator.memory_client self) Hok) as (m' & Hrun & Hl' & _ & Hw' & _).
  simpl TaskOrchestrator.memory_client. rewrite Hrun.
  unfold MemoryClient.lookup_or_none. unfold task_key in Hl. rewrite Hl. simpl.
  eexists. split; [reflexivity|]. simpl. destruct self; simpl in *. auto.
Qed.

(** X19. A handler called for an identifier that is neither a key of
    the queue nor the key of a durable snapshot fails silently: when
    the read of durable storage goes through, [handle_completed_task]
    and [handle_failed_task] return without error, and the queue, the
    agents, durable storage and world state are as before; only a line
    is logged. *)
Theorem handlers_ignore_unknown_task (self : TaskOrchestrator.t) (s : string)
    (result : pyval) (error_data : dict) (now : string) :
  PyDict.get s (TaskQueue.tasks (TaskOrchestrator.task_queue self)) = None ->
  MemoryClient.long_term (TaskOrchestrator.memory_client self) !! task_key s = None ->
  next_fault (TaskOrchestrator.memory_client self) = None ->
  (exists self',
     TaskOrchestrator.handle_completed_task self (PStr s) result now = (Returns tt, self')
     /\ TaskOrchestrator.task_queue self' = TaskOrchestrator.task_queue self
     /\ TaskOrchestrator.agents self' = TaskOrchestrator.agents self
     /\ MemoryClient.long_term (TaskOrchestrator.memory_client self')
        = MemoryClient.long_term (TaskOrchestrator.memory_client self)
     /\ MemoryClient.world_state (TaskOrchestrator.memory_client self')
        = MemoryClient.world_state (TaskOrchestrator.memory_client self))
  /\ (exists self',
        TaskOrchestrator.handle_failed_task self (PStr s) (PDict error_data) now
        = (Returns tt, self')
        /\ TaskOrchestrator.task_queue self' = TaskOrchestrator.task_queue self
        /\ TaskOrchestrator.agents self' = TaskOrchestrator.agents self
        /\ MemoryClient.long_term (TaskOrchestrator.memory_client self')
           = MemoryClient.long_term (TaskOrchestrator.memory_client self)
        /\ MemoryClient.world_state (TaskOrchestrator.memory_client self')
           = MemoryClient.world_state (TaskOrchestrator.memory_client self)).
Proof.
  intros Hq Hl Hok. split.
  - destruct (settle_unknown self s "completed" result "completed_at" now Hq Hl Hok)
      as (self' & Hrun & Hq' & Ha' & _ & Hl' & Hw').
    unfold TaskOrchestrator.handle_completed_task. rewrite Hrun.
    eexists. split; [reflexivity|]. simpl. auto.
  - destruct (settle_unknown self s "failed" (PDict error_data) "failed_at" now Hq Hl Hok)
      as (self' & Hrun & Hq' & Ha' & _ & Hl' & Hw').
    unfold TaskOrchestrator.handle_failed_task. rewrite Hrun.
    eexists. split; [reflexivity|]. simpl. auto.
Qed.

Lemma handlers_ignore_unknown_task_witness :
  (exists self',
     TaskOrchestrator.handle_completed_task run_created (PStr "task-ghost")
                                            (PDict record_done) "2024-05-01T12:00:00"
     = (Returns tt, self')
     /\ TaskOrchestrator.task_queue self' = TaskOrchestrator.task_queue run_created
     /\ TaskOrchestrator.agents self' = TaskOrchestrator.agents run_created
     /\ MemoryClient.long_term (TaskOrchestrator.memory_client self')
        = MemoryClient.long_term (TaskOrchestrator.memory_client run_created)
     /\ MemoryClient.world_state (TaskOrchestrator.memory_client self')
        = MemoryClient.world_state (TaskOrchestrator.memory_client run_created))
  /\ (exists self',
        TaskOrchestrator.handle_failed_task run_created (PStr "task-ghost")
                                            (PDict record_failed) "2024-05-01T12:00:00"
        = (Returns tt, self')
        /\ TaskOrchestrator.task_queue self' = TaskOrchestrator.task_queue run_created
        /\ TaskOrchestrator.agents self' = TaskOrchestrator.agents run_created
        /\ MemoryClient.long_term (TaskOrchestrator.memory_client self')
           = MemoryClient.long_term (TaskOrchestrator.memory_client run_created)
        /\ MemoryClient.world_state (TaskOrchestrator.memory_client self')
           = MemoryClient.world_state (TaskOrchestrator.memory_client run_created)).
Proof.
  apply (handlers_ignore_unknown_task run_created "task-ghost").
  - reflexivity.
  - vm_compute. reflexivity.
  - reflexivity.
Defined.

Lemma mirrored_lookup (d : dict) (st : string) (result : pyval) (stamp_key now : string) :
  stamp_key <> "status" -> stamp_key <> "result" ->
  PyDict.get "status" (mirrored d st result stamp_key now) = Some (PStr st)
  /\ PyDict.get "result" (mirrored d st result stamp_key now) = Some result
  /\ PyDict.get stamp_key (mirrored d st result stamp_key now) = Some (PStr now)
  /\ forall k, k <> "status" -> k <> "result" -> k <> stamp_key ->
               PyDict.get k (mirrored d st result stamp_key now) = PyDict.get k d.
Proof.
  intros H1 H2. unfold mirrored. repeat split.
  - rewrite !get_set_ne by congruence. apply get_set_eq.
  - rewrite get_set_ne by congruence. apply get_set_eq.
  - apply get_set_eq.
  - intros k Hs Hr Hk. rewrite !get_set_ne by congruence. reflexivity.
Qed.

Lemma settle_mirrors (self : TaskOrchestrator.t) (s st : string) (result : pyval)
    (stamp_key now : string) (d : dict) :
  calls_go_through 2 (TaskOrchestrator.memory_client self) ->
  MemoryClient.long_term (TaskOrchestrator.memory_client self) !! task_key s
  = Some (PDict d) ->
  d <> [] ->
  exists self',
    TaskOrchestrator.settle self (PStr s) st result stamp_key now = (Returns tt, self')
    /\ MemoryClient.long_term (TaskOrchestrator.memory_client self')
       = <[task_key s := PDict (mirrored d st result stamp_key now)]>
           (MemoryClient.long_term (TaskOrchestrator.memory_client self))
    /\ MemoryClient.world_state (TaskOrchestrator.memory_client self')
       = MemoryClient.world_state (TaskOrchestrator.memory_client self)
    /\ TaskOrchestrator.agents self' = TaskOrchestrator.agents self.
Proof.
  intros Hcalls Hl Hd.
  destruct (calls_go_through_next _ _ Hcalls) as [Hok1 Hrest].
  destruct (get_long_term_goes_through ("task:" +:+ s)
              (TaskOrchestrator.memory_client self) Hok1)
    as (m1 & Hrun1 & Hl1 & _ & Hw1 & Hf1).
  destruct (calls_go_through_next _ _ (Hrest m1 Hf1)) as [Hok2 _].
  destruct (store_long_term_goes_through ("task:" +:+ s)
              (PDict (mirrored d st result stamp_key now))
              (MemoryClient.long_term_changed_in_place
                 ("task:" +:+ s) (PDict (mirrored d st result stamp_key now)) m1) Hok2)
    as (m2 & Hrun2 & Hl2 & _ & Hw2 & _).
  simpl in Hl2, Hw2. rewrite insert_insert_eq in Hl2.
  unfold TaskOrchestrator.settle.
  destruct (TaskOrchestrator.update_task_dyn (TaskOrchestrator.task_queue self) (PStr s) _)
    as [[found|e] q] eqn:Hu.
  2: { simpl in Hu. destruct (TaskQueue.update_task _ s _). discriminate. }
  simpl py_str. simpl TaskOrchestrator.memory_client. rewrite Hrun1.
  unfold MemoryClient.lookup_or_none. unfold task_key in Hl. rewrite Hl.
  simpl default.
  assert (Htruthy : truthy (PDict d) = true) by (destruct d; [contradiction | reflexivity]).
  rewrite Htruthy. unfold TaskOrchestrator.set_items. simpl fold_left.
  fold (mirrored d st result stamp_key now). cbv zeta. rewrite Hrun2.
  eexists. split; [reflexivity|]. simpl. unfold task_key.
  split; [now rewrite Hl2, Hl1|]. split; [now rewrite Hw2, Hw1 | reflexivity].
Qed.

(** X20. When durable storage holds a non-empty snapshot of the task
    and the read and the write go through, [handle_completed_task]
    writes the snapshot back with status completed, the result and a
    [completed_at] timestamp, and [handle_failed_task] with status
    failed, the error data and a [failed_at] timestamp; every other key
    of the snapshot keeps its value, and world state and the agents are
    not touched. *)
Theorem handlers_mirror_snapshot (self : TaskOrchestrator.t) (s : string)
    (result : pyval) (error_data : dict) (now : string) (d : dict) :
  calls_go_through 2 (TaskOrchestrator.memory_client self) ->
  MemoryClient.long_term (TaskOrchestrator.memory_client self) !! task_key s
  = Some (PDict d) ->
  d <> [] ->
  (exists self' d',
     TaskOrchestrator.handle_completed_task self (PStr s) result now = (Returns tt, self')
     /\ MemoryClient.long_term (TaskOrchestrator.memory_client self') !! task_key s
        = Some (PDict d')
     /\ PyDict.get "status" d' = Some (PStr "completed")
     /\ PyDict.get "result" d' = Some result
     /\ PyDict.get "completed_at" d' = Some (PStr now)
     /\ (forall k, k <> "status" -> k <> "result" -> k <> "completed_at" ->
                   PyDict.get k d' = PyDict.get k d)
     /\ MemoryClient.world_state (TaskOrchestrator.memory_client self')
        = MemoryClient.world_state (TaskOrchestrator.memory_client self)
     /\ TaskOrchestrator.agents self' = TaskOrchestrator.agents self)
  /\ (exists self' d',
        TaskOrchestrator.handle_failed_task self (PStr s) (PDict error_data) now
        = (Returns tt, self')
        /\ MemoryClient.long_term (TaskOrchestrator.memory_client self') !! task_key s
           = Some (PDict d')
        /\ PyDict.get "status" d' = Some (PStr "failed")
        /\ PyDict.get "result" d' = Some (PDict error_data)
        /\ PyDict.get "failed_at" d' = Some (PStr now)
        /\ (forall k, k <> "status" -> k <> "result" -> k <> "failed_at" ->
                      PyDict.get k d' = PyDict.get k d)
        /\ MemoryClient.world_state (TaskOrchestrator.memory_client self')
           = MemoryClient.world_state (TaskOrchestrator.memory_client self)
        /\ TaskOrchestrator.agents self' = TaskOrchestrator.agents self).
Proof.
  intros Hcalls Hl Hd. split.
  - destruct (settle_mirrors self s "completed" result "completed_at" now d Hcalls Hl Hd)
      as (self' & Hrun & Hl' & Hw' & Ha').
    destruct (mirrored_lookup d "completed" result "completed_at" now)
      as (H1 & H2 & H3 & H4); try discriminate.
    unfold TaskOrchestrator.handle_completed_task. rewrite Hrun.
    do 2 eexists. split; [reflexivity|]. simpl.
    split; [rewrite Hl'; apply lookup_insert_eq|].
    do 4 (split; [assumption|]). split; assumption.
  - destruct (settle_mirrors self s "failed" (PDict error_data) "failed_at" now d
                Hcalls Hl Hd) as (self' & Hrun & Hl' & Hw' & Ha').
    destruct (mirrored_lookup d "failed" (PDict error_data) "failed_at" now)
      as (H1 & H2 & H3 & H4); try discriminate.
    unfold TaskOrchestrator.handle_failed_task. rewrite Hrun.
    do 2 eexists. split; [reflexivity|]. simpl.
    split; [rewrite Hl'; apply lookup_insert_eq|].
    do 4 (split; [assumption|]). split; assumption.
Qed.

Lemma handlers_mirror_snapshot_witness :
  (exists self' d',
     TaskOrchestrator.handle_completed_task run_assigned (PStr "task-early")
                                            (PDict record_done) "2024-05-01T12:00:00"
     = (Returns tt, self')
     /\ MemoryClient.long_term (TaskOrchestrator.memory_client self') !! task_key "task-early"
        = Some (PDict d')
     /\ PyDict.get "status" d' = Some (PStr "completed")
     /\ PyDict.get "result" d' = Some (PDict record_done)
     /\ PyDict.get "completed_at" d' = Some (PStr "2024-05-01T12:00:00")
     /\ (forall k, k <> "status" -> k <> "result" -> k <> "completed_at" ->
                   PyDict.get k d' = PyDict.get k (Task.to_dict task_parser))
     /\ MemoryClient.world_state (TaskOrchestrator.memory_client self')
        = MemoryClient.world_state (TaskOrchestrator.memory_client run_assigned)
     /\ TaskOrchestrator.agents self' = TaskOrchestrator.agents run_assigned)
  /\ (exists self' d',
        TaskOrchestrator.handle_failed_task run_assigned (PStr "task-early")
                                            (PDict record_failed) "2024-05-01T12:00:00"
        = (Returns tt, self')
        /\ MemoryClient.long_term (TaskOrchestrator.memory_client self')
           !! task_key "task-early" = Some (PDict d')
        /\ PyDict.get "status" d' = Some (PStr "failed")
        /\ PyDict.get "result" d' = Some (PDict record_failed)
        /\ PyDict.get "failed_at" d' = Some (PStr "2024-05-01T12:00:00")
        /\ (forall k, k <> "status" -> k <> "result" -> k <> "failed_at" ->
                      PyDict.get k d' = PyDict.get k (Task.to_dict task_parser))
        /\ MemoryClient.world_state (TaskOrchestrator.memory_client self')
           = MemoryClient.world_state (TaskOrchestrator.memory_client run_assigned)
        /\ TaskOrchestrator.agents self' = TaskOrchestrator.agents run_assigned).
Proof.
  apply (handlers_mirror_snapshot run_assigned "task-early").
  - vm_compute. constructor.
  - vm_compute. reflexivity.
  - discriminate.
Defined.

(** ** What the operations do to the queue, in general *)

(** A relation between queues that holds across the two elementary
    changes, settling and assigning, holds across every operation. *)
Section QueueChanges.
Variable R : TaskQueue.t -> TaskQueue.t -> Prop.
Hypothesis R_refl : forall q, R q q.
Hypothesis R_trans : forall q1 q2 q3, R q1 q2 -> R q2 q3 -> R q1 q3.
Hypothesis R_settle :
  forall q idv st result, terminal st -> R q (after_settling q idv st result).
Hypothesis R_assign :
  forall q caps key task a,
    TaskQueue.next_entry q caps = Some (key, task) -> R q (after_assignment q key task a).

Lemma monitor_one_related (now : string) (a : Agent.t) (self : TaskOrchestrator.t) :
  R (TaskOrchestrator.task_queue self)
    (TaskOrchestrator.task_queue (snd (TaskOrchestrator.monitor_one now a self))).
Proof.
  destruct (monitor_one_effect now a self) as (_ & _ & [-> | Hsettle]); [apply R_refl|].
  destruct Hsettle as (_ & idv & record & st & _ & _ & _ & _ & _ & Hterm & ->).
  now apply R_settle.
Qed.

Lemma monitor_loop_related (clock : string -> string)
    (entries : list (string * Agent.t)) (self : TaskOrchestrator.t) :
  R (TaskOrchestrator.task_queue self)
    (TaskOrchestrator.task_queue (snd (TaskOrchestrator.monitor_loop clock entries self))).
Proof.
  revert self. induction entries as [|[k a] rest IH]; intros self; simpl; [apply R_refl|].
  pose proof (monitor_one_related (clock k) a self) as H1.
  destruct (TaskOrchestrator.monitor_one (clock k) a self) as [[u|e] self1]; simpl in *;
    [|assumption].
  eapply R_trans; [exact H1 | apply IH].
Qed.

Lemma assign_one_related (now : string) (a : Agent.t) (q : TaskQueue.t)
    (m : MemoryClient.t) :
  R q (snd (fst (TaskOrchestrator.assign_one now a q m))).
Proof.
  unfold TaskOrchestrator.assign_one.
  destruct (negb (String.eqb (Agent.status a) "idle")); [apply R_refl|].
  destruct (TaskQueue.next_entry q (Agent.capabilities a)) as [[key task]|] eqn:Hnext;
    [|apply R_refl].
  destruct (Agent.assign_task a (Task.to_dict task) now m) as [[[[|]|e] a'] m'];
    simpl; try apply R_refl.
  eapply R_assign. exact Hnext.
Qed.

Lemma assign_loop_related (clock : string -> string) (entries : list (string * Agent.t))
    (q : TaskQueue.t) (m : MemoryClient.t) (assigned_count : Z) :
  R q (snd (fst (TaskOrchestrator.assign_loop clock entries q m assigned_count))).
Proof.
  revert q m assigned_count.
  induction entries as [|[k a] rest IH]; intros q m assigned_count; simpl;
    [apply R_refl|].
  pose proof (assign_one_related (clock k) a q m) as H1.
  destruct (TaskOrchestrator.assign_one (clock k) a q m) as [[[[n|e] a'] q'] m'];
    simpl in *; [|assumption].
  specialize (IH q' m' (assigned_count + n)).
  destruct (TaskOrchestrator.assign_loop clock rest q' m' (assigned_count + n))
    as [[[r rest'] q''] m'']; simpl in *.
  eapply R_trans; eassumption.
Qed.

Lemma assign_tasks_related (self : TaskOrchestrator.t) (clock : string -> string) :
  R (TaskOrchestrator.task_queue self)
    (TaskOrchestrator.task_queue (snd (TaskOrchestrator.assign_tasks self clock))).
Proof.
  unfold TaskOrchestrator.assign_tasks.
  pose proof (assign_loop_related clock (TaskOrchestrator.agents self)
                (TaskOrchestrator.task_queue self) (TaskOrchestrator.memory_client self) 0)
    as H.
  destruct (TaskOrchestrator.assign_loop clock _ _ _ 0) as [[[r agents'] q] m]. exact H.
Qed.

Lemma cycle_related (self : TaskOrchestrator.t)
    (assign_clock monitor_clock : string -> string) (now : string) :
  R (TaskOrchestrator.task_queue self)
    (TaskOrchestrator.task_queue
       (TaskOrchestrator.cycle self assign_clock monitor_clock now)).
Proof.
  unfold TaskOrchestrator.cycle.
  pose proof (assign_tasks_related self assign_clock) as H1.
  destruct (TaskOrchestrator.assign_tasks self assign_clock) as [[assigned|e] self1];
    simpl in H1; [|exact H1].
  set (self2 := if 0 <? assigned then _ else self1).
  assert (H2 : TaskOrchestrator.task_queue self2 = TaskOrchestrator.task_queue self1)
    by (subst self2; now destruct (0 <? assigned)).
  pose proof (monitor_loop_related monitor_clock (TaskOrchestrator.agents self2) self2)
    as H3.
  fold (TaskOrchestrator.monitor_progress self2 monitor_clock) in H3. rewrite H2 in H3.
  destruct (TaskOrchestrator.monitor_progress self2 monitor_clock) as [[u|e] self3];
    simpl in H3; [|eapply R_trans; eassumption].
  unfold TaskOrchestrator.update_system_state.
  destruct (MemoryClient.update_world_state _ _ (TaskOrchestrator.memory_client self3))
    as [[u'|e] m]; simpl; eapply R_trans; eassumption.
Qed.

Lemma step_related (self : TaskOrchestrator.t) (o : TaskOrchestrator.op) :
  R (TaskOrchestrator.task_queue self)
    (TaskOrchestrator.task_queue (TaskOrchestrator.step self o)).
Proof.
  destruct o as [clock|clock|idv result now|idv error_data now|c1 c2 now]; simpl.
  - apply assign_tasks_related.
  - apply monitor_loop_related.
  - destruct (handle_completed_task_settled self idv result now) as (-> & _).
    apply R_settle. now left.
  - destruct (handle_failed_task_settled self idv error_data now) as (-> & _).
    apply R_settle. now right.
  - apply cycle_related.
Qed.

Lemma run_ops_related (ops : list TaskOrchestrator.op) (self : TaskOrchestrator.t) :
  R (TaskOrchestrator.task_queue self)
    (TaskOrchestrator.task_queue (TaskOrchestrator.run_ops self ops)).
Proof.
  revert self. induction ops as [|o ops IH]; intros self; simpl; [apply R_refl|].
  eapply R_trans; [apply step_related | apply IH].
Qed.
End QueueChanges.

(** *** The four statuses *)

Lemma statuses_known_update_task (q : TaskQueue.t) (s : string) (updates : list Task.attr) :
  (forall t, In (Task.status (fold_left Task.setattr updates t)) known_statuses) ->
  statuses_known q -> statuses_known (snd (TaskQueue.update_task q s updates)).
Proof.
  intros Hnew Hknown. unfold TaskQueue.update_task.
  destruct (PyDict.get s (TaskQueue.tasks q)) as [t|]; simpl; [|assumption].
  unfold statuses_known in *. simpl. rewrite List.Forall_forall in *.
  intros [k' t'] Hin. apply In_set in Hin.
  destruct Hin as [Hin|[-> ->]]; simpl; [exact (Hknown _ Hin) | apply Hnew].
Qed.

Lemma statuses_known_settling (q : TaskQueue.t) (idv : pyval) (st : string)
    (result : pyval) :
  terminal st -> statuses_known q -> statuses_known (after_settling q idv st result).
Proof.
  intros Hterm Hknown. unfold after_settling. destruct idv; simpl; try assumption.
  pose proof (statuses_known_update_task q s
                [Task.Attr_status st; Task.Attr_result result]) as H.
  destruct (TaskQueue.update_task q s _) as [found q']. apply H; [|assumption].
  intros t. destruct (fold_settle_attrs t st result) as (-> & _).
  unfold known_statuses. destruct Hterm as [-> | ->]; simpl; auto.
Qed.

Lemma statuses_known_assignment (q : TaskQueue.t) (key : string) (task : Task.t)
    (a : Agent.t) :
  statuses_known q -> statuses_known (after_assignment q key task a).
Proof.
  intros Hknown. unfold after_assignment.
  assert (Hnew : forall t, In (Task.status (fold_left Task.setattr
                                              (TaskOrchestrator.assignment a) t))
                              known_statuses)
    by (intros t; destruct t; simpl; auto).
  apply statuses_known_update_task; [exact Hnew|].
  unfold statuses_known in *. simpl. rewrite List.Forall_forall in *.
  intros [k' t'] Hin. apply In_alter in Hin.
  destruct Hin as (t & Hin & [-> | [-> ->]]); simpl.
  - exact (Hknown _ Hin).
  - apply Hnew.
Qed.

(** X21. The orchestrator writes no status but pending, assigned,
    completed and failed: if every task of the queue has one of the
    four, so has every task after [create_task] and after any sequence
    of [assign_tasks], [monitor_progress], [handle_completed_task],
    [handle_failed_task] and whole cycles, whether they return or
    raise. *)
Theorem statuses_stay_known (self : TaskOrchestrator.t) :
  statuses_known (TaskOrchestrator.task_queue self) ->
  (forall ops,
      statuses_known (TaskOrchestrator.task_queue (TaskOrchestrator.run_ops self ops)))
  /\ (forall uuid4 now description requirements required_capabilities priority
             dependencies context,
        statuses_known
          (TaskOrchestrator.task_queue
             (snd (TaskOrchestrator.create_task self uuid4 now description requirements
                     required_capabilities priority dependencies context)))).
Proof.
  intros Hknown. split.
  - intros ops.
    apply (run_ops_related (fun q q' => statuses_known q -> statuses_known q')); auto.
    + intros q idv st result Hterm. now apply statuses_known_settling.
    + intros q caps key task a _. apply statuses_known_assignment.
  - intros uuid4 now description requirements required_capabilities priority
           dependencies context.
    unfold TaskOrchestrator.create_task, TaskQueue.add_task. cbv iota beta.
    assert (Hq : statuses_known
                   {| TaskQueue.tasks :=
                        PyDict.set uuid4
                          (Task.init uuid4 now description requirements
                                     required_capabilities priority dependencies context)
                          (TaskQueue.tasks (TaskOrchestrator.task_queue self)) |}).
    { unfold statuses_known in *. simpl. rewrite List.Forall_forall in *.
      intros [k' t'] Hin. apply In_set in Hin.
      destruct Hin as [Hin|[-> ->]]; simpl; [exact (Hknown _ Hin) | auto]. }
    simpl Task.id.
    destruct (MemoryClient.store_long_term _ _ _) as [[u|e] m]; exact Hq.
Qed.

Lemma statuses_stay_known_witness :
  (forall ops,
      statuses_known (TaskOrchestrator.task_queue (TaskOrchestrator.run_ops run_monitored ops)))
  /\ (forall uuid4 now description requirements required_capabilities priority
             dependencies context,
        statuses_known
          (TaskOrchestrator.task_queue
             (snd (TaskOrchestrator.create_task run_monitored uuid4 now description
                     requirements required_capabilities priority dependencies context)))).
Proof.
  apply (statuses_stay_known run_monitored).
  unfold statuses_known. vm_compute.
  constructor; [vm_compute; do 2 right; left; reflexivity | constructor].
Defined.

(** *** Tasks are neither lost nor rewritten *)

Lemma same_tasks_refl (q : TaskQueue.t) : same_tasks q q.
Proof.
  split; [reflexivity|]. intros tid t Hget. exists t. split; [assumption|].
  unfold immutable_kept. tauto.
Qed.

Lemma same_tasks_trans (q1 q2 q3 : TaskQueue.t) :
  same_tasks q1 q2 -> same_tasks q2 q3 -> same_tasks q1 q3.
Proof.
  intros [Hk12 H12] [Hk23 H23]. split; [congruence|].
  intros tid t Hget. destruct (H12 tid t Hget) as (t2 & Hget2 & Hkept2).
  destruct (H23 tid t2 Hget2) as (t3 & Hget3 & Hkept3).
  exists t3. split; [assumption|]. eapply immutable_kept_trans; eassumption.
Qed.

Lemma same_tasks_update_task (q : TaskQueue.t) (s : string) (updates : list Task.attr) :
  incl (map Task.attr_name updates) ["status"; "assigned_to"; "result"] ->
  same_tasks q (snd (TaskQueue.update_task q s updates)).
Proof.
  intros Hnames. split; [apply update_task_keys|].
  intros tid t Hget. rewrite update_task_get, Hget.
  destruct (String.eqb s tid); simpl; eexists; (split; [reflexivity|]).
  - now apply fold_setattr_mutable_kept.
  - unfold immutable_kept. tauto.
Qed.

Lemma same_tasks_settling (q : TaskQueue.t) (idv : pyval) (st : string) (result : pyval) :
  same_tasks q (after_settling q idv st result).
Proof.
  unfold after_settling. destruct idv; simpl; try apply same_tasks_refl.
  pose proof (same_tasks_update_task q s [Task.Attr_status st; Task.Attr_result result])
    as H.
  destruct (TaskQueue.update_task q s _) as [found q']. apply H.
  intros x Hx. simpl in *. tauto.
Qed.

Lemma same_tasks_assignment (q : TaskQueue.t) (key : string) (task : Task.t)
    (a : Agent.t) :
  same_tasks q (after_assignment q key task a).
Proof.
  assert (Hnames : incl (map Task.attr_name (TaskOrchestrator.assignment a))
                        ["status"; "assigned_to"; "result"])
    by (intros x Hx; simpl in *; tauto).
  unfold after_assignment. eapply same_tasks_trans;
    [|apply same_tasks_update_task; exact Hnames].
  split; [simpl; apply keys_alter|].
  intros tid t Hget. simpl TaskQueue.tasks. rewrite get_alter, Hget.
  destruct (String.eqb key tid); cbn [option_map]; eexists; (split; [reflexivity|]).
  - exact (fold_setattr_mutable_kept (TaskOrchestrator.assignment a) t Hnames).
  - unfold immutable_kept. tauto.
Qed.

(** X22. No sequence of [assign_tasks], [monitor_progress],
    [handle_completed_task], [handle_failed_task] and whole cycles adds
    a task to the queue, removes one or changes the order of the keys,
    and every task keeps its id, description, requirements,
    required_capabilities, priority, dependencies, context and
    created_at: the operations write status, assigned_to and result
    only. *)
Theorem operations_keep_tasks (self : TaskOrchestrator.t)
    (ops : list TaskOrchestrator.op) :
  PyDict.keys (TaskQueue.tasks (TaskOrchestrator.task_queue
                                  (TaskOrchestrator.run_ops self ops)))
  = PyDict.keys (TaskQueue.tasks (TaskOrchestrator.task_queue self))
  /\ forall tid t,
       PyDict.get tid (TaskQueue.tasks (TaskOrchestrator.task_queue self)) = Some t ->
       exists t', PyDict.get tid (TaskQueue.tasks
                                    (TaskOrchestrator.task_queue
                                       (TaskOrchestrator.run_ops self ops))) = Some t'
                  /\ immutable_kept t t'.
Proof.
  apply (run_ops_related same_tasks).
  - apply same_tasks_refl.
  - apply same_tasks_trans.
  - intros q idv st result _. apply same_tasks_settling.
  - intros q caps key task a _. apply same_tasks_assignment.
Qed.

(** ** The status snapshot *)

Lemma count_status_cons (st s : string) (l : list string) :
  TaskOrchestrator.count_status st (s :: l)
  = (if String.eqb st s then 1 else 0) + TaskOrchestrator.count_status st l.
Proof.
  unfold TaskOrchestrator.count_status. simpl.
  destruct (String.eqb st s); simpl length; lia.
Qed.

Lemma counted_tasks_bound (statuses : list string) :
  0 <= counted_tasks statuses <= Z.of_nat (length statuses)
  /\ (Forall (fun s => In s known_statuses) statuses ->
      counted_tasks statuses = Z.of_nat (length statuses)).
Proof.
  unfold counted_tasks. induction statuses as [|s l [IHb IHe]].
  - unfold TaskOrchestrator.count_status. simpl. split; [lia | reflexivity].
  - rewrite !count_status_cons. simpl length. rewrite Nat2Z.inj_succ.
    destruct (String.eqb_spec "pending" s) as [H1|H1];
      destruct (String.eqb_spec "assigned" s) as [H2|H2];
      destruct (String.eqb_spec "completed" s) as [H3|H3];
      destruct (String.eqb_spec "failed" s) as [H4|H4];
      try congruence;
      (split; [lia|]); intros Hall; apply List.Forall_cons_iff in Hall;
      destruct Hall as [Hs Hl]; specialize (IHe Hl); try lia.
    simpl in Hs. intuition congruence.
Qed.

(** X23. When the write goes through, [update_system_state] publishes
    under [system:status] the numbers of tasks that are pending,
    assigned, completed and failed, the numbers of idle and working
    agents and the time, and changes neither the queue nor the agents.
    A task with any other status is counted nowhere: the four numbers
    add up to at most the number of tasks, and to exactly that number
    when every task has one of the four statuses. *)
Theorem update_system_state_counts (self : TaskOrchestrator.t) (now : string) :
  next_fault (TaskOrchestrator.memory_client self) = None ->
  exists self',
    TaskOrchestrator.update_system_state self now = (Returns tt, self')
    /\ MemoryClient.world_state (TaskOrchestrator.memory_client self') !! "system:status"
       = Some (system_status self now)
    /\ TaskOrchestrator.task_queue self' = TaskOrchestrator.task_queue self
    /\ TaskOrchestrator.agents self' = TaskOrchestrator.agents self
    /\ 0 <= counted_tasks (task_statuses self)
       <= Z.of_nat (length (TaskQueue.tasks (TaskOrchestrator.task_queue self)))
    /\ (statuses_known (TaskOrchestrator.task_queue self) ->
        counted_tasks (task_statuses self)
        = Z.of_nat (length (TaskQueue.tasks (TaskOrchestrator.task_queue self)))).
Proof.
  intros Hok. unfold TaskOrchestrator.update_system_state.
  destruct (update_world_state_goes_through "system:status" (system_status self now)
              (TaskOrchestrator.memory_client self) Hok) as (m' & Hrun & Hw & _).
  change (PDict [("tasks", TaskOrchestrator.counts _ _); ("agents", _); ("updated_at", _)])
    with (system_status self now).
  rewrite Hrun. eexists. split; [reflexivity|]. simpl.
  split; [rewrite Hw; apply lookup_insert_eq|]. do 2 (split; [reflexivity|]).
  assert (Hlen : length (task_statuses self)
                 = length (TaskQueue.tasks (TaskOrchestrator.task_queue self)))
    by (unfold task_statuses, PyDict.values; now rewrite !length_map).
  destruct (counted_tasks_bound (task_statuses self)) as [Hb He]. rewrite Hlen in Hb, He.
  split; [exact Hb|]. intros Hknown. apply He.
  unfold statuses_known in Hknown. unfold task_statuses, PyDict.values.
  rewrite List.Forall_forall in *. intros s Hs.
  apply in_map_iff in Hs. destruct Hs as (t & <- & Ht).
  apply in_map_iff in Ht. destruct Ht as (e & <- & He'). exact (Hknown _ He').
Qed.

Lemma update_system_state_counts_witness :
  exists self',
    TaskOrchestrator.update_system_state run_monitored "2024-05-01T12:00:05"
    = (Returns tt, self')
    /\ MemoryClient.world_state (TaskOrchestrator.memory_client self') !! "system:status"
       = Some (system_status run_monitored "2024-05-01T12:00:05")
    /\ TaskOrchestrator.task_queue self' = TaskOrchestrator.task_queue run_monitored
    /\ TaskOrchestrator.agents self' = TaskOrchestrator.agents run_monitored
    /\ 0 <= counted_tasks (task_statuses run_monitored)
       <= Z.of_nat (length (TaskQueue.tasks (TaskOrchestrator.task_queue run_monitored)))
    /\ (statuses_known (TaskOrchestrator.task_queue run_monitored) ->
        counted_tasks (task_statuses run_monitored)
        = Z.of_nat (length (TaskQueue.tasks (TaskOrchestrator.task_queue run_monitored)))).
Proof.
  apply (update_system_state_counts run_monitored). reflexivity.
Defined.
